(** * Container runtime resolution of act (package [pkg/container])

    A shallow embedding of [runtime_detector.go], [factory.go] and
    [null_container.go]: the runtime detector, the container factory and the
    null container, with the operating system and the container engines seen
    through a record of probes.  Log output is not part of the model. *)

From Stdlib Require Import ZArith Ascii String List Bool Lia Sorted.
From stdpp Require Import base option list gmap strings.

Local Open Scope string_scope.
Local Open Scope Z_scope.

(** ** Strings: the helpers of Go's [strings] and [path/filepath] the code uses *)

Module strings.

(** [strings.HasPrefix]. *)
Definition HasPrefix (s p : string) : bool := String.prefix p s.

(** [strings.Contains]: [substr] occurs somewhere in [s]. *)
Fixpoint Contains (s substr : string) : bool :=
  String.prefix substr s ||
  match s with
  | EmptyString => false
  | String _ s' => Contains s' substr
  end.

(** Lower-casing of one byte: the ASCII letters [A]..[Z]. *)
Definition lower_ascii (c : ascii) : ascii :=
  let n := nat_of_ascii c in
  if ((65 <=? n)%nat && (n <=? 90)%nat)%bool then ascii_of_nat (n + 32) else c.

(** The fast path of [strings.ToLower]: a string of ASCII bytes only is
    lower-cased byte by byte. *)
Fixpoint isASCII (s : string) : bool :=
  match s with
  | EmptyString => true
  | String c s' => (nat_of_ascii c <? 128)%nat && isASCII s'
  end.

Fixpoint lowerASCII (s : string) : string :=
  match s with
  | EmptyString => EmptyString
  | String c s' => String (lower_ascii c) (lowerASCII s')
  end.

(** The two runes outside ASCII that [unicode.ToLower] maps to an ASCII
    letter, by their UTF-8 bytes: U+0130, capital I with dot above (C4 B0),
    goes to [i], and U+212A, the Kelvin sign (E2 84 AA), goes to [k]. *)
Definition is_dotted_I (c1 c2 : ascii) : bool :=
  Ascii.eqb c1 "196" && Ascii.eqb c2 "176".

Definition is_kelvin (c1 c2 c3 : ascii) : bool :=
  Ascii.eqb c1 "226" && Ascii.eqb c2 "132" && Ascii.eqb c3 "170".

(** [strings.ToLower], exact on every ASCII byte of the result: the ASCII
    letters, and the two runes outside ASCII that lower-case to an ASCII
    letter.  Every other rune keeps its bytes here; Go turns it into a rune
    that is again outside ASCII (an invalid byte into U+FFFD), so the result
    equals an ASCII text, and holds an ASCII text, exactly when Go's does.
    The package uses the result in no other way. *)
Fixpoint ToLower (s : string) : string :=
  match s with
  | EmptyString => EmptyString
  | String c1 s1 =>
      match s1 with
      | EmptyString => String (lower_ascii c1) (ToLower s1)
      | String c2 s2 =>
          if is_dotted_I c1 c2 then String "i" (ToLower s2)
          else
            match s2 with
            | EmptyString => String (lower_ascii c1) (ToLower s1)
            | String c3 s3 =>
                if is_kelvin c1 c2 c3 then String "k" (ToLower s3)
                else String (lower_ascii c1) (ToLower s1)
            end
      end
  end.

(** White space in one byte: tab, line feed, vertical tab, form feed,
    carriage return, space. *)
Definition is_space (c : ascii) : bool :=
  let n := nat_of_ascii c in
  ((9 <=? n)%nat && (n <=? 13)%nat)%bool || (n =? 32)%nat.

(** White space in two bytes of UTF-8: U+0085 (C2 85) and U+00A0 (C2 A0). *)
Definition is_space2 (c1 c2 : ascii) : bool :=
  Ascii.eqb c1 "194" && (Ascii.eqb c2 "133" || Ascii.eqb c2 "160").

(** White space in three bytes of UTF-8: U+1680 (E1 9A 80), U+2000 to U+200A
    (E2 80 80 to E2 80 8A), U+2028, U+2029, U+202F (E2 80 A8, A9, AF),
    U+205F (E2 81 9F) and U+3000 (E3 80 80). *)
Definition is_space3 (c1 c2 c3 : ascii) : bool :=
  let n3 := nat_of_ascii c3 in
  (Ascii.eqb c1 "225" && Ascii.eqb c2 "154" && Ascii.eqb c3 "128")
  || (Ascii.eqb c1 "226" && Ascii.eqb c2 "128"
      && (((128 <=? n3)%nat && (n3 <=? 138)%nat)
          || (n3 =? 168)%nat || (n3 =? 169)%nat || (n3 =? 175)%nat))
  || (Ascii.eqb c1 "226" && Ascii.eqb c2 "129" && Ascii.eqb c3 "159")
  || (Ascii.eqb c1 "227" && Ascii.eqb c2 "128" && Ascii.eqb c3 "128").

(** The rest of a string after one leading white-space rune, as
    [unicode.IsSpace] sees white space; [None] when the string does not start
    with one. *)
Definition leadingSpace (s : string) : option string :=
  match s with
  | EmptyString => None
  | String c1 s1 =>
      if is_space c1 then Some s1
      else
        match s1 with
        | EmptyString => None
        | String c2 s2 =>
            if is_space2 c1 c2 then Some s2
            else
              match s2 with
              | EmptyString => None
              | String c3 s3 => if is_space3 c1 c2 c3 then Some s3 else None
              end
        end
  end.

(** The string is one white-space rune and nothing else. *)
Definition isSpaceRune (s : string) : bool :=
  match leadingSpace s with
  | Some EmptyString => true
  | _ => false
  end.

(** Leading white-space runes taken off, one after the other. *)
Fixpoint TrimLeft (s : string) : string :=
  match s with
  | EmptyString => EmptyString
  | String c1 s1 =>
      if is_space c1 then TrimLeft s1
      else
        match s1 with
        | EmptyString => s
        | String c2 s2 =>
            if is_space2 c1 c2 then TrimLeft s2
            else
              match s2 with
              | EmptyString => s
              | String c3 s3 => if is_space3 c1 c2 c3 then TrimLeft s3 else s
              end
        end
  end.

(** Trailing white-space runes taken off: once the rest is trimmed, the
    first byte goes too when what is left is one white-space rune. *)
Fixpoint TrimRight (s : string) : string :=
  match s with
  | EmptyString => EmptyString
  | String c s' =>
      let u := String c (TrimRight s') in
      if isSpaceRune u then EmptyString else u
  end.

(** [strings.TrimSpace]: white space as [unicode.IsSpace] has it, read off
    the UTF-8 bytes; a byte that is not valid UTF-8 is not white space. *)
Definition TrimSpace (s : string) : string := TrimRight (TrimLeft s).

(** [strings.ReplaceAll] for a one-byte pattern and a one-byte replacement. *)
Fixpoint ReplaceByte (s : string) (old new : ascii) : string :=
  match s with
  | EmptyString => EmptyString
  | String c s' =>
      String (if Ascii.eqb c old then new else c) (ReplaceByte s' old new)
  end.

End strings.

(** Line feed, and the two marks of the status block (UTF-8 encoded). *)
Definition LF : string := String "010"%char EmptyString.
Definition cross_mark : string :=
  String "226"%char (String "156"%char (String "151"%char EmptyString)).
Definition check_mark : string :=
  String "226"%char (String "156"%char (String "147"%char EmptyString)).

(** ** The runtime identity *)

(** [ContainerRuntime] with its three constants. *)
Inductive ContainerRuntime : Type :=
| RuntimeUnknown
| RuntimeDocker
| RuntimePodman.

#[global] Instance ContainerRuntime_eq_dec : EqDecision ContainerRuntime.
Proof. solve_decision. Defined.

Definition runtime_eqb (a b : ContainerRuntime) : bool := bool_decide (a = b).

(** [ContainerRuntime.String]. *)
Definition String_of (r : ContainerRuntime) : string :=
  match r with
  | RuntimeDocker => "docker"
  | RuntimePodman => "podman"
  | _ => "unknown"
  end.

(** [RuntimeSocket]: a detected container runtime socket. *)
Record RuntimeSocket : Type := mkSocket {
  Path : string;
  Runtime : ContainerRuntime;
  Score : Z
}.

(** [RuntimeDetector]: the detection configuration (the logger is left out). *)
Record RuntimeDetector : Type := mkDetector {
  preferredRuntime : ContainerRuntime;
  customSocket : string
}.

(** ** The host: what the detector can observe *)

(** [os.FileMode] is a 32-bit mask; the two type bits the detector tests. *)
Definition FileMode : Type := Z.
Definition ModeNamedPipe : FileMode := Z.shiftl 1 25.
Definition ModeSocket : FileMode := Z.shiftl 1 24.
Definition ModeDir : FileMode := Z.shiftl 1 31.

(** One observation of the host.  Every probe of the detector reads it and
    none changes it; two calls may be given two different hosts. *)
Record World : Type := mkWorld {
  (** the process environment; a variable may be set to the empty string *)
  environ : gmap string string;
  (** [os.ExpandEnv] under that environment *)
  ExpandEnv : string -> string;
  (** [os.Lstat]: the mode of the entry, [None] when the call fails *)
  Lstat : string -> option FileMode;
  (** [os.Stat] succeeded *)
  Stat : string -> bool;
  (** [exec.LookPath] found the binary *)
  LookPath : string -> bool;
  (** [filepath.Separator] of the platform *)
  Separator : ascii;
  (** [client.NewClientWithOpts(client.WithHost(host), ...)] gave a client *)
  NewClientWithOpts : string -> bool;
  (** [cli.Ping] answered before the deadline *)
  Ping : string -> bool;
  (** [socketLocation()], declared in another file of the package *)
  socketLocation : string * bool;
  (** running a command under its deadline: standard output, or [None] on
      any error (not found, non-zero exit, deadline) *)
  RunCommand : string -> list string -> option string
}.

(** [os.Getenv]: the value, empty when the variable is not present. *)
Definition Getenv (w : World) (key : string) : string :=
  default "" (environ w !! key).

(** [filepath.ToSlash]. *)
Definition ToSlash (w : World) (path : string) : string :=
  if Ascii.eqb (Separator w) "/"%char then path
  else strings.ReplaceByte path (Separator w) "/"%char.

(** The prefix of a Windows named pipe: backslash backslash dot backslash. *)
Definition pipe_prefix : string :=
  String "092"%char (String "092"%char (String "."%char (String "092"%char EmptyString))).

(** ** The detector *)

(** [NewRuntimeDetector]. *)
Definition NewRuntimeDetector : RuntimeDetector :=
  {| preferredRuntime := RuntimeUnknown; customSocket := "" |}.

(** [SetPreferredRuntime]. *)
Definition SetPreferredRuntime (rd : RuntimeDetector) (runtime : ContainerRuntime)
  : RuntimeDetector :=
  {| preferredRuntime := runtime; customSocket := customSocket rd |}.

(** [SetCustomSocket]. *)
Definition SetCustomSocket (rd : RuntimeDetector) (socket : string) : RuntimeDetector :=
  {| preferredRuntime := preferredRuntime rd; customSocket := socket |}.

(** [checkEnvironmentHints]: the tool's own variable first, then the Podman
    host, then the Docker host.  A value of the first variable that is
    neither name leaves the [switch] without returning. *)
Definition checkEnvironmentHints (rd : RuntimeDetector) (w : World) : ContainerRuntime :=
  let hostHints :=
    if negb (String.eqb (Getenv w "PODMAN_HOST") "") then RuntimePodman
    else if negb (String.eqb (Getenv w "DOCKER_HOST") "") then RuntimeDocker
    else RuntimeUnknown in
  let actRuntime := Getenv w "ACT_CONTAINER_RUNTIME" in
  if negb (String.eqb actRuntime "") then
    let lower := strings.ToLower actRuntime in
    if String.eqb lower "docker" then RuntimeDocker
    else if String.eqb lower "podman" then RuntimePodman
    else hostHints
  else hostHints.

(** [socketExists]: the entry exists and is a socket or a named pipe. *)
Definition socketExists (rd : RuntimeDetector) (w : World) (path : string) : bool :=
  match Lstat w path with
  | Some mode =>
      negb (Z.land mode ModeSocket =? 0) || negb (Z.land mode ModeNamedPipe =? 0)
  | None => false
  end.

(** [guessRuntimeFromSocket]. *)
Definition guessRuntimeFromSocket (rd : RuntimeDetector) (socket : string)
  : ContainerRuntime :=
  let lower := strings.ToLower socket in
  if strings.Contains lower "podman" then RuntimePodman
  else if strings.Contains lower "docker" then RuntimeDocker
  else RuntimeDocker.

Definition backslash : string := String "092"%char EmptyString.

(** The common socket locations of [detectRuntimeSockets], in table order. *)
Definition candidates : list RuntimeSocket :=
  [ mkSocket "$XDG_RUNTIME_DIR/podman/podman.sock" RuntimePodman 95;
    mkSocket "/run/podman/podman.sock" RuntimePodman 90;
    mkSocket "$HOME/.local/share/containers/podman/machine/podman.sock" RuntimePodman 85;
    mkSocket "/var/run/docker.sock" RuntimeDocker 80;
    mkSocket "$HOME/.colima/docker.sock" RuntimeDocker 75;
    mkSocket "$XDG_RUNTIME_DIR/docker.sock" RuntimeDocker 70;
    mkSocket "$HOME/.docker/run/docker.sock" RuntimeDocker 65;
    mkSocket (pipe_prefix ++ "pipe" ++ backslash ++ "docker_engine") RuntimeDocker 60;
    mkSocket (pipe_prefix ++ "pipe" ++ backslash ++ "podman-machine-default")
      RuntimePodman 85 ].

(** The first loop of [detectRuntimeSockets]: every candidate whose expanded
    path exists is appended, with the expanded path. *)
Fixpoint collectAvailable (rd : RuntimeDetector) (w : World)
  (cands : list RuntimeSocket) : list RuntimeSocket :=
  match cands with
  | [] => []
  | candidate :: rest =>
      let expanded := ExpandEnv w (Path candidate) in
      if socketExists rd w expanded
      then mkSocket expanded (Runtime candidate) (Score candidate)
             :: collectAvailable rd w rest
      else collectAvailable rd w rest
  end.

(** The body of the inner sorting loop: positions [i] and [j] are exchanged
    when the score at [i] is lower. *)
Definition swapIfLower (i j : nat) (available : list RuntimeSocket)
  : list RuntimeSocket :=
  match available !! i, available !! j with
  | Some x, Some y =>
      if Score x <? Score y then <[j := x]> (<[i := y]> available) else available
  | _, _ => available
  end.

(** The inner loop, [j] from [i+1] to the end (an exchange keeps the length). *)
Definition sortInner (i : nat) (available : list RuntimeSocket) : list RuntimeSocket :=
  foldl (fun a j => swapIfLower i j a) available
        (seq (S i) (length available - S i)).

(** The sorting loops of [detectRuntimeSockets], [i] from [0] to the last
    but one position. *)
Definition sortByScore (available : list RuntimeSocket) : list RuntimeSocket :=
  foldl (fun a i => sortInner i a) available (seq 0 (length available - 1)).

(** [detectRuntimeSockets]. *)
Definition detectRuntimeSockets (rd : RuntimeDetector) (w : World)
  : list RuntimeSocket :=
  if negb (String.eqb (customSocket rd) "") then
    let runtime := guessRuntimeFromSocket rd (customSocket rd) in
    [ mkSocket (customSocket rd) runtime 100 ]
  else
    sortByScore (collectAvailable rd w candidates).

(** The host string both [verifySocketConnection] and [GetSocketForRuntime]
    build from a socket path. *)
Definition socketHost (w : World) (path : string) : string :=
  if strings.HasPrefix path pipe_prefix
  then "npipe://" ++ ToSlash w path
  else "unix://" ++ path.

(** [verifySocketConnection]: a client for the host, then a ping. *)
Definition verifySocketConnection (rd : RuntimeDetector) (w : World)
  (socket : RuntimeSocket) : bool :=
  let host := socketHost w (Path socket) in
  if negb (NewClientWithOpts w host) then false
  else if negb (Ping w host) then false
  else true.

(** [verifyDocker]: the binary, then a ping through [socketLocation]. *)
Definition verifyDocker (rd : RuntimeDetector) (w : World) : bool :=
  if negb (LookPath w "docker") then false
  else
    let '(socket, found) := socketLocation w in
    if found then
      if negb (NewClientWithOpts w socket) then false else Ping w socket
    else false.

(** [verifyPodman]: the binary, then [podman info]. *)
Definition verifyPodman (rd : RuntimeDetector) (w : World) : bool :=
  if negb (LookPath w "podman") then false
  else
    match RunCommand w "podman" ["info"; "--format"; "json"] with
    | None => false
    | Some _ => true
    end.

(** [verifyRuntime]. *)
Definition verifyRuntime (rd : RuntimeDetector) (w : World) (runtime : ContainerRuntime)
  : bool :=
  match runtime with
  | RuntimeDocker => verifyDocker rd w
  | RuntimePodman => verifyPodman rd w
  | _ => false
  end.

(** The loop of [autoDetectRuntime]: the runtime of the first socket that
    answers. *)
Fixpoint firstVerified (rd : RuntimeDetector) (w : World)
  (sockets : list RuntimeSocket) : ContainerRuntime :=
  match sockets with
  | [] => RuntimeUnknown
  | socket :: rest =>
      if verifySocketConnection rd w socket then Runtime socket
      else firstVerified rd w rest
  end.

(** [autoDetectRuntime]. *)
Definition autoDetectRuntime (rd : RuntimeDetector) (w : World) : ContainerRuntime :=
  let sockets := detectRuntimeSockets rd w in
  if (length sockets =? 0)%nat then RuntimeUnknown
  else firstVerified rd w sockets.

(** [DetectAvailableRuntime]: preference, environment, auto-detection. *)
Definition DetectAvailableRuntime (rd : RuntimeDetector) (w : World) : ContainerRuntime :=
  if negb (runtime_eqb (preferredRuntime rd) RuntimeUnknown)
     && verifyRuntime rd w (preferredRuntime rd)
  then preferredRuntime rd
  else
    let runtime := checkEnvironmentHints rd w in
    if negb (runtime_eqb runtime RuntimeUnknown) && verifyRuntime rd w runtime
    then runtime
    else
      let runtime := autoDetectRuntime rd w in
      if negb (runtime_eqb runtime RuntimeUnknown) then runtime
      else RuntimeUnknown.

(** [getPodmanMachineSocket]: the socket path [podman machine inspect]
    prints, when it is there and names an accessible entry. *)
Definition getPodmanMachineSocket (rd : RuntimeDetector) (w : World) : string * bool :=
  match RunCommand w "podman"
          ["machine"; "inspect"; "--format"; "{{.ConnectionInfo.PodmanSocket.Path}}"] with
  | None => ("", false)
  | Some output =>
      let socketPath := strings.TrimSpace output in
      if String.eqb socketPath "" || String.eqb socketPath "<no value>" then ("", false)
      else if negb (Stat w socketPath) then ("", false)
      else (socketPath, true)
  end.

(** The loop of [GetSocketForRuntime] over the detected sockets. *)
Fixpoint firstSocketFor (rd : RuntimeDetector) (w : World) (runtime : ContainerRuntime)
  (sockets : list RuntimeSocket) : string * bool :=
  match sockets with
  | [] => ("", false)
  | socket :: rest =>
      if runtime_eqb (Runtime socket) runtime && verifySocketConnection rd w socket
      then (socketHost w (Path socket), true)
      else firstSocketFor rd w runtime rest
  end.

(** [GetSocketForRuntime]. *)
Definition GetSocketForRuntime (rd : RuntimeDetector) (w : World)
  (runtime : ContainerRuntime) : string * bool :=
  if negb (String.eqb (customSocket rd) "") then (customSocket rd, true)
  else
    let machine :=
      if runtime_eqb runtime RuntimePodman then getPodmanMachineSocket rd w
      else ("", false) in
    match machine with
    | (socketPath, true) => ("unix://" ++ socketPath, true)
    | (_, false) => firstSocketFor rd w runtime (detectRuntimeSockets rd w)
    end.

(** [GetHelpfulErrorMessage]: the text grows by one piece per statement. *)
Definition GetHelpfulErrorMessage (rd : RuntimeDetector) (w : World) : string :=
  let message := "" in
  let message := message ++ "No container runtime detected" ++ LF ++ LF in
  let message := message
    ++ "Act requires either Docker or Podman to run GitHub Actions locally." ++ LF ++ LF in
  let message := message ++ "Install options:" ++ LF in
  let message := message ++ "  Docker:  https://docs.docker.com/get-docker/" ++ LF in
  let message := message
    ++ "  Podman:  https://podman.io/getting-started/installation" ++ LF ++ LF in
  let message := message ++ "Current detection status:" ++ LF in
  let dockerAvailable := verifyDocker rd w in
  let '(dockerSocket, dockerSocketFound) := socketLocation w in
  let dockerStatus := if dockerAvailable then check_mark else cross_mark in
  let message :=
    if dockerSocketFound
    then message ++ "  " ++ dockerStatus ++ " Docker (socket: " ++ dockerSocket ++ ")" ++ LF
    else message ++ "  " ++ cross_mark
           ++ " Docker daemon not running (no socket found)" ++ LF in
  let podmanAvailable := verifyPodman rd w in
  let podmanStatus := if podmanAvailable then check_mark else cross_mark in
  let message := message ++ "  " ++ podmanStatus ++ " Podman (binary check)" ++ LF in
  let message := message ++ LF ++ "Override detection with:" ++ LF in
  let message := message ++ "  act --container-runtime=docker" ++ LF in
  let message := message ++ "  act --container-runtime=podman" ++ LF in
  let message := message ++ "  act --container-socket=/custom/socket" ++ LF in
  message.

(** ** The factory: process-wide state *)

(** The two package variables of [factory.go]. *)
Record Globals : Type := mkGlobals {
  globalDetector : RuntimeDetector;
  runtimeOverride : ContainerRuntime
}.

(** The state after [init]. *)
Definition init : Globals :=
  {| globalDetector := NewRuntimeDetector; runtimeOverride := RuntimeUnknown |}.

(** Code that reads and writes the package variables. *)
Definition Factory (A : Type) : Type := Globals -> A * Globals.

Definition ret {A : Type} (a : A) : Factory A := fun g => (a, g).

Definition bind {A B : Type} (c : Factory A) (k : A -> Factory B) : Factory B :=
  fun g => let '(a, g') := c g in k a g'.

Definition gets {A : Type} (f : Globals -> A) : Factory A := fun g => (f g, g).

Definition withDetector (f : RuntimeDetector -> RuntimeDetector) : Factory unit :=
  fun g => (tt, {| globalDetector := f (globalDetector g);
                   runtimeOverride := runtimeOverride g |}).

Notation "x <- c ;; k" := (bind c (fun x => k))
  (at level 100, c at next level, right associativity).
Notation "c ;;; k" := (bind c (fun _ => k))
  (at level 100, right associativity).

(** Go's [error]: [None] is [nil], [Some msg] carries the message. *)
Definition error : Type := option string.

(** [fmt.Errorf] with the one format the null container uses. *)
Definition Errorf_no_runtime (report : string) : error :=
  Some ("no container runtime available" ++ LF ++ LF ++ report).

(** A Go slice as far as callers can tell one from another: the nil slice,
    or a slice with its elements. *)
Inductive slice (A : Type) : Type :=
| nil_slice
| slice_of (elems : list A).
Arguments nil_slice {A}.
Arguments slice_of {A} elems.

Definition elements_of {A : Type} (s : slice A) : list A :=
  match s with
  | nil_slice => []
  | slice_of l => l
  end.

(** [append(s, x)]: the result is never nil. *)
Definition append {A : Type} (s : slice A) (x : A) : slice A :=
  slice_of (elements_of s ++ [x]).

(** Modelled from the spec: [NewContainerInput] is declared in a file that
    is not among the sources; of the caller's description of the container
    (section 3) the model keeps the image reference and the name, the two
    fields the package's tests set. *)
Record NewContainerInput : Type := mkInput {
  Image : string;
  Name : string
}.

(** [containerReference], declared in another file of the package, with the
    two fields [newPodmanContainer] sets. *)
Record containerReference : Type := mkReference {
  input : NewContainerInput;
  runtime : ContainerRuntime
}.

(** [nullContainer]. *)
Record nullContainer : Type := mkNull {
  null_input : NewContainerInput
}.

(** The values the factory returns behind the [ExecutionsEnvironment]
    interface: a container reference for Docker, one for Podman, or the null
    container. *)
Inductive ExecutionsEnvironment : Type :=
| DockerAdapter (input : NewContainerInput)
| PodmanAdapter (cr : containerReference)
| NullAdapter (n : nullContainer).

(** [newPodmanContainer]. *)
Definition newPodmanContainer (input : NewContainerInput) : ExecutionsEnvironment :=
  PodmanAdapter {| input := input; runtime := RuntimePodman |}.

(** Modelled from the spec: [newDockerContainer] is declared in a file that
    is not among the sources; the factory instantiates the Docker adapter for
    the caller's input (section 4.2). *)
Definition newDockerContainer (input : NewContainerInput) : ExecutionsEnvironment :=
  DockerAdapter input.

(** [newNullContainer]. *)
Definition newNullContainer (input : NewContainerInput) : ExecutionsEnvironment :=
  NullAdapter {| null_input := input |}.

(** [configureDetectorFromEnvironment]: the runtime name is compared as it
    is written. *)
Definition configureDetectorFromEnvironment (w : World) : Factory unit :=
  let runtime := Getenv w "ACT_CONTAINER_RUNTIME" in
  (if negb (String.eqb runtime "") then
     if String.eqb runtime "docker"
     then withDetector (fun rd => SetPreferredRuntime rd RuntimeDocker)
     else if String.eqb runtime "podman"
     then withDetector (fun rd => SetPreferredRuntime rd RuntimePodman)
     else ret tt
   else ret tt) ;;;
  let socket := Getenv w "ACT_CONTAINER_SOCKET" in
  if negb (String.eqb socket "")
  then withDetector (fun rd => SetCustomSocket rd socket)
  else ret tt.

(** [getSelectedRuntime]. *)
Definition getSelectedRuntime (w : World) : Factory ContainerRuntime :=
  override <- gets runtimeOverride ;;
  if negb (runtime_eqb override RuntimeUnknown) then ret override
  else
    configureDetectorFromEnvironment w ;;;
    rd <- gets globalDetector ;;
    ret (DetectAvailableRuntime rd w).

(** [NewContainer]. *)
Definition NewContainer (w : World) (input : NewContainerInput)
  : Factory ExecutionsEnvironment :=
  runtime <- getSelectedRuntime w ;;
  match runtime with
  | RuntimePodman => ret (newPodmanContainer input)
  | RuntimeDocker => ret (newDockerContainer input)
  | _ => ret (newNullContainer input)
  end.

(** [NewContainerWithRuntime]. *)
Definition NewContainerWithRuntime (w : World) (input : NewContainerInput)
  (runtime : ContainerRuntime) : Factory ExecutionsEnvironment :=
  rd <- gets globalDetector ;;
  if negb (verifyRuntime rd w runtime) then ret (newNullContainer input)
  else
    match runtime with
    | RuntimePodman => ret (newPodmanContainer input)
    | RuntimeDocker => ret (newDockerContainer input)
    | _ => ret (newNullContainer input)
    end.

(** [SetRuntimePreference]. *)
Definition SetRuntimePreference (runtime : ContainerRuntime) : Factory unit :=
  withDetector (fun rd => SetPreferredRuntime rd runtime).

(** The package function [SetCustomSocket]. *)
Definition SetGlobalCustomSocket (socket : string) : Factory unit :=
  withDetector (fun rd => SetCustomSocket rd socket).

(** [GetCurrentRuntime]. *)
Definition GetCurrentRuntime (w : World) : Factory ContainerRuntime :=
  getSelectedRuntime w.

(** [GetAvailableRuntimes]: [available] starts as the nil slice. *)
Definition GetAvailableRuntimes (w : World) : Factory (slice ContainerRuntime) :=
  rd <- gets globalDetector ;;
  let available := nil_slice in
  let available :=
    if verifyRuntime rd w RuntimeDocker then append available RuntimeDocker
    else available in
  let available :=
    if verifyRuntime rd w RuntimePodman then append available RuntimePodman
    else available in
  ret available.

(** [GetRuntimeDetectionError]. *)
Definition GetRuntimeDetectionError (w : World) : Factory string :=
  rd <- gets globalDetector ;;
  ret (GetHelpfulErrorMessage rd w).

(** [SetRuntimeOverride]. *)
Definition SetRuntimeOverride (runtime : ContainerRuntime) : Factory unit :=
  fun g => (tt, {| globalDetector := globalDetector g; runtimeOverride := runtime |}).

(** [ClearRuntimeOverride]. *)
Definition ClearRuntimeOverride : Factory unit :=
  fun g => (tt, {| globalDetector := globalDetector g;
                   runtimeOverride := RuntimeUnknown |}).

(** ** The null container *)

(** [common.Executor]: deferred work that ends with an [error]; it runs
    against the host and the package state of the moment it is called. *)
Definition Executor : Type := World -> Factory error.

(** Modelled from the spec: [Health] is declared in a file that is not among
    the sources; the coarse health status is healthy, unhealthy or unknown
    (section 4.3). *)
Inductive Health : Type :=
| HealthUnknown
| HealthHealthy
| HealthUnHealthy.

Module Null.

(** What every failing operation of the null container returns. *)
Definition noRuntime : Executor :=
  fun w => report <- GetRuntimeDetectionError w ;; ret (Errorf_no_runtime report).

Definition Create (n : nullContainer) (capAdd capDrop : list string) : Executor :=
  noRuntime.

(** The file entries are of a type declared in another file of the package. *)
Definition Copy {FileEntry : Type} (n : nullContainer) (destPath : string)
  (files : list FileEntry) : Executor := noRuntime.

(** [CopyTarStream] runs at once, on the host of the call. *)
Definition CopyTarStream {Reader : Type} (n : nullContainer) (w : World)
  (destPath : string) (tarStream : Reader) : Factory error := noRuntime w.

Definition CopyDir (n : nullContainer) (destPath srcPath : string)
  (useGitIgnore : bool) : Executor := noRuntime.

(** [GetContainerArchive]: no reader, and the error. *)
Definition GetContainerArchive {ReadCloser : Type} (n : nullContainer) (w : World)
  (srcPath : string) : Factory (option ReadCloser * error) :=
  err <- noRuntime w ;; ret (None, err).

Definition Pull (n : nullContainer) (forcePull : bool) : Executor := noRuntime.

Definition Start (n : nullContainer) (attach : bool) : Executor := noRuntime.

Definition Exec (n : nullContainer) (command : list string)
  (env : gmap string string) (user workdir : string) : Executor := noRuntime.

Definition UpdateFromEnv (n : nullContainer) (srcPath : string)
  (env : gmap string string) : Executor := noRuntime.

Definition UpdateFromImageEnv (n : nullContainer) (env : gmap string string)
  : Executor := noRuntime.

Definition Remove (n : nullContainer) : Executor := noRuntime.

Definition Close (n : nullContainer) : Executor := noRuntime.

Definition ReplaceLogWriter {Writer : Type} (n : nullContainer)
  (stdout stderr : Writer) : Writer * Writer := (stdout, stderr).

Definition GetHealth (n : nullContainer) : Health := HealthUnHealthy.

Definition ToContainerPath (n : nullContainer) (path : string) : string := path.

Definition GetActPath (n : nullContainer) : string := "/opt/act".

Definition GetPathVariableName (n : nullContainer) : string := "PATH".

Definition DefaultPathVariable (n : nullContainer) : string :=
  "/usr/local/sbin:/usr/local/bin:/usr/sbin:/usr/bin:/sbin:/bin".

Section LinuxExtensions.

(** [LinuxContainerEnvironmentExtensions.JoinPathVariable], declared in
    another file of the package. *)
Variable LinuxJoinPathVariable : list string -> string.

Definition JoinPathVariable (n : nullContainer) (paths : list string) : string :=
  LinuxJoinPathVariable paths.

End LinuxExtensions.

(** [GetRunnerContext]: every value of the map is a string. *)
Definition GetRunnerContext (n : nullContainer) : gmap string string :=
  <["os" := "linux"]>
  (<["arch" := "x64"]>
  (<["temp" := "/tmp"]>
  (<["tool_cache" := "/opt/hostedtoolcache"]>
  (<["action_path" := "/github/workspace"]>
  (<["workspace" := "/github/workspace"]> ∅))))).

Definition IsEnvironmentCaseInsensitive (n : nullContainer) : bool := false.

End Null.

(** ** Hosts used in the examples *)

(** A host with nothing on it: no variable, no file, no binary, no daemon. *)
Definition bareWorld : World :=
  {| environ := ∅;
     ExpandEnv := fun s => s;
     Lstat := fun _ => None;
     Stat := fun _ => false;
     LookPath := fun _ => false;
     Separator := "/"%char;
     NewClientWithOpts := fun _ => false;
     Ping := fun _ => false;
     socketLocation := ("", false);
     RunCommand := fun _ _ => None |}.

(** The bare host with another environment. *)
Definition withEnviron (env : gmap string string) (w : World) : World :=
  {| environ := env;
     ExpandEnv := ExpandEnv w;
     Lstat := Lstat w;
     Stat := Stat w;
     LookPath := LookPath w;
     Separator := Separator w;
     NewClientWithOpts := NewClientWithOpts w;
     Ping := Ping w;
     socketLocation := socketLocation w;
     RunCommand := RunCommand w |}.

(** A host where the Docker binary is installed and its daemon answers on
    the default socket. *)
Definition dockerWorld : World :=
  {| environ := ∅;
     ExpandEnv := fun s => s;
     Lstat := fun p =>
       if String.eqb p "/var/run/docker.sock" then Some (Z.lor ModeSocket 432) else None;
     Stat := fun p => String.eqb p "/var/run/docker.sock";
     LookPath := fun b => String.eqb b "docker";
     Separator := "/"%char;
     NewClientWithOpts := fun _ => true;
     Ping := fun h => String.eqb h "unix:///var/run/docker.sock";
     socketLocation := ("unix:///var/run/docker.sock", true);
     RunCommand := fun _ _ => None |}.

(** The adapter the factory makes for a runtime. *)
Definition adapterFor (runtime : ContainerRuntime) (input : NewContainerInput)
  : ExecutionsEnvironment :=
  match runtime with
  | RuntimePodman => newPodmanContainer input
  | RuntimeDocker => newDockerContainer input
  | RuntimeUnknown => newNullContainer input
  end.

(** ** Vocabulary of the statements, and more hosts for the examples *)

(** A host whose only variable is a Podman host that is set but empty. *)
Definition emptyPodmanHostWorld : World :=
  withEnviron {[ "PODMAN_HOST" := "" ]} bareWorld.

(** The example of the package's tests: only the Podman host is set. *)
Definition podmanHostWorld : World :=
  withEnviron {[ "PODMAN_HOST" := "unix:///test" ]} bareWorld.

(** A host whose environment names the runtime in upper case. *)
Definition upperCaseDockerWorld : World :=
  withEnviron {[ "ACT_CONTAINER_RUNTIME" := "DOCKER" ]} bareWorld.

(** The calls of the package other than setting and clearing the override. *)
Inductive Call : Type :=
| CallNewContainer (w : World) (input : NewContainerInput)
| CallNewContainerWithRuntime (w : World) (input : NewContainerInput)
    (runtime : ContainerRuntime)
| CallGetCurrentRuntime (w : World)
| CallGetAvailableRuntimes (w : World)
| CallGetRuntimeDetectionError (w : World)
| CallSetRuntimePreference (runtime : ContainerRuntime)
| CallSetCustomSocket (socket : string).

(** What the caller gets back from a call. *)
Inductive Answer : Type :=
| Resolved (runtime : ContainerRuntime)
| Created (input : NewContainerInput) (handle : ExecutionsEnvironment)
| Forced (handle : ExecutionsEnvironment)
| Listed (available : slice ContainerRuntime)
| Reported (message : string)
| Done.

Definition call (c : Call) : Factory Answer :=
  match c with
  | CallNewContainer w input => h <- NewContainer w input ;; ret (Created input h)
  | CallNewContainerWithRuntime w input runtime =>
      h <- NewContainerWithRuntime w input runtime ;; ret (Forced h)
  | CallGetCurrentRuntime w => r <- GetCurrentRuntime w ;; ret (Resolved r)
  | CallGetAvailableRuntimes w => l <- GetAvailableRuntimes w ;; ret (Listed l)
  | CallGetRuntimeDetectionError w => m <- GetRuntimeDetectionError w ;; ret (Reported m)
  | CallSetRuntimePreference runtime => SetRuntimePreference runtime ;;; ret Done
  | CallSetCustomSocket socket => SetGlobalCustomSocket socket ;;; ret Done
  end.

(** A program: calls one after the other, with their answers in order. *)
Fixpoint calls (cs : list Call) : Factory (list Answer) :=
  match cs with
  | [] => ret []
  | c :: rest => a <- call c ;; l <- calls rest ;; ret (a :: l)
  end.

(** An answer of a resolution call agrees with the override [r]. *)
Definition agrees (r : ContainerRuntime) (a : Answer) : Prop :=
  match a with
  | Resolved r' => r' = r
  | Created input h => h = adapterFor r input
  | _ => True
  end.

(** The install guidance every report carries. *)
Definition hasInstallGuidance (msg : string) : Prop :=
  msg <> "" /\
  strings.Contains msg "Docker" = true /\
  strings.Contains msg "Podman" = true /\
  strings.Contains msg "Docker:  https://docs.docker.com/get-docker/" = true /\
  strings.Contains msg "Podman:  https://podman.io/getting-started/installation" = true.

(** An operation fails with the report: an error whose message carries the
    install guidance, and the package state is left as it was. *)
Definition failsWithGuidance (c : Factory error) : Prop :=
  forall g, exists msg, c g = (Some msg, g) /\ hasInstallGuidance msg.

(** Every operation of the null container that would change a container. *)
Definition mutatingOperationsFail (n : nullContainer) : Prop :=
  (forall w capAdd capDrop, failsWithGuidance (Null.Create n capAdd capDrop w)) /\
  (forall (FileEntry : Type) w destPath (files : list FileEntry),
     failsWithGuidance (Null.Copy n destPath files w)) /\
  (forall (Reader : Type) w destPath (tarStream : Reader),
     failsWithGuidance (Null.CopyTarStream n w destPath tarStream)) /\
  (forall w destPath srcPath useGitIgnore,
     failsWithGuidance (Null.CopyDir n destPath srcPath useGitIgnore w)) /\
  (forall w forcePull, failsWithGuidance (Null.Pull n forcePull w)) /\
  (forall w attach, failsWithGuidance (Null.Start n attach w)) /\
  (forall w command env user workdir,
     failsWithGuidance (Null.Exec n command env user workdir w)) /\
  (forall w srcPath env, failsWithGuidance (Null.UpdateFromEnv n srcPath env w)) /\
  (forall w env, failsWithGuidance (Null.UpdateFromImageEnv n env w)) /\
  (forall w, failsWithGuidance (Null.Remove n w)) /\
  (forall w, failsWithGuidance (Null.Close n w)).

(** The answers of the null container's query operations. *)
Definition linuxDefaults (n : nullContainer) : Prop :=
  (forall path, Null.ToContainerPath n path = path) /\
  Null.GetActPath n = "/opt/act" /\
  Null.GetPathVariableName n = "PATH" /\
  Null.DefaultPathVariable n
    = "/usr/local/sbin:/usr/local/bin:/usr/sbin:/usr/bin:/sbin:/bin" /\
  (forall linuxJoin paths, Null.JoinPathVariable linuxJoin n paths = linuxJoin paths) /\
  Null.GetRunnerContext n !! "os" = Some "linux" /\
  Null.GetRunnerContext n !! "arch" = Some "x64" /\
  Null.GetRunnerContext n !! "temp" = Some "/tmp" /\
  Null.GetRunnerContext n !! "tool_cache" = Some "/opt/hostedtoolcache" /\
  Null.GetRunnerContext n !! "action_path" = Some "/github/workspace" /\
  Null.GetRunnerContext n !! "workspace" = Some "/github/workspace" /\
  Null.IsEnvironmentCaseInsensitive n = false /\
  (forall (Writer : Type) (stdout stderr : Writer),
     Null.ReplaceLogWriter n stdout stderr = (stdout, stderr)).

(** A table entry as it is appended: the path expanded, the rest kept. *)
Definition expandSocket (w : World) (c : RuntimeSocket) : RuntimeSocket :=
  mkSocket (ExpandEnv w (Path c)) (Runtime c) (Score c).

(** The sockets found, in the order in which they are met, before any
    sorting: the custom socket alone, or the table entries that exist. *)
Definition encountered (rd : RuntimeDetector) (w : World) : list RuntimeSocket :=
  if negb (String.eqb (customSocket rd) "")
  then [ mkSocket (customSocket rd) (guessRuntimeFromSocket rd (customSocket rd)) 100 ]
  else collectAvailable rd w candidates.

(** [best] at position [i] of [l] passes [P], no other element that passes
    [P] has a higher score, and none with the same score stands before it. *)
Definition isBest (P : RuntimeSocket -> bool) (l : list RuntimeSocket)
  (i : nat) (best : RuntimeSocket) : Prop :=
  l !! i = Some best /\
  P best = true /\
  forall j c, l !! j = Some c -> P c = true ->
    Score c < Score best \/ (Score c = Score best /\ (i <= j)%nat).

(** Insertion into a list sorted by descending score, after the entries
    that score strictly higher. *)
Fixpoint insertByScore (x : RuntimeSocket) (l : list RuntimeSocket)
  : list RuntimeSocket :=
  match l with
  | [] => [x]
  | y :: l' => if Score x <? Score y then y :: insertByScore x l' else x :: y :: l'
  end.

(** The stable sort by descending score: equal scores keep their order. *)
Fixpoint stableSort (l : list RuntimeSocket) : list RuntimeSocket :=
  match l with
  | [] => []
  | x :: l' => insertByScore x (stableSort l')
  end.

(** The first element that passes [P], scanning for the highest score and,
    among equal scores, the earliest position. *)
Fixpoint bestOf (P : RuntimeSocket -> bool) (l : list RuntimeSocket)
  : option RuntimeSocket :=
  match l with
  | [] => None
  | x :: l' =>
      match bestOf P l' with
      | None => if P x then Some x else None
      | Some b => if P x && (Score b <=? Score x) then Some x else Some b
      end
  end.

(** All the ways of keeping some entries of a list, in order. *)
Fixpoint sublists {A : Type} (l : list A) : list (list A) :=
  match l with
  | [] => [[]]
  | x :: l' => map (cons x) (sublists l') ++ sublists l'
  end.

Definition descending (l : list RuntimeSocket) : Prop :=
  StronglySorted (fun a b => Score b <= Score a) l.

(** A detector with a custom socket that names an ordinary file. *)
Definition notesDetector : RuntimeDetector :=
  SetCustomSocket NewRuntimeDetector "/tmp/notes.txt".

(** A host where [/tmp/notes.txt] is an ordinary file (mode 0644). *)
Definition notesWorld : World :=
  {| environ := ∅;
     ExpandEnv := fun s => s;
     Lstat := fun p => if String.eqb p "/tmp/notes.txt" then Some 420 else None;
     Stat := fun p => String.eqb p "/tmp/notes.txt";
     LookPath := fun _ => false;
     Separator := "/"%char;
     NewClientWithOpts := fun _ => true;
     Ping := fun _ => false;
     socketLocation := ("", false);
     RunCommand := fun _ _ => None |}.

(** A host with the system-wide Docker socket and a rootless Podman socket,
    both live; [/run/podman/podman.sock] is an ordinary file. *)
Definition bothSocketsWorld : World :=
  {| environ := {[ "XDG_RUNTIME_DIR" := "/run/user/1000" ]};
     ExpandEnv := fun s =>
       if String.eqb s "$XDG_RUNTIME_DIR/podman/podman.sock"
       then "/run/user/1000/podman/podman.sock"
       else if String.eqb s "$XDG_RUNTIME_DIR/docker.sock"
       then "/run/user/1000/docker.sock"
       else s;
     Lstat := fun p =>
       if String.eqb p "/var/run/docker.sock" then Some (Z.lor ModeSocket 432)
       else if String.eqb p "/run/user/1000/podman/podman.sock"
       then Some (Z.lor ModeSocket 384)
       else if String.eqb p "/run/podman/podman.sock" then Some 420
       else None;
     Stat := fun _ => false;
     LookPath := fun _ => true;
     Separator := "/"%char;
     NewClientWithOpts := fun _ => true;
     Ping := fun _ => true;
     socketLocation := ("unix:///var/run/docker.sock", true);
     RunCommand := fun _ _ => None |}.

(** A detector with a custom socket written without a scheme. *)
Definition customSocketDetector : RuntimeDetector :=
  SetCustomSocket NewRuntimeDetector "/custom/socket".

(** A host where [podman machine inspect] names an ordinary file and no
    daemon answers anywhere. *)
Definition machineWorld : World :=
  {| environ := ∅;
     ExpandEnv := fun s => s;
     Lstat := fun p => if String.eqb p "/tmp/podman.sock" then Some 420 else None;
     Stat := fun p => String.eqb p "/tmp/podman.sock";
     LookPath := fun b => String.eqb b "podman";
     Separator := "/"%char;
     NewClientWithOpts := fun _ => true;
     Ping := fun _ => false;
     socketLocation := ("", false);
     RunCommand := fun name args =>
       if String.eqb name "podman" && String.eqb (hd "" args) "machine"
       then Some ("/tmp/podman.sock" ++ LF) else None |}.

(** ** The Podman adapter: telling Podman's errors apart ([podman_run.go]) *)

(** The indicator terms of [isPodmanSpecificError], in the order of the
    source. *)
Definition podmanIndicators : list string :=
  [ "slirp4netns"; "rootless"; "user namespace"; "podman" ].

(** The loop of [isPodmanSpecificError] over the indicators. *)
Fixpoint anyIndicator (errStr : string) (indicators : list string) : bool :=
  match indicators with
  | [] => false
  | indicator :: rest =>
      if strings.Contains errStr indicator then true else anyIndicator errStr rest
  end.

(** [isPodmanSpecificError]. *)
Definition isPodmanSpecificError (err : error) : bool :=
  match err with
  | None => false
  | Some text =>
      let errStr := strings.ToLower text in
      anyIndicator errStr podmanIndicators
  end.

Definition rootlessHint : string :=
  "This may be related to rootless Podman. Try running with --privileged or check user namespace configuration.".

Definition networkHint : string :=
  "This may be related to Podman networking. Ensure slirp4netns is installed and properly configured.".

Definition namespaceHint : string :=
  "This may be related to user namespace mapping. Check /etc/subuid and /etc/subgid configuration.".

Definition documentationHint : string :=
  "Check Podman documentation at https://podman.io/getting-started/ for troubleshooting.".

(** [getPodmanErrorHint]. *)
Definition getPodmanErrorHint (err : error) : string :=
  match err with
  | None => ""
  | Some text =>
      let errStr := strings.ToLower text in
      if strings.Contains errStr "rootless" then rootlessHint
      else if strings.Contains errStr "slirp4netns" then networkHint
      else if strings.Contains errStr "user namespace" then namespaceHint
      else documentationHint
  end.

Section PodmanCreate.

(** [createGeneric], declared in another file of the package. *)
Variable createGeneric : containerReference -> list string -> list string -> Executor.

(** [createPodman]: the generic creation, with a hint added to an error that
    looks like Podman's. *)
Definition createPodman (cr : containerReference) (capAdd capDrop : list string)
  : Executor :=
  fun w =>
    err <- createGeneric cr capAdd capDrop w ;;
    match err with
    | Some text =>
        if isPodmanSpecificError err
        then ret (Some ("podman container creation failed: " ++ text ++ LF
                        ++ "Hint: " ++ getPodmanErrorHint err))
        else ret err
    | None => ret None
    end.

End PodmanCreate.

(** ** Clients ([factory.go], [podman_run.go]) *)

(** What the client library and the connection helper answer beyond the
    probes of [World]: the texts of their errors, the SSH connection helper,
    and the client configured from the environment. *)
Record ClientLibrary : Type := mkClientLibrary {
  (** the text of the error when [NewClientWithOpts] gives no client for a host *)
  newClientErrorText : string -> string;
  (** the text of the error when [Ping] fails on a host *)
  pingErrorText : string -> string;
  (** [connhelper.GetConnectionHelper] on a URL: the helper's host, or the
      text of the error *)
  GetConnectionHelper : string -> string + string;
  (** [client.NewClientWithOpts] with the helper's host and dialer, for the
      URL the helper was made from: [None] when a client comes back, else
      the text of the error *)
  NewClientThroughHelper : string -> option string;
  (** [Ping] on such a client: [None] when it answers, else the text of the
      error *)
  PingThroughHelper : string -> option string;
  (** [client.NewClientWithOpts(client.FromEnv)]: [None] when a client comes
      back, else the text of the error *)
  NewClientFromEnv : option string
}.

(** The clients the package builds. *)
Inductive APIClient : Type :=
| ClientAt (host : string)
| ClientThroughHelper (url : string) (helperHost : string)
| ClientFromEnv.

(** [createDockerClient]: from DOCKER_HOST through the SSH helper, or from
    the environment; no ping whose failure would be reported. *)
Definition createDockerClient (w : World) (lib : ClientLibrary)
  : option APIClient * error :=
  let dockerHost := Getenv w "DOCKER_HOST" in
  if strings.HasPrefix dockerHost "ssh://" then
    match GetConnectionHelper lib dockerHost with
    | inr text => (None, Some ("failed to create SSH connection helper: " ++ text))
    | inl helperHost =>
        match NewClientThroughHelper lib dockerHost with
        | Some text => (None, Some ("failed to connect to Docker daemon: " ++ text))
        | None => (Some (ClientThroughHelper dockerHost helperHost), None)
        end
    end
  else
    match NewClientFromEnv lib with
    | Some text => (None, Some ("failed to connect to Docker daemon: " ++ text))
    | None => (Some ClientFromEnv, None)
    end.

(** [createPodmanClient]: the socket from the detector, a client on it, and
    a ping. *)
Definition createPodmanClient (w : World) (lib : ClientLibrary)
  : Factory (option APIClient * error) :=
  rd <- gets globalDetector ;;
  let '(socket, found) := GetSocketForRuntime rd w RuntimePodman in
  if negb found then ret (None, Some "podman socket not found or not accessible")
  else if strings.HasPrefix socket "ssh://" then
    match GetConnectionHelper lib socket with
    | inr text =>
        ret (None, Some ("failed to create SSH connection helper for Podman: " ++ text))
    | inl helperHost =>
        match NewClientThroughHelper lib socket with
        | Some text => ret (None, Some ("failed to connect to Podman daemon: " ++ text))
        | None =>
            match PingThroughHelper lib socket with
            | Some text => ret (None, Some ("failed to ping Podman daemon: " ++ text))
            | None => ret (Some (ClientThroughHelper socket helperHost), None)
            end
        end
    end
  else if negb (NewClientWithOpts w socket)
  then ret (None, Some ("failed to connect to Podman daemon: "
                        ++ newClientErrorText lib socket))
  else if negb (Ping w socket)
  then ret (None, Some ("failed to ping Podman daemon: " ++ pingErrorText lib socket))
  else ret (Some (ClientAt socket), None).

(** [GetContainerClient]. *)
Definition GetContainerClient (w : World) (lib : ClientLibrary)
  : Factory (option APIClient * error) :=
  runtime <- getSelectedRuntime w ;;
  match runtime with
  | RuntimePodman => createPodmanClient w lib
  | RuntimeDocker => ret (createDockerClient w lib)
  | _ =>
      report <- GetRuntimeDetectionError w ;;
      ret (None, Some ("no container runtime available" ++ LF ++ LF ++ report))
  end.

(** [connectPodman], on the [cli] field of the container reference: the
    error, and the field afterwards. *)
Definition connectPodman (cli : option APIClient) (w : World) (lib : ClientLibrary)
  : Factory (error * option APIClient) :=
  match cli with
  | Some _ => ret (None, cli)
  | None =>
      rd <- gets globalDetector ;;
      let '(socket, found) := GetSocketForRuntime rd w RuntimePodman in
      if negb found then ret (Some "podman socket not found or not accessible", None)
      else if negb (NewClientWithOpts w socket)
      then ret (Some ("failed to create Podman client: " ++ newClientErrorText lib socket),
                None)
      else if negb (Ping w socket)
      then ret (Some ("failed to ping Podman daemon: " ++ pingErrorText lib socket), None)
      else ret (None, Some (ClientAt socket))
  end.

(** ** Vocabulary of the further statements *)

(** Descending scores, by position. *)
Definition descendingByPosition (l : list RuntimeSocket) : Prop :=
  forall p q x y, (p < q)%nat -> l !! p = Some x -> l !! q = Some y ->
    Score y <= Score x.

(** A handle is one of the two real adapters. *)
Definition isRealAdapter (h : ExecutionsEnvironment) : Prop :=
  match h with
  | NullAdapter _ => False
  | _ => True
  end.

(** A host whose environment names Podman and also sets a Docker host. *)
Definition podmanNamedWorld : World :=
  withEnviron
    {[ "ACT_CONTAINER_RUNTIME" := "podman"; "DOCKER_HOST" := "tcp://127.0.0.1:2375" ]}
    bareWorld.

(** A client library whose every call fails with a fixed text. *)
Definition failingLibrary : ClientLibrary :=
  {| newClientErrorText := fun _ => "unable to parse docker host";
     pingErrorText := fun _ => "connection refused";
     GetConnectionHelper := fun _ => inr "ssh host connection is not valid";
     NewClientThroughHelper := fun _ => Some "unable to parse docker host";
     PingThroughHelper := fun _ => Some "connection refused";
     NewClientFromEnv := Some "unable to parse docker host" |}.

(** ** Texts outside ASCII *)

(** U+212A, the Kelvin sign, in UTF-8. *)
Definition kelvin_sign : string :=
  String "226"%char (String "132"%char (String "170"%char EmptyString)).

(** U+0130, capital I with dot above, in UTF-8. *)
Definition dotted_capital_I : string :=
  String "196"%char (String "176"%char EmptyString).

(** U+00A0, the no-break space, and U+2028, the line separator, in UTF-8. *)
Definition no_break_space : string :=
  String "194"%char (String "160"%char EmptyString).

Definition line_separator : string :=
  String "226"%char (String "128"%char (String "168"%char EmptyString)).

(** The tool's variable names Docker with a Kelvin sign for the K, and a
    Podman host is set. *)
Definition kelvinDockerWorld : World :=
  withEnviron {[ "ACT_CONTAINER_RUNTIME" := "DOC" ++ kelvin_sign ++ "ER";
                 "PODMAN_HOST" := "unix:///test" ]} bareWorld.

(** An error text that names slirp4netns with a dotted capital I. *)
Definition dottedNetworkError : string :=
  "SL" ++ dotted_capital_I ++ "RP4NETNS is missing".

(** [machineWorld], with a no-break space in front of the path that the
    machine inspection prints. *)
Definition paddedMachineWorld : World :=
  {| environ := ∅;
     ExpandEnv := fun s => s;
     Lstat := fun p => if String.eqb p "/tmp/podman.sock" then Some 420 else None;
     Stat := fun p => String.eqb p "/tmp/podman.sock";
     LookPath := fun b => String.eqb b "podman";
     Separator := "/"%char;
     NewClientWithOpts := fun _ => true;
     Ping := fun _ => false;
     socketLocation := ("", false);
     RunCommand := fun name args =>
       if String.eqb name "podman" && String.eqb (hd "" args) "machine"
       then Some (no_break_space ++ "/tmp/podman.sock" ++ LF) else None |}.

(** A byte is an ASCII letter. *)
Definition ascii_letter (d : ascii) : bool :=
  let n := nat_of_ascii d in
  (((65 <=? n)%nat && (n <=? 90)%nat) || ((97 <=? n)%nat && (n <=? 122)%nat))%bool.

(** ** Facts about the helpers *)

Lemma runtime_eqb_eq (a b : ContainerRuntime) : runtime_eqb a b = true <-> a = b.
Proof. unfold runtime_eqb. apply bool_decide_eq_true. Qed.

Lemma runtime_eqb_neq (a b : ContainerRuntime) : runtime_eqb a b = false <-> a <> b.
Proof. unfold runtime_eqb. apply bool_decide_eq_false. Qed.

Lemma verifyRuntime_Unknown (rd : RuntimeDetector) (w : World) :
  verifyRuntime rd w RuntimeUnknown = false.
Proof. reflexivity. Qed.

Lemma verifyRuntime_known (rd : RuntimeDetector) (w : World) (r : ContainerRuntime) :
  verifyRuntime rd w r = true -> r <> RuntimeUnknown.
Proof. destruct r; simpl; congruence. Qed.

(** Verification looks at the host only, never at the detector's settings. *)
Lemma verifyRuntime_any_detector (rd rd' : RuntimeDetector) (w : World)
  (r : ContainerRuntime) : verifyRuntime rd w r = verifyRuntime rd' w r.
Proof. reflexivity. Qed.

(** ** The resolution order *)

(** C2: [DetectAvailableRuntime] returns one identity, chosen in this order:
    a preference that is not Unknown and verifies is returned; failing that,
    an environment hint that is not Unknown and verifies is returned; failing
    that, the result of auto-detection is returned; and the result is Unknown
    exactly when all three phases fail. *)
Theorem C2_DetectAvailableRuntime_order (rd : RuntimeDetector) (w : World) :
  let preferred := preferredRuntime rd in
  let hint := checkEnvironmentHints rd w in
  let phase1 := preferred <> RuntimeUnknown /\ verifyRuntime rd w preferred = true in
  let phase2 := hint <> RuntimeUnknown /\ verifyRuntime rd w hint = true in
  (phase1 -> DetectAvailableRuntime rd w = preferred) /\
  (~ phase1 -> phase2 -> DetectAvailableRuntime rd w = hint) /\
  (~ phase1 -> ~ phase2 -> DetectAvailableRuntime rd w = autoDetectRuntime rd w) /\
  (DetectAvailableRuntime rd w = RuntimeUnknown <->
     ~ phase1 /\ ~ phase2 /\ autoDetectRuntime rd w = RuntimeUnknown).
Proof.
  intros preferred hint phase1 phase2.
  assert (H1 : negb (runtime_eqb preferred RuntimeUnknown)
               && verifyRuntime rd w preferred = true <-> phase1).
  { rewrite andb_true_iff, negb_true_iff, runtime_eqb_neq. reflexivity. }
  assert (H2 : negb (runtime_eqb hint RuntimeUnknown)
               && verifyRuntime rd w hint = true <-> phase2).
  { rewrite andb_true_iff, negb_true_iff, runtime_eqb_neq. reflexivity. }
  assert (H3 : (if negb (runtime_eqb (autoDetectRuntime rd w) RuntimeUnknown)
                then autoDetectRuntime rd w else RuntimeUnknown)
               = autoDetectRuntime rd w).
  { destruct (runtime_eqb (autoDetectRuntime rd w) RuntimeUnknown) eqn:E; simpl;
      [apply runtime_eqb_eq in E; congruence | reflexivity]. }
  unfold DetectAvailableRuntime. fold preferred. fold hint. rewrite H3.
  destruct (negb (runtime_eqb preferred RuntimeUnknown)
            && verifyRuntime rd w preferred) eqn:E1.
  - assert (P1 : phase1) by (apply H1; reflexivity).
    destruct P1 as [Hne HP1].
    repeat split; intros; try reflexivity; try contradiction; exfalso; tauto.
  - assert (N1 : ~ phase1) by (intros P; apply H1 in P; congruence).
    destruct (negb (runtime_eqb hint RuntimeUnknown)
              && verifyRuntime rd w hint) eqn:E2.
    + assert (P2 : phase2) by (apply H2; reflexivity).
      destruct P2 as [Hne HP2].
      repeat split; intros; try reflexivity; try contradiction; exfalso; tauto.
    + assert (N2 : ~ phase2) by (intros P; apply H2 in P; congruence).
      repeat split; intros; try reflexivity; try assumption; tauto.
Qed.

(** A preferred Docker that verifies wins on a host with a Docker daemon. *)
Lemma C2_DetectAvailableRuntime_order_witness :
  DetectAvailableRuntime (SetPreferredRuntime NewRuntimeDetector RuntimeDocker) dockerWorld
  = RuntimeDocker.
Proof.
  apply (proj1 (C2_DetectAvailableRuntime_order
                  (SetPreferredRuntime NewRuntimeDetector RuntimeDocker) dockerWorld)).
  split; [discriminate | reflexivity].
Defined.

(** ** Environment hints *)

(** C4, as stated, fails: a Podman host variable that is set to the empty
    string is present in the environment, yet the hints phase does not yield
    Podman; it yields Unknown. *)
Lemma C4_set_but_empty_host_counterexample :
  is_Some (environ emptyPodmanHostWorld !! "PODMAN_HOST") /\
  environ emptyPodmanHostWorld !! "ACT_CONTAINER_RUNTIME" = None /\
  environ emptyPodmanHostWorld !! "DOCKER_HOST" = None /\
  checkEnvironmentHints NewRuntimeDetector emptyPodmanHostWorld = RuntimeUnknown /\
  checkEnvironmentHints NewRuntimeDetector emptyPodmanHostWorld <> RuntimePodman.
Proof.
  repeat split; try (vm_compute; reflexivity).
  - exists "". vm_compute. reflexivity.
  - vm_compute. discriminate.
Qed.

(** C4 (amended): the hints phase looks at ACT_CONTAINER_RUNTIME, then
    PODMAN_HOST, then DOCKER_HOST.  A value of the first that lower-cases to
    docker or podman yields that backend; any other value, like an unset
    variable, leaves the decision to the host variables: a non-empty
    PODMAN_HOST yields Podman whatever its value, otherwise a non-empty
    DOCKER_HOST yields Docker whatever its value, otherwise the phase yields
    Unknown.  A variable set to the empty string counts as unset. *)
Theorem C4_checkEnvironmentHints_order (rd : RuntimeDetector) (w : World) :
  let act := strings.ToLower (Getenv w "ACT_CONTAINER_RUNTIME") in
  (act = "docker" -> checkEnvironmentHints rd w = RuntimeDocker) /\
  (act = "podman" -> checkEnvironmentHints rd w = RuntimePodman) /\
  (act <> "docker" -> act <> "podman" ->
     (Getenv w "PODMAN_HOST" <> "" -> checkEnvironmentHints rd w = RuntimePodman) /\
     (Getenv w "PODMAN_HOST" = "" -> Getenv w "DOCKER_HOST" <> "" ->
        checkEnvironmentHints rd w = RuntimeDocker) /\
     (Getenv w "PODMAN_HOST" = "" -> Getenv w "DOCKER_HOST" = "" ->
        checkEnvironmentHints rd w = RuntimeUnknown)).
Proof.
  intros act. unfold checkEnvironmentHints. fold act.
  assert (Hempty : Getenv w "ACT_CONTAINER_RUNTIME" = "" -> act = "").
  { intros E. unfold act. rewrite E. reflexivity. }
  destruct (String.eqb_spec (Getenv w "ACT_CONTAINER_RUNTIME") "") as [Ea | Ea];
    simpl.
  - specialize (Hempty Ea).
    destruct (String.eqb_spec (Getenv w "PODMAN_HOST") "") as [Ep | Ep];
      destruct (String.eqb_spec (Getenv w "DOCKER_HOST") "") as [Ed | Ed];
      simpl; repeat split; intros; try reflexivity; try congruence.
  - destruct (String.eqb_spec act "docker") as [E1 | E1];
      [repeat split; intros; try reflexivity; try congruence |].
    destruct (String.eqb_spec act "podman") as [E2 | E2];
      [repeat split; intros; try reflexivity; try congruence |].
    destruct (String.eqb_spec (Getenv w "PODMAN_HOST") "") as [Ep | Ep];
      destruct (String.eqb_spec (Getenv w "DOCKER_HOST") "") as [Ed | Ed];
      simpl; repeat split; intros; try reflexivity; try congruence.
Qed.

(** The test table of the package: PODMAN_HOST=unix:///test alone. *)
Lemma C4_checkEnvironmentHints_order_witness :
  checkEnvironmentHints NewRuntimeDetector podmanHostWorld = RuntimePodman.
Proof.
  apply (proj1 (proj2 (proj2 (C4_checkEnvironmentHints_order
                                NewRuntimeDetector podmanHostWorld))
                  ltac:(vm_compute; discriminate) ltac:(vm_compute; discriminate))).
  vm_compute. discriminate.
Defined.

(** Mixed letter case in the tool's own variable still names the backend. *)
Example checkEnvironmentHints_mixed_case :
  checkEnvironmentHints NewRuntimeDetector
    (withEnviron {[ "ACT_CONTAINER_RUNTIME" := "DoCkEr" ]} bareWorld) = RuntimeDocker /\
  checkEnvironmentHints NewRuntimeDetector
    (withEnviron {[ "ACT_CONTAINER_RUNTIME" := "PODMAN" ]} bareWorld) = RuntimePodman /\
  checkEnvironmentHints NewRuntimeDetector
    (withEnviron {[ "ACT_CONTAINER_RUNTIME" := "banana" ]} bareWorld) = RuntimeUnknown.
Proof. repeat split; vm_compute; reflexivity. Qed.

(** A Kelvin sign counts as the letter k: the tool's variable names Docker
    and wins over the Podman host variable. *)
Example checkEnvironmentHints_kelvin_sign :
  Getenv kelvinDockerWorld "PODMAN_HOST" <> "" /\
  checkEnvironmentHints NewRuntimeDetector kelvinDockerWorld = RuntimeDocker.
Proof. split; [vm_compute; discriminate | vm_compute; reflexivity]. Qed.

(** ** Preference from the environment *)

(** C9 does not hold of the code: with ACT_CONTAINER_RUNTIME=DOCKER,
    [configureDetectorFromEnvironment] leaves the preference of a fresh
    detector at Unknown, although the variable is a letter-case variant of
    docker, and although [checkEnvironmentHints] reads the same value as
    Docker. *)
Theorem C9_upper_case_name_sets_no_preference :
  preferredRuntime
    (globalDetector (snd (configureDetectorFromEnvironment upperCaseDockerWorld init)))
  = RuntimeUnknown /\
  strings.ToLower (Getenv upperCaseDockerWorld "ACT_CONTAINER_RUNTIME") = "docker" /\
  checkEnvironmentHints (globalDetector init) upperCaseDockerWorld = RuntimeDocker.
Proof. repeat split; vm_compute; reflexivity. Qed.

(** What [configureDetectorFromEnvironment] does to the preference: the two
    names as written set it, every other value leaves it as it was. *)
Lemma configureDetectorFromEnvironment_preference (w : World) (g : Globals) :
  let v := Getenv w "ACT_CONTAINER_RUNTIME" in
  let g' := snd (configureDetectorFromEnvironment w g) in
  (v = "docker" -> preferredRuntime (globalDetector g') = RuntimeDocker) /\
  (v = "podman" -> preferredRuntime (globalDetector g') = RuntimePodman) /\
  (v <> "docker" -> v <> "podman" ->
     preferredRuntime (globalDetector g') = preferredRuntime (globalDetector g)) /\
  runtimeOverride g' = runtimeOverride g.
Proof.
  intros v g'. subst g'. unfold configureDetectorFromEnvironment. fold v.
  unfold bind, withDetector, ret.
  destruct (String.eqb_spec v "") as [E0 | E0]; simpl;
    [| destruct (String.eqb_spec v "docker") as [E1 | E1];
       [| destruct (String.eqb_spec v "podman") as [E2 | E2]]];
    destruct (String.eqb (Getenv w "ACT_CONTAINER_SOCKET") ""); simpl;
    repeat split; intros; try reflexivity; try congruence.
Qed.

(** ** The test override *)

Lemma getSelectedRuntime_override (w : World) (g : Globals) :
  runtimeOverride g <> RuntimeUnknown ->
  getSelectedRuntime w g = (runtimeOverride g, g).
Proof.
  intros H. unfold getSelectedRuntime, bind, gets, ret.
  apply runtime_eqb_neq in H. rewrite H. reflexivity.
Qed.

Lemma NewContainer_adapterFor (w : World) (input : NewContainerInput) (g : Globals) :
  NewContainer w input g =
  (adapterFor (fst (getSelectedRuntime w g)) input, snd (getSelectedRuntime w g)).
Proof.
  unfold NewContainer, bind.
  destruct (getSelectedRuntime w g) as [r g']. simpl.
  destruct r; reflexivity.
Qed.

Lemma call_keeps_override (c : Call) (g : Globals) :
  runtimeOverride g <> RuntimeUnknown ->
  runtimeOverride (snd (call c g)) = runtimeOverride g.
Proof.
  intros H. destruct c as [w i | w i r | w | w | w | r | s];
    simpl; unfold bind, ret; simpl.
  - rewrite NewContainer_adapterFor, getSelectedRuntime_override by assumption.
    reflexivity.
  - unfold NewContainerWithRuntime, bind, gets, ret.
    destruct (negb _); [reflexivity | destruct r; reflexivity].
  - unfold GetCurrentRuntime. rewrite getSelectedRuntime_override by assumption.
    reflexivity.
  - reflexivity.
  - reflexivity.
  - reflexivity.
  - reflexivity.
Qed.

Lemma call_agrees (c : Call) (g : Globals) :
  runtimeOverride g <> RuntimeUnknown ->
  agrees (runtimeOverride g) (fst (call c g)).
Proof.
  intros H. destruct c as [w i | w i r | w | w | w | r | s];
    simpl; unfold bind, ret; simpl.
  - rewrite NewContainer_adapterFor, getSelectedRuntime_override by assumption.
    reflexivity.
  - destruct (NewContainerWithRuntime w i r g). exact I.
  - unfold GetCurrentRuntime. rewrite getSelectedRuntime_override by assumption.
    reflexivity.
  - exact I.
  - exact I.
  - exact I.
  - exact I.
Qed.

(** C5: while the override holds a value [r] other than Unknown, every
    resolution returns [r] and leaves the package state as it was, whatever
    the detector's settings, the environment and the probes: for
    [getSelectedRuntime], for [GetCurrentRuntime], for [NewContainer] (which
    makes the adapter of [r]), and for every resolution inside any sequence
    of calls that does not touch the override; once the override is cleared
    the resolution is the detector's again. *)
Theorem C5_override_wins (r : ContainerRuntime) (g : Globals) :
  r <> RuntimeUnknown ->
  let g1 := snd (SetRuntimeOverride r g) in
  (forall w, getSelectedRuntime w g1 = (r, g1)) /\
  (forall w, GetCurrentRuntime w g1 = (r, g1)) /\
  (forall w input, NewContainer w input g1 = (adapterFor r input, g1)) /\
  (forall cs, Forall (agrees r) (fst (calls cs g1)) /\
              runtimeOverride (snd (calls cs g1)) = r) /\
  (forall w,
     let g2 := snd (ClearRuntimeOverride g1) in
     runtimeOverride g2 = RuntimeUnknown /\
     fst (getSelectedRuntime w g2) =
     DetectAvailableRuntime
       (globalDetector (snd (configureDetectorFromEnvironment w g2))) w).
Proof.
  intros Hr g1.
  assert (Hg1 : runtimeOverride g1 = r) by reflexivity.
  assert (Hne : runtimeOverride g1 <> RuntimeUnknown) by (rewrite Hg1; exact Hr).
  repeat split.
  - intros w. rewrite getSelectedRuntime_override by assumption. rewrite Hg1.
    reflexivity.
  - intros w. unfold GetCurrentRuntime.
    rewrite getSelectedRuntime_override by assumption. rewrite Hg1. reflexivity.
  - intros w i. rewrite NewContainer_adapterFor.
    rewrite getSelectedRuntime_override by assumption. rewrite Hg1. reflexivity.
  - revert Hg1 Hne. generalize g1. clear g1. induction cs as [| c cs IH];
      intros g1 Hg1 Hne; simpl.
    + constructor.
    + unfold bind, ret.
      pose proof (call_agrees c g1 Hne) as Ha.
      pose proof (call_keeps_override c g1 Hne) as Hk.
      destruct (call c g1) as [a g'] eqn:Ec. simpl in Ha, Hk.
      assert (Hg' : runtimeOverride g' = r) by congruence.
      assert (Hne' : runtimeOverride g' <> RuntimeUnknown) by (rewrite Hg'; exact Hr).
      specialize (IH g' Hg' Hne').
      destruct (calls cs g') as [l g'']. simpl in *.
      constructor; [rewrite <- Hg1; exact Ha | exact IH].
  - revert Hg1 Hne. generalize g1. clear g1. induction cs as [| c cs IH];
      intros g1 Hg1 Hne; simpl.
    + exact Hg1.
    + unfold bind, ret.
      pose proof (call_keeps_override c g1 Hne) as Hk.
      destruct (call c g1) as [a g'] eqn:Ec. simpl in Hk.
      assert (Hg' : runtimeOverride g' = r) by congruence.
      assert (Hne' : runtimeOverride g' <> RuntimeUnknown) by (rewrite Hg'; exact Hr).
      specialize (IH g' Hg' Hne').
      destruct (calls cs g') as [l g'']. simpl in *. exact IH.
  - unfold getSelectedRuntime, bind, gets, ret. simpl.
    destruct (configureDetectorFromEnvironment w _) as [u g3]. reflexivity.
Qed.

(** With the override at Docker, a host with nothing on it still resolves to
    Docker. *)
Lemma C5_override_wins_witness :
  getSelectedRuntime bareWorld (snd (SetRuntimeOverride RuntimeDocker init))
  = (RuntimeDocker, snd (SetRuntimeOverride RuntimeDocker init)).
Proof.
  apply (proj1 (C5_override_wins RuntimeDocker init ltac:(discriminate))).
Defined.

(** ** Forced creation *)

Lemma NewContainerWithRuntime_spec (w : World) (i : NewContainerInput)
  (r : ContainerRuntime) (g : Globals) :
  NewContainerWithRuntime w i r g =
  (if verifyRuntime (globalDetector g) w r then adapterFor r i else newNullContainer i,
   g).
Proof.
  unfold NewContainerWithRuntime, bind, gets, ret.
  destruct (verifyRuntime (globalDetector g) w r); simpl; [| reflexivity].
  destruct r; reflexivity.
Qed.

(** C6: [NewContainerWithRuntime] verifies the backend it is given before it
    makes an adapter.  When verification fails it returns the null
    container for the caller's input, and Unknown never verifies; a Docker
    or Podman adapter comes out only for that very backend, verified; the
    package state is not changed. *)
Theorem C6_forced_runtime_is_verified (w : World) (i : NewContainerInput)
  (r : ContainerRuntime) (g : Globals) :
  let h := fst (NewContainerWithRuntime w i r g) in
  snd (NewContainerWithRuntime w i r g) = g /\
  verifyRuntime (globalDetector g) w RuntimeUnknown = false /\
  (verifyRuntime (globalDetector g) w r = false -> h = newNullContainer i) /\
  (verifyRuntime (globalDetector g) w r = true -> h = adapterFor r i) /\
  (forall i', h = DockerAdapter i' ->
     r = RuntimeDocker /\ i' = i /\ verifyRuntime (globalDetector g) w RuntimeDocker = true) /\
  (forall cr, h = PodmanAdapter cr ->
     r = RuntimePodman /\ input cr = i /\
     verifyRuntime (globalDetector g) w RuntimePodman = true).
Proof.
  intros h. subst h. rewrite NewContainerWithRuntime_spec. simpl.
  split; [reflexivity |]. split; [reflexivity |].
  split; [intros Hv; rewrite Hv; reflexivity |].
  split; [intros Hv; rewrite Hv; reflexivity |].
  split.
  - intros i' H. destruct (verifyRuntime (globalDetector g) w r) eqn:Hv.
    + destruct r; simpl in H; try discriminate H.
      inversion H. subst i'. auto.
    + discriminate H.
  - intros cr H. destruct (verifyRuntime (globalDetector g) w r) eqn:Hv.
    + destruct r; simpl in H; try discriminate H.
      inversion H. subst cr. auto.
    + discriminate H.
Qed.

(** Forcing Podman on a host that only has Docker gives the null container;
    forcing Docker there gives the Docker adapter. *)
Lemma C6_forced_runtime_is_verified_witness :
  fst (NewContainerWithRuntime dockerWorld (mkInput "test:latest" "test-container")
         RuntimePodman init)
  = newNullContainer (mkInput "test:latest" "test-container") /\
  fst (NewContainerWithRuntime dockerWorld (mkInput "test:latest" "test-container")
         RuntimeDocker init)
  = newDockerContainer (mkInput "test:latest" "test-container").
Proof.
  split.
  - apply (proj1 (proj2 (proj2 (C6_forced_runtime_is_verified dockerWorld
             (mkInput "test:latest" "test-container") RuntimePodman init)))).
    reflexivity.
  - apply (proj1 (proj2 (proj2 (proj2 (C6_forced_runtime_is_verified dockerWorld
             (mkInput "test:latest" "test-container") RuntimeDocker init))))).
    reflexivity.
Defined.

(** C10: the override plays no part in forced creation.  Whatever value the
    override holds, [NewContainerWithRuntime] returns the same handle, decided
    by verifying the caller's backend on the host, and leaves the state as it
    found it; when the override names a backend that does not verify, forcing
    that backend still gives the null container. *)
Theorem C10_forced_creation_ignores_override (w : World) (i : NewContainerInput)
  (r ov : ContainerRuntime) (g : Globals) :
  let g1 := snd (SetRuntimeOverride ov g) in
  NewContainerWithRuntime w i r g1 = (fst (NewContainerWithRuntime w i r g), g1) /\
  fst (NewContainerWithRuntime w i r g1) =
    (if verifyRuntime (globalDetector g1) w r then adapterFor r i
     else newNullContainer i) /\
  (verifyRuntime (globalDetector g1) w ov = false ->
   fst (NewContainerWithRuntime w i ov g1) = newNullContainer i).
Proof.
  intros g1. rewrite !NewContainerWithRuntime_spec. simpl.
  repeat split. intros H. rewrite H. reflexivity.
Qed.

(** The override says Podman on a host with nothing on it: forcing Podman
    gives the null container, although the resolution itself answers Podman. *)
Lemma C10_forced_creation_ignores_override_witness :
  fst (NewContainerWithRuntime bareWorld (mkInput "test:latest" "test-container")
         RuntimePodman (snd (SetRuntimeOverride RuntimePodman init)))
  = newNullContainer (mkInput "test:latest" "test-container").
Proof.
  apply (proj2 (proj2 (C10_forced_creation_ignores_override bareWorld
           (mkInput "test:latest" "test-container") RuntimePodman RuntimePodman init))).
  reflexivity.
Defined.

(** ** The list of available runtimes *)

(** C7 does not hold of the code: when neither Docker nor Podman verifies,
    [GetAvailableRuntimes] returns the nil slice it declared, not an empty
    slice that is not nil. *)
Theorem C7_GetAvailableRuntimes_nil (w : World) (g : Globals) :
  verifyRuntime (globalDetector g) w RuntimeDocker = false ->
  verifyRuntime (globalDetector g) w RuntimePodman = false ->
  fst (GetAvailableRuntimes w g) = nil_slice /\
  fst (GetAvailableRuntimes w g) <> slice_of [].
Proof.
  intros Hd Hp. unfold GetAvailableRuntimes, bind, gets, ret. simpl in *.
  rewrite Hd, Hp. split; [reflexivity | discriminate].
Qed.

Lemma C7_GetAvailableRuntimes_nil_witness :
  fst (GetAvailableRuntimes bareWorld init) = nil_slice /\
  fst (GetAvailableRuntimes bareWorld init) <> slice_of [].
Proof.
  apply (C7_GetAvailableRuntimes_nil bareWorld init); reflexivity.
Defined.

(** The part of C7 the code does meet: the slice holds verified backends
    only, Docker before Podman. *)
Lemma GetAvailableRuntimes_verified (w : World) (g : Globals) (r : ContainerRuntime) :
  In r (elements_of (fst (GetAvailableRuntimes w g))) <->
  r <> RuntimeUnknown /\ verifyRuntime (globalDetector g) w r = true.
Proof.
  unfold GetAvailableRuntimes, bind, gets, ret. simpl.
  destruct (verifyDocker _ w) eqn:Hd, (verifyPodman _ w) eqn:Hp; simpl;
    destruct r; simpl; rewrite ?Hd, ?Hp; intuition congruence.
Qed.

(** ** The null container *)

Lemma prefix_append (p a b : string) :
  String.prefix p a = true -> String.prefix p (a ++ b) = true.
Proof.
  revert a. induction p as [| c p IH]; intros a H.
  - destruct (a ++ b); reflexivity.
  - destruct a as [| d a]; simpl in *; [discriminate |].
    destruct (ascii_dec c d); [apply IH; exact H | discriminate].
Qed.

Lemma Contains_append_l (a b sub : string) :
  strings.Contains a sub = true -> strings.Contains (a ++ b) sub = true.
Proof.
  induction a as [| c a IH]; intros H.
  - simpl in H. rewrite orb_false_r in H.
    destruct sub; [| discriminate H].
    destruct b; reflexivity.
  - cbn [strings.Contains] in H. apply orb_true_iff in H.
    change (String c a ++ b) with (String c (a ++ b)).
    cbn [strings.Contains]. apply orb_true_iff.
    destruct H as [H | H].
    + left. apply (prefix_append sub (String c a) b H).
    + right. apply IH, H.
Qed.

Lemma Contains_append_r (a b sub : string) :
  strings.Contains b sub = true -> strings.Contains (a ++ b) sub = true.
Proof.
  intros H. induction a as [| c a IH].
  - exact H.
  - change (String c a ++ b) with (String c (a ++ b)).
    cbn [strings.Contains]. rewrite IH. apply orb_true_r.
Qed.

(** Looks for the piece of a concatenation that holds the wanted text. *)
Ltac find_piece :=
  first [ vm_compute; reflexivity
        | apply Contains_append_l; find_piece
        | apply Contains_append_r; find_piece ].

Lemma GetHelpfulErrorMessage_guidance (rd : RuntimeDetector) (w : World) :
  hasInstallGuidance (GetHelpfulErrorMessage rd w) /\
  strings.HasPrefix (GetHelpfulErrorMessage rd w) "No container runtime detected" = true.
Proof.
  unfold hasInstallGuidance, GetHelpfulErrorMessage.
  destruct (socketLocation w) as [dockerSocket found].
  destruct found, (verifyDocker rd w), (verifyPodman rd w);
    (repeat split; [discriminate | find_piece ..]).
Qed.

Lemma noRuntime_fails (w : World) : failsWithGuidance (Null.noRuntime w).
Proof.
  intros g. unfold Null.noRuntime, GetRuntimeDetectionError, bind, gets, ret.
  unfold Errorf_no_runtime. eexists. split; [reflexivity |].
  destruct (GetHelpfulErrorMessage_guidance (globalDetector g) w)
    as [(_ & H1 & H2 & H3 & H4) _].
  repeat split.
  - discriminate.
  - do 3 apply Contains_append_r. exact H1.
  - do 3 apply Contains_append_r. exact H2.
  - do 3 apply Contains_append_r. exact H3.
  - do 3 apply Contains_append_r. exact H4.
Qed.

Lemma firstVerified_none (rd : RuntimeDetector) (w : World) (l : list RuntimeSocket) :
  (forall s, verifySocketConnection rd w s = false) ->
  firstVerified rd w l = RuntimeUnknown.
Proof.
  intros H. induction l as [| s l IH]; simpl; [reflexivity |].
  rewrite H. exact IH.
Qed.

(** With no override and nothing answering on the host, the resolution
    yields Unknown. *)
Lemma getSelectedRuntime_nothing_available (w : World) (g : Globals) :
  runtimeOverride g = RuntimeUnknown ->
  (forall rd, verifyDocker rd w = false) ->
  (forall rd, verifyPodman rd w = false) ->
  (forall rd s, verifySocketConnection rd w s = false) ->
  fst (getSelectedRuntime w g) = RuntimeUnknown.
Proof.
  intros Ho Hd Hp Hs. unfold getSelectedRuntime, bind, gets, ret.
  rewrite Ho. simpl.
  destruct (configureDetectorFromEnvironment w g) as [u g']. simpl.
  unfold DetectAvailableRuntime.
  assert (Hv : forall r, verifyRuntime (globalDetector g') w r = false).
  { intros r. destruct r; simpl; auto. }
  rewrite !Hv, !andb_false_r.
  unfold autoDetectRuntime.
  rewrite firstVerified_none by apply Hs.
  destruct (length _ =? 0)%nat; reflexivity.
Qed.

(** C1: [NewContainer] always returns a handle, one of the three adapters
    made for the caller's input.  When the resolution yields Unknown, as it
    does when no override is set and no backend answers, the handle is the
    null container: each of its mutating operations fails with a non-empty
    message that carries the install guidance for Docker and for Podman, its
    query operations answer with the Linux defaults, and its health is
    always unhealthy. *)
Theorem C1_NewContainer_null_container (w : World) (i : NewContainerInput)
  (g : Globals) :
  (exists r, fst (NewContainer w i g) = adapterFor r i) /\
  (runtimeOverride g = RuntimeUnknown ->
   (forall rd, verifyDocker rd w = false) ->
   (forall rd, verifyPodman rd w = false) ->
   (forall rd s, verifySocketConnection rd w s = false) ->
   fst (getSelectedRuntime w g) = RuntimeUnknown) /\
  (fst (getSelectedRuntime w g) = RuntimeUnknown ->
   exists n,
     fst (NewContainer w i g) = NullAdapter n /\
     null_input n = i /\
     mutatingOperationsFail n /\
     linuxDefaults n /\
     Null.GetHealth n = HealthUnHealthy).
Proof.
  split; [| split].
  - rewrite NewContainer_adapterFor. eexists. reflexivity.
  - apply getSelectedRuntime_nothing_available.
  - intros Hu. rewrite NewContainer_adapterFor, Hu. simpl.
    eexists. split; [reflexivity |]. split; [reflexivity |].
    split; [| split; [| reflexivity]].
    + unfold mutatingOperationsFail. repeat split; intros; apply noRuntime_fails.
    + unfold linuxDefaults. repeat split; vm_compute; reflexivity.
Qed.

(** On a host with nothing on it the factory hands out the null container. *)
Lemma C1_NewContainer_null_container_witness :
  exists n,
    fst (NewContainer bareWorld (mkInput "test:latest" "test-container") init)
      = NullAdapter n /\
    null_input n = mkInput "test:latest" "test-container" /\
    mutatingOperationsFail n /\
    linuxDefaults n /\
    Null.GetHealth n = HealthUnHealthy.
Proof.
  apply (proj2 (proj2 (C1_NewContainer_null_container bareWorld
           (mkInput "test:latest" "test-container") init))).
  reflexivity.
Defined.

(** ** Socket discovery and the choice among the sockets found *)

Lemma insertByScore_In (x y : RuntimeSocket) (l : list RuntimeSocket) :
  In y (insertByScore x l) <-> y = x \/ In y l.
Proof.
  induction l as [| z l IH]; simpl.
  - intuition.
  - destruct (Score x <? Score z); simpl; rewrite ?IH; intuition.
Qed.

Lemma stableSort_In (y : RuntimeSocket) (l : list RuntimeSocket) :
  In y (stableSort l) <-> In y l.
Proof.
  induction l as [| x l IH]; simpl; [reflexivity |].
  rewrite insertByScore_In, IH. intuition.
Qed.

Lemma insertByScore_descending (x : RuntimeSocket) (l : list RuntimeSocket) :
  descending l -> descending (insertByScore x l).
Proof.
  unfold descending. induction l as [| y l IH]; intros H; simpl.
  - constructor; constructor.
  - inversion H as [| ? ? Hl Hy]; subst.
    destruct (Z.ltb_spec (Score x) (Score y)).
    + constructor; [apply IH, Hl |].
      apply List.Forall_forall. intros z Hz. apply insertByScore_In in Hz.
      destruct Hz as [-> | Hz]; [lia |].
      rewrite List.Forall_forall in Hy. apply Hy, Hz.
    + constructor; [exact H |].
      constructor; [lia |].
      rewrite List.Forall_forall in Hy |- *. intros z Hz. specialize (Hy z Hz). lia.
Qed.

Lemma stableSort_descending (l : list RuntimeSocket) : descending (stableSort l).
Proof.
  induction l as [| x l IH]; simpl.
  - constructor.
  - apply insertByScore_descending, IH.
Qed.

Lemma find_In_pass (P : RuntimeSocket -> bool) (l : list RuntimeSocket)
  (b : RuntimeSocket) : find P l = Some b -> In b l /\ P b = true.
Proof. apply find_some. Qed.

Lemma find_insertByScore (P : RuntimeSocket -> bool) (x : RuntimeSocket)
  (l : list RuntimeSocket) :
  descending l ->
  find P (insertByScore x l) =
  if P x then
    match find P l with
    | Some b => if Score x <? Score b then Some b else Some x
    | None => Some x
    end
  else find P l.
Proof.
  unfold descending. induction l as [| y l IH]; intros H; simpl.
  - destruct (P x); reflexivity.
  - inversion H as [| ? ? Hl Hy]; subst.
    destruct (Z.ltb_spec (Score x) (Score y)) as [Hlt | Hge]; simpl.
    + rewrite (IH Hl). destruct (P y) eqn:Py.
      * destruct (P x); [| reflexivity].
        destruct (Z.ltb_spec (Score x) (Score y)); [reflexivity | lia].
      * reflexivity.
    + destruct (P x) eqn:Px; [| reflexivity].
      destruct (P y) eqn:Py.
      * destruct (Z.ltb_spec (Score x) (Score y)); [lia | reflexivity].
      * destruct (find P l) as [b |] eqn:Hf; [| reflexivity].
        apply find_In_pass in Hf. destruct Hf as [Hb _].
        rewrite List.Forall_forall in Hy. specialize (Hy b Hb).
        destruct (Z.ltb_spec (Score x) (Score b)); [lia | reflexivity].
Qed.

Lemma find_stableSort (P : RuntimeSocket -> bool) (l : list RuntimeSocket) :
  find P (stableSort l) = bestOf P l.
Proof.
  induction l as [| x l IH]; simpl; [reflexivity |].
  rewrite find_insertByScore by apply stableSort_descending.
  rewrite IH. destruct (P x); simpl.
  - destruct (bestOf P l) as [b |]; [| reflexivity].
    destruct (Z.ltb_spec (Score x) (Score b)), (Z.leb_spec (Score b) (Score x));
      try reflexivity; lia.
  - destruct (bestOf P l); reflexivity.
Qed.

Lemma bestOf_None (P : RuntimeSocket -> bool) (l : list RuntimeSocket) :
  bestOf P l = None <-> forall c, In c l -> P c = false.
Proof.
  induction l as [| x l IH]; simpl.
  - intuition.
  - destruct (bestOf P l) as [b |] eqn:Hb.
    + split.
      * destruct (P x && _); discriminate.
      * intros H. assert (Hn : Some b = None) by (apply IH; auto). discriminate.
    + destruct (P x) eqn:Px; split; intros H.
      * discriminate.
      * rewrite H in Px by auto. discriminate.
      * intros c [-> | Hc]; [exact Px | apply IH; auto].
      * reflexivity.
Qed.

Lemma bestOf_isBest (P : RuntimeSocket -> bool) (l : list RuntimeSocket)
  (b : RuntimeSocket) :
  bestOf P l = Some b -> exists i, isBest P l i b.
Proof.
  revert b. induction l as [| x l IH]; intros b H; simpl in H; [discriminate |].
  destruct (bestOf P l) as [b' |] eqn:Hb.
  - destruct (IH b' eq_refl) as (i & Hi & Pb' & Hmax).
    destruct (P x) eqn:Px; simpl in H;
      [destruct (Z.leb_spec (Score b') (Score x)) as [Hle | Hgt] |].
    + inversion H; subst b. exists 0%nat. split; [reflexivity |]. split; [exact Px |].
      intros [| j] c Hc Pc; simpl in Hc.
      * inversion Hc; subst. right. split; [reflexivity | lia].
      * destruct (Hmax j c Hc Pc) as [Hlt | [Heq _]]; [left; lia |].
        destruct (Z.eq_dec (Score c) (Score x)); [right; split; [assumption | lia] |].
        left. lia.
    + inversion H; subst b. exists (S i). split; [exact Hi |]. split; [exact Pb' |].
      intros [| j] c Hc Pc; simpl in Hc.
      * inversion Hc; subst. left. lia.
      * destruct (Hmax j c Hc Pc) as [Hlt | [Heq Hij]]; [left; lia |].
        right. split; [assumption | lia].
    + inversion H; subst b. exists (S i). split; [exact Hi |]. split; [exact Pb' |].
      intros [| j] c Hc Pc; simpl in Hc.
      * inversion Hc; subst. congruence.
      * destruct (Hmax j c Hc Pc) as [Hlt | [Heq Hij]]; [left; lia |].
        right. split; [assumption | lia].
  - destruct (P x) eqn:Px; [| discriminate].
    inversion H; subst b. exists 0%nat. split; [reflexivity |]. split; [exact Px |].
    intros [| j] c Hc Pc; simpl in Hc.
    + inversion Hc; subst. right. split; [reflexivity | lia].
    + assert (Hn : P c = false).
      { apply (proj1 (bestOf_None P l) Hb). apply list_elem_of_In.
        eapply list_elem_of_lookup_2. exact Hc. }
      congruence.
Qed.

Section ScorePreserving.

Variable f : RuntimeSocket -> RuntimeSocket.
Hypothesis f_Score : forall x, Score (f x) = Score x.

Lemma swapIfLower_map (i j : nat) (a : list RuntimeSocket) :
  swapIfLower i j (map f a) = map f (swapIfLower i j a).
Proof.
  unfold swapIfLower. change (map f a) with (f <$> a).
  rewrite !list_lookup_fmap.
  destruct (a !! i) as [x |], (a !! j) as [y |]; simpl; try reflexivity.
  rewrite !f_Score. destruct (Score x <? Score y); [| reflexivity].
  rewrite !list_fmap_insert. reflexivity.
Qed.

Lemma sortInner_map (i : nat) (a : list RuntimeSocket) :
  sortInner i (map f a) = map f (sortInner i a).
Proof.
  unfold sortInner. rewrite length_map.
  generalize (seq (S i) (length a - S i)). intros js. revert a.
  induction js as [| j js IH]; intros a; simpl; [reflexivity |].
  rewrite swapIfLower_map. apply IH.
Qed.

Lemma sortByScore_map (a : list RuntimeSocket) :
  sortByScore (map f a) = map f (sortByScore a).
Proof.
  unfold sortByScore. rewrite length_map.
  generalize (seq 0 (length a - 1)). intros idx. revert a.
  induction idx as [| i idx IH]; intros a; simpl; [reflexivity |].
  rewrite sortInner_map. apply IH.
Qed.

Lemma insertByScore_map (x : RuntimeSocket) (l : list RuntimeSocket) :
  insertByScore (f x) (map f l) = map f (insertByScore x l).
Proof.
  induction l as [| y l IH]; simpl; [reflexivity |].
  rewrite !f_Score. destruct (Score x <? Score y); simpl; [rewrite IH |]; reflexivity.
Qed.

Lemma stableSort_map (l : list RuntimeSocket) :
  stableSort (map f l) = map f (stableSort l).
Proof.
  induction l as [| x l IH]; simpl; [reflexivity |].
  rewrite IH. apply insertByScore_map.
Qed.

End ScorePreserving.

Lemma filter_sublists {A : Type} (p : A -> bool) (l : list A) :
  In (List.filter p l) (sublists l).
Proof.
  induction l as [| x l IH]; simpl.
  - left. reflexivity.
  - apply in_or_app. destruct (p x).
    + left. apply in_map, IH.
    + right. exact IH.
Qed.

(** On every selection of entries of the table, the two sorting loops of
    [detectRuntimeSockets] give the stable order.  The table is in descending
    order but for its last entry, so no two equal scores ever stand in front
    of a higher one. *)
Lemma sortByScore_table_stable :
  map sortByScore (sublists candidates) = map stableSort (sublists candidates).
Proof. vm_compute. reflexivity. Qed.

Lemma collectAvailable_filter (rd : RuntimeDetector) (w : World)
  (cands : list RuntimeSocket) :
  collectAvailable rd w cands =
  map (expandSocket w)
      (List.filter (fun c => socketExists rd w (ExpandEnv w (Path c))) cands).
Proof.
  induction cands as [| c cands IH]; simpl; [reflexivity |].
  destruct (socketExists rd w (ExpandEnv w (Path c))); simpl; rewrite IH; reflexivity.
Qed.

Lemma collectAvailable_In (rd : RuntimeDetector) (w : World)
  (cands : list RuntimeSocket) (s : RuntimeSocket) :
  In s (collectAvailable rd w cands) <->
  exists c, In c cands /\ s = expandSocket w c /\ socketExists rd w (Path s) = true.
Proof.
  rewrite collectAvailable_filter, in_map_iff. split.
  - intros (c & <- & Hc). apply filter_In in Hc. destruct Hc as [Hc He].
    exists c. repeat split; assumption.
  - intros (c & Hc & -> & He). exists c. split; [reflexivity |].
    apply filter_In. split; assumption.
Qed.

Lemma encountered_table (rd : RuntimeDetector) (w : World) :
  customSocket rd = "" -> encountered rd w = collectAvailable rd w candidates.
Proof. unfold encountered. intros ->. reflexivity. Qed.

Lemma detectRuntimeSockets_stable (rd : RuntimeDetector) (w : World) :
  detectRuntimeSockets rd w = stableSort (encountered rd w).
Proof.
  unfold detectRuntimeSockets, encountered.
  destruct (negb (String.eqb (customSocket rd) "")); [reflexivity |].
  rewrite collectAvailable_filter.
  rewrite sortByScore_map, stableSort_map by reflexivity.
  f_equal.
  apply (proj1 map_ext_in_iff sortByScore_table_stable).
  apply filter_sublists.
Qed.

Lemma firstVerified_find (rd : RuntimeDetector) (w : World) (l : list RuntimeSocket) :
  firstVerified rd w l =
  match find (verifySocketConnection rd w) l with
  | Some s => Runtime s
  | None => RuntimeUnknown
  end.
Proof.
  induction l as [| s l IH]; simpl; [reflexivity |].
  destruct (verifySocketConnection rd w s); [reflexivity | exact IH].
Qed.

Lemma autoDetectRuntime_bestOf (rd : RuntimeDetector) (w : World) :
  autoDetectRuntime rd w =
  match bestOf (verifySocketConnection rd w) (encountered rd w) with
  | Some s => Runtime s
  | None => RuntimeUnknown
  end.
Proof.
  unfold autoDetectRuntime. rewrite firstVerified_find.
  rewrite detectRuntimeSockets_stable, find_stableSort.
  destruct (length _ =? 0)%nat eqn:E; [| reflexivity].
  apply Nat.eqb_eq in E.
  destruct (bestOf _ _) as [b |] eqn:Hb; [| reflexivity].
  rewrite <- find_stableSort in Hb. apply find_In_pass in Hb.
  destruct (stableSort (encountered rd w)); [destruct Hb as [[] _] | discriminate E].
Qed.

(** The two loops are not a stable sort of every list: two equal scores in
    front of a higher one change places. *)
Example sortByScore_not_stable :
  sortByScore [ mkSocket "a" RuntimeDocker 2; mkSocket "b" RuntimePodman 2;
                mkSocket "c" RuntimeDocker 3 ]
  = [ mkSocket "c" RuntimeDocker 3; mkSocket "b" RuntimePodman 2;
      mkSocket "a" RuntimeDocker 2 ].
Proof. vm_compute. reflexivity. Qed.

(** C3, as stated, fails: with a custom socket configured, the socket is
    among the discovered candidates although its path is an ordinary file,
    neither a socket nor a named pipe. *)
Lemma C3_custom_socket_counterexample :
  detectRuntimeSockets notesDetector notesWorld
    = [ mkSocket "/tmp/notes.txt" RuntimeDocker 100 ] /\
  Lstat notesWorld "/tmp/notes.txt" = Some 420 /\
  Z.land 420 ModeSocket = 0 /\
  Z.land 420 ModeNamedPipe = 0 /\
  socketExists notesDetector notesWorld "/tmp/notes.txt" = false.
Proof. repeat split; vm_compute; reflexivity. Qed.

(** C3 (amended): whenever one of the sockets found passes the live check,
    auto-detection returns the backend of the one that passes with the
    highest score, the earliest in encounter order among equal scores; when
    none passes it returns Unknown.  With no custom socket configured, the
    sockets found are exactly the table entries whose expanded path exists
    as a socket or a named pipe, so that an ordinary file is left out; with a
    custom socket configured, that socket is the only one found, as it is
    written, with score 100 and with no look at the file system. *)
Theorem C3_autoDetectRuntime_highest_score (rd : RuntimeDetector) (w : World) :
  ((exists s, In s (encountered rd w) /\ verifySocketConnection rd w s = true) ->
   exists i best,
     isBest (verifySocketConnection rd w) (encountered rd w) i best /\
     autoDetectRuntime rd w = Runtime best) /\
  ((forall s, In s (encountered rd w) -> verifySocketConnection rd w s = false) ->
   autoDetectRuntime rd w = RuntimeUnknown) /\
  (customSocket rd = "" ->
   encountered rd w = collectAvailable rd w candidates /\
   forall s, In s (detectRuntimeSockets rd w) <->
     exists c mode,
       In c candidates /\ s = expandSocket w c /\
       Lstat w (ExpandEnv w (Path c)) = Some mode /\
       (Z.land mode ModeSocket <> 0 \/ Z.land mode ModeNamedPipe <> 0)) /\
  (customSocket rd <> "" ->
   detectRuntimeSockets rd w =
   [ mkSocket (customSocket rd) (guessRuntimeFromSocket rd (customSocket rd)) 100 ] /\
   encountered rd w = detectRuntimeSockets rd w).
Proof.
  split; [| split; [| split]].
  - intros (s & Hs & Vs). rewrite autoDetectRuntime_bestOf.
    destruct (bestOf (verifySocketConnection rd w) (encountered rd w)) as [b |] eqn:Hb.
    + destruct (bestOf_isBest _ _ _ Hb) as [i Hi]. exists i, b. split; [exact Hi | reflexivity].
    + rewrite (proj1 (bestOf_None _ _) Hb s Hs) in Vs. discriminate.
  - intros H. rewrite autoDetectRuntime_bestOf.
    rewrite (proj2 (bestOf_None _ _) H). reflexivity.
  - intros Hc. split; [apply encountered_table, Hc |].
    intros s. rewrite detectRuntimeSockets_stable, stableSort_In.
    rewrite (encountered_table rd w Hc), collectAvailable_In. split.
    + intros (c & Hin & -> & He). simpl in He. unfold socketExists in He.
      destruct (Lstat w (ExpandEnv w (Path c))) as [mode |] eqn:Hl; [| discriminate].
      exists c, mode. repeat split; try assumption.
      apply orb_true_iff in He. destruct He as [He | He];
        apply negb_true_iff, Z.eqb_neq in He; [left | right]; exact He.
    + intros (c & mode & Hin & -> & Hl & Hm). exists c. repeat split; try assumption.
      simpl. unfold socketExists. rewrite Hl. apply orb_true_iff.
      destruct Hm as [Hm | Hm]; [left | right];
        apply negb_true_iff, Z.eqb_neq; exact Hm.
  - intros Hc. apply String.eqb_neq in Hc.
    unfold detectRuntimeSockets, encountered. rewrite Hc. simpl. split; reflexivity.
Qed.

(** With both sockets live, the Podman socket (95) wins over Docker (80). *)
Lemma C3_autoDetectRuntime_highest_score_witness :
  exists i best,
    isBest (verifySocketConnection NewRuntimeDetector bothSocketsWorld)
           (encountered NewRuntimeDetector bothSocketsWorld) i best /\
    autoDetectRuntime NewRuntimeDetector bothSocketsWorld = Runtime best.
Proof.
  apply (proj1 (C3_autoDetectRuntime_highest_score NewRuntimeDetector bothSocketsWorld)).
  exists (mkSocket "/var/run/docker.sock" RuntimeDocker 80).
  split; [vm_compute; tauto | vm_compute; reflexivity].
Defined.

Example autoDetectRuntime_both_sockets :
  encountered NewRuntimeDetector bothSocketsWorld
    = [ mkSocket "/run/user/1000/podman/podman.sock" RuntimePodman 95;
        mkSocket "/var/run/docker.sock" RuntimeDocker 80 ] /\
  autoDetectRuntime NewRuntimeDetector bothSocketsWorld = RuntimePodman.
Proof. split; vm_compute; reflexivity. Qed.

(** ** The socket handed to a client *)

(** C8, as stated, fails twice over.  A custom socket is returned with
    success as it is written, with no scheme in front, on a host where it
    does not exist and nothing answers; and the Podman machine socket is
    returned with success after a look at the path only, although it is an
    ordinary file and no daemon answers on it. *)
Lemma C8_unverified_socket_counterexample :
  (GetSocketForRuntime customSocketDetector bareWorld RuntimeDocker
     = ("/custom/socket", true) /\
   strings.HasPrefix "/custom/socket" "unix://" = false /\
   strings.HasPrefix "/custom/socket" "npipe://" = false /\
   socketExists customSocketDetector bareWorld "/custom/socket" = false /\
   verifySocketConnection customSocketDetector bareWorld
     (mkSocket "/custom/socket" RuntimeDocker 100) = false) /\
  (GetSocketForRuntime NewRuntimeDetector machineWorld RuntimePodman
     = ("unix:///tmp/podman.sock", true) /\
   socketExists NewRuntimeDetector machineWorld "/tmp/podman.sock" = false /\
   verifySocketConnection NewRuntimeDetector machineWorld
     (mkSocket "/tmp/podman.sock" RuntimePodman 0) = false).
Proof. repeat split; vm_compute; reflexivity. Qed.

Lemma HasPrefix_append (p s : string) : strings.HasPrefix (p ++ s) p = true.
Proof.
  unfold strings.HasPrefix. induction p as [| c p IH]; simpl.
  - destruct s; reflexivity.
  - destruct (ascii_dec c c); [exact IH | congruence].
Qed.

Lemma socketHost_scheme (w : World) (path : string) :
  strings.HasPrefix (socketHost w path) "unix://" = true \/
  strings.HasPrefix (socketHost w path) "npipe://" = true.
Proof.
  unfold socketHost. destruct (strings.HasPrefix path pipe_prefix).
  - right. apply HasPrefix_append.
  - left. apply HasPrefix_append.
Qed.

Lemma firstSocketFor_found (rd : RuntimeDetector) (w : World) (r : ContainerRuntime)
  (l : list RuntimeSocket) (uri : string) :
  firstSocketFor rd w r l = (uri, true) ->
  exists s, In s l /\ Runtime s = r /\ verifySocketConnection rd w s = true /\
            uri = socketHost w (Path s).
Proof.
  induction l as [| s l IH]; simpl; [discriminate |].
  destruct (runtime_eqb (Runtime s) r && verifySocketConnection rd w s) eqn:E.
  - intros H. inversion H; subst. apply andb_true_iff in E. destruct E as [Er Ev].
    apply runtime_eqb_eq in Er. exists s. auto.
  - intros H. destruct (IH H) as (s' & Hin & Hs'). exists s'. auto.
Qed.

Lemma getPodmanMachineSocket_found (rd : RuntimeDetector) (w : World) (p : string) :
  getPodmanMachineSocket rd w = (p, true) ->
  p <> "" /\ Stat w p = true /\
  exists output,
    RunCommand w "podman"
      ["machine"; "inspect"; "--format"; "{{.ConnectionInfo.PodmanSocket.Path}}"]
      = Some output /\
    p = strings.TrimSpace output.
Proof.
  unfold getPodmanMachineSocket.
  destruct (RunCommand w "podman" _) as [output |]; [| discriminate].
  destruct (String.eqb_spec (strings.TrimSpace output) "") as [E | E]; simpl;
    [discriminate |].
  destruct (String.eqb (strings.TrimSpace output) "<no value>"); [discriminate |].
  destruct (Stat w (strings.TrimSpace output)) eqn:Hs; simpl; [| discriminate].
  intros H. inversion H; subst. repeat split; try assumption.
  exists output. split; reflexivity.
Qed.

(** C8 (amended): a configured custom socket is returned with success as it
    is written, unverified.  With none configured, a socket URI returned
    with success starts with [unix://] or [npipe://] and is either the
    Podman machine socket, asked for Podman and returned after a look at the
    path alone, or the URI of a table entry of the requested backend whose
    expanded path exists as a socket or named pipe and which passed the
    live-connection check. *)
Theorem C8_GetSocketForRuntime_resolved (rd : RuntimeDetector) (w : World)
  (r : ContainerRuntime) :
  (customSocket rd <> "" -> GetSocketForRuntime rd w r = (customSocket rd, true)) /\
  (customSocket rd = "" ->
   forall uri, GetSocketForRuntime rd w r = (uri, true) ->
     (strings.HasPrefix uri "unix://" = true \/
      strings.HasPrefix uri "npipe://" = true) /\
     ((r = RuntimePodman /\
       exists p, getPodmanMachineSocket rd w = (p, true) /\ Stat w p = true /\
                 uri = "unix://" ++ p) \/
      (exists c,
         In c candidates /\ Runtime c = r /\
         socketExists rd w (ExpandEnv w (Path c)) = true /\
         verifySocketConnection rd w (expandSocket w c) = true /\
         uri = socketHost w (ExpandEnv w (Path c))))).
Proof.
  split.
  - intros Hc. apply String.eqb_neq in Hc. unfold GetSocketForRuntime.
    rewrite Hc. reflexivity.
  - intros Hc uri. unfold GetSocketForRuntime. rewrite Hc.
    change (negb (String.eqb "" "")) with false. cbv iota.
    destruct (runtime_eqb r RuntimePodman) eqn:Er.
    + apply runtime_eqb_eq in Er.
      destruct (getPodmanMachineSocket rd w) as [p [|]] eqn:Hm.
      * intros H. inversion H; subst uri. split.
        -- left. apply HasPrefix_append.
        -- left. split; [exact Er |]. exists p.
           destruct (getPodmanMachineSocket_found rd w p Hm) as (_ & Hs & _).
           auto.
      * intros H. apply firstSocketFor_found in H.
        destruct H as (s & Hin & Hr & Hv & ->).
        split; [apply socketHost_scheme |]. right.
        rewrite detectRuntimeSockets_stable, stableSort_In in Hin.
        rewrite (encountered_table rd w Hc), collectAvailable_In in Hin.
        destruct Hin as (c & Hin & -> & He). exists c. simpl in *. auto.
    + intros H. apply firstSocketFor_found in H.
      destruct H as (s & Hin & Hr & Hv & ->).
      split; [apply socketHost_scheme |]. right.
      rewrite detectRuntimeSockets_stable, stableSort_In in Hin.
      rewrite (encountered_table rd w Hc), collectAvailable_In in Hin.
      destruct Hin as (c & Hin & -> & He). exists c. simpl in *. auto.
Qed.

(** On the host with both sockets live, the Docker socket is resolved from
    the table and carries the [unix://] scheme. *)
Lemma C8_GetSocketForRuntime_resolved_witness :
  customSocket NewRuntimeDetector = "" /\
  GetSocketForRuntime NewRuntimeDetector bothSocketsWorld RuntimeDocker
    = ("unix:///var/run/docker.sock", true) /\
  (strings.HasPrefix "unix:///var/run/docker.sock" "unix://" = true \/
   strings.HasPrefix "unix:///var/run/docker.sock" "npipe://" = true).
Proof.
  split; [reflexivity |]. split; [vm_compute; reflexivity |].
  apply (proj1 (proj2 (C8_GetSocketForRuntime_resolved NewRuntimeDetector
                         bothSocketsWorld RuntimeDocker)
                  eq_refl "unix:///var/run/docker.sock"
                  ltac:(vm_compute; reflexivity))).
Defined.

(** ** More facts about the string helpers *)

Lemma lower_ascii_idempotent (c : ascii) :
  strings.lower_ascii (strings.lower_ascii c) = strings.lower_ascii c.
Proof. destruct c as [[] [] [] [] [] [] [] []]; reflexivity. Qed.

(** A byte that is no ASCII letter is the lower-casing of itself only. *)
Lemma lower_ascii_inv (c d : ascii) :
  ascii_letter d = false -> strings.lower_ascii c = d -> c = d.
Proof.
  unfold ascii_letter. intros Hd <-. revert Hd.
  destruct c as [[] [] [] [] [] [] [] []]; vm_compute; intros H;
    first [reflexivity | discriminate H].
Qed.

Lemma eqb_lower_ascii (c d : ascii) :
  ascii_letter d = false ->
  Ascii.eqb (strings.lower_ascii c) d = Ascii.eqb c d.
Proof.
  intros Hd. destruct (Ascii.eqb_spec (strings.lower_ascii c) d) as [E | E].
  - apply (lower_ascii_inv c d Hd) in E. subst d. symmetry. apply Ascii.eqb_refl.
  - destruct (Ascii.eqb_spec c d) as [E' | E']; [| reflexivity].
    subst d. exfalso. apply E. revert Hd. unfold ascii_letter.
    destruct c as [[] [] [] [] [] [] [] []]; vm_compute; intros H;
      first [reflexivity | discriminate H].
Qed.

Lemma ToLower_two (c c2 : ascii) :
  strings.ToLower (String c (String c2 "")) =
  if strings.is_dotted_I c c2 then "i"
  else String (strings.lower_ascii c) (strings.ToLower (String c2 "")).
Proof. reflexivity. Qed.

Lemma ToLower_three (c c2 c3 : ascii) (s3 : string) :
  strings.ToLower (String c (String c2 (String c3 s3))) =
  if strings.is_dotted_I c c2 then String "i" (strings.ToLower (String c3 s3))
  else if strings.is_kelvin c c2 c3 then String "k" (strings.ToLower s3)
       else String (strings.lower_ascii c)
              (strings.ToLower (String c2 (String c3 s3))).
Proof. reflexivity. Qed.

(** The three ways in which [ToLower] treats the first byte. *)
Lemma ToLower_cons (c : ascii) (s : string) :
  (exists c2 s2, s = String c2 s2 /\ strings.is_dotted_I c c2 = true /\
     strings.ToLower (String c s) = String "i" (strings.ToLower s2)) \/
  (exists c2 c3 s3, s = String c2 (String c3 s3) /\ strings.is_kelvin c c2 c3 = true /\
     strings.ToLower (String c s) = String "k" (strings.ToLower s3)) \/
  ((forall c2 s2, s = String c2 s2 -> strings.is_dotted_I c c2 = false) /\
   (forall c2 c3 s3, s = String c2 (String c3 s3) -> strings.is_kelvin c c2 c3 = false) /\
   strings.ToLower (String c s) = String (strings.lower_ascii c) (strings.ToLower s)).
Proof.
  destruct s as [| c2 [| c3 s3]].
  - right. right. split; [| split].
    + intros c2 s2 H. discriminate H.
    + intros c2 c3 s3 H. discriminate H.
    + reflexivity.
  - rewrite ToLower_two. destruct (strings.is_dotted_I c c2) eqn:EI.
    + left. exists c2, "". split; [reflexivity | split; [exact EI | reflexivity]].
    + right. right. split; [| split].
      * intros c2' s2' H. inversion H; subst. exact EI.
      * intros c2' c3' s3' H. discriminate H.
      * reflexivity.
  - rewrite ToLower_three. destruct (strings.is_dotted_I c c2) eqn:EI.
    + left. exists c2, (String c3 s3).
      split; [reflexivity | split; [exact EI | reflexivity]].
    + destruct (strings.is_kelvin c c2 c3) eqn:EK.
      * right. left. exists c2, c3, s3.
        split; [reflexivity | split; [exact EK | reflexivity]].
      * right. right. split; [| split].
        -- intros c2' s2' H. inversion H; subst. exact EI.
        -- intros c2' c3' s3' H. inversion H; subst. exact EK.
        -- reflexivity.
Qed.

(** A first byte that starts neither of the two runes is lower-cased on its
    own. *)
Lemma ToLower_keep (c : ascii) (s : string) :
  (forall c2 s2, s = String c2 s2 -> strings.is_dotted_I c c2 = false) ->
  (forall c2 c3 s3, s = String c2 (String c3 s3) -> strings.is_kelvin c c2 c3 = false) ->
  strings.ToLower (String c s) = String (strings.lower_ascii c) (strings.ToLower s).
Proof.
  intros HI HK.
  destruct (ToLower_cons c s) as [(c2 & s2 & -> & EI & _)
                                 | [(c2 & c3 & s3 & -> & EK & _) | (_ & _ & E)]].
  - rewrite (HI c2 s2 eq_refl) in EI. discriminate.
  - rewrite (HK c2 c3 s3 eq_refl) in EK. discriminate.
  - exact E.
Qed.

Lemma ToLower_ascii (c : ascii) (s : string) :
  Ascii.eqb c "196" = false -> Ascii.eqb c "226" = false ->
  strings.ToLower (String c s) = String (strings.lower_ascii c) (strings.ToLower s).
Proof.
  intros H1 H2. apply ToLower_keep.
  - intros c2 s2 _. unfold strings.is_dotted_I. rewrite H1. reflexivity.
  - intros c2 c3 s3 _. unfold strings.is_kelvin. rewrite H2. reflexivity.
Qed.

(** The first byte of a lower-cased string is [i], [k], or the lower-cased
    first byte of the string. *)
Lemma ToLower_head (c d : ascii) (s t : string) :
  strings.ToLower (String c s) = String d t ->
  d = "i"%char \/ d = "k"%char \/ (d = strings.lower_ascii c /\ t = strings.ToLower s).
Proof.
  destruct (ToLower_cons c s) as [(c2 & s2 & _ & _ & E)
                                 | [(c2 & c3 & s3 & _ & _ & E) | (_ & _ & E)]];
    rewrite E; intros H; inversion H; auto.
Qed.

Lemma ToLower_nonempty (s : string) (d : ascii) (t : string) :
  strings.ToLower s = String d t -> exists c s1, s = String c s1.
Proof. destruct s as [| c s1]; [discriminate | eauto]. Qed.

Lemma ToLower_idempotent_bounded (n : nat) (s : string) :
  (String.length s <= n)%nat ->
  strings.ToLower (strings.ToLower s) = strings.ToLower s.
Proof.
  revert s. induction n as [| n IH]; intros s Hlen.
  - destruct s; [reflexivity | simpl in Hlen; lia].
  - destruct s as [| c s1]; [reflexivity |]. simpl in Hlen.
    destruct (ToLower_cons c s1) as [(c2 & s2 & -> & EI & E)
                                    | [(c2 & c3 & s3 & -> & EK & E) | (HI & HK & E)]];
      rewrite E.
    + rewrite ToLower_ascii by reflexivity. simpl in Hlen.
      rewrite IH by lia. reflexivity.
    + rewrite ToLower_ascii by reflexivity. simpl in Hlen.
      rewrite IH by lia. reflexivity.
    + rewrite ToLower_keep.
      * rewrite lower_ascii_idempotent, IH by lia. reflexivity.
      * intros d2 t2 Ht. unfold strings.is_dotted_I.
        destruct (Ascii.eqb (strings.lower_ascii c) "196") eqn:E1; [| reflexivity].
        destruct (Ascii.eqb d2 "176") eqn:E2; [| reflexivity]. exfalso.
        rewrite eqb_lower_ascii in E1 by reflexivity.
        apply Ascii.eqb_eq in E2. subst d2.
        destruct (ToLower_nonempty _ _ _ Ht) as (c2 & s2 & ->).
        destruct (ToLower_head _ _ _ _ Ht) as [H | [H | [H _]]];
          try discriminate H.
        symmetry in H. apply lower_ascii_inv in H; [| reflexivity]. subst c2.
        specialize (HI _ _ eq_refl). unfold strings.is_dotted_I in HI.
        rewrite E1 in HI. discriminate HI.
      * intros d2 d3 t3 Ht. unfold strings.is_kelvin.
        destruct (Ascii.eqb (strings.lower_ascii c) "226") eqn:E1; [| reflexivity].
        destruct (Ascii.eqb d2 "132") eqn:E2; [| reflexivity].
        destruct (Ascii.eqb d3 "170") eqn:E3; [| reflexivity]. exfalso.
        rewrite eqb_lower_ascii in E1 by reflexivity.
        apply Ascii.eqb_eq in E2. apply Ascii.eqb_eq in E3. subst d2 d3.
        destruct (ToLower_nonempty _ _ _ Ht) as (c2 & s2 & ->).
        destruct (ToLower_head _ _ _ _ Ht) as [H | [H | [H Ht2]]];
          try discriminate H.
        symmetry in H. apply lower_ascii_inv in H; [| reflexivity]. subst c2.
        symmetry in Ht2.
        destruct (ToLower_nonempty _ _ _ Ht2) as (c3 & s3 & ->).
        destruct (ToLower_head _ _ _ _ Ht2) as [H | [H | [H _]]];
          try discriminate H.
        symmetry in H. apply lower_ascii_inv in H; [| reflexivity]. subst c3.
        specialize (HK _ _ _ eq_refl). unfold strings.is_kelvin in HK.
        rewrite E1 in HK. discriminate HK.
Qed.

Lemma ToLower_idempotent (s : string) :
  strings.ToLower (strings.ToLower s) = strings.ToLower s.
Proof. apply (ToLower_idempotent_bounded (String.length s)). lia. Qed.

Lemma prefix_refl (s : string) : String.prefix s s = true.
Proof.
  induction s as [| c s IH]; simpl; [reflexivity |].
  destruct (ascii_dec c c); [exact IH | congruence].
Qed.

Lemma Contains_refl (s : string) : strings.Contains s s = true.
Proof.
  destruct s as [| c s]; [reflexivity |].
  cbn [strings.Contains]. rewrite prefix_refl. reflexivity.
Qed.

Lemma Contains_prefix (s t : string) :
  String.prefix t s = true -> strings.Contains s t = true.
Proof. intros H. destruct s; cbn [strings.Contains]; rewrite H; reflexivity. Qed.

(** On a string of ASCII bytes only, [ToLower] is the byte-wise fast path
    of the library. *)
Lemma ToLower_isASCII (s : string) :
  strings.isASCII s = true -> strings.ToLower s = strings.lowerASCII s.
Proof.
  induction s as [| c s IH]; [reflexivity |].
  cbn [strings.isASCII]. intros H. apply andb_true_iff in H. destruct H as [Hc Hs].
  apply Nat.ltb_lt in Hc.
  rewrite ToLower_ascii.
  - cbn [strings.lowerASCII]. rewrite IH by exact Hs. reflexivity.
  - destruct (Ascii.eqb_spec c "196") as [-> |]; [| reflexivity].
    vm_compute in Hc. lia.
  - destruct (Ascii.eqb_spec c "226") as [-> |]; [| reflexivity].
    vm_compute in Hc. lia.
Qed.

(** The Kelvin sign lower-cases to [k] and the dotted capital I to [i]. *)
Example ToLower_outside_ASCII :
  strings.ToLower ("DOC" ++ kelvin_sign ++ "ER") = "docker" /\
  strings.ToLower dottedNetworkError = "slirp4netns is missing" /\
  strings.ToLower ("A" ++ no_break_space ++ "B") = "a" ++ no_break_space ++ "b".
Proof. repeat split; vm_compute; reflexivity. Qed.

(** ** White space *)

Lemma TrimLeft_step (s : string) :
  strings.TrimLeft s =
  match strings.leadingSpace s with
  | Some rest => strings.TrimLeft rest
  | None => s
  end.
Proof.
  destruct s as [| c1 [| c2 [| c3 s3]]]; cbn [strings.TrimLeft strings.leadingSpace];
    try reflexivity.
  - destruct (strings.is_space c1); reflexivity.
  - destruct (strings.is_space c1); [reflexivity |].
    destruct (strings.is_space2 c1 c2); reflexivity.
  - destruct (strings.is_space c1); [reflexivity |].
    destruct (strings.is_space2 c1 c2); [reflexivity |].
    destruct (strings.is_space3 c1 c2 c3); reflexivity.
Qed.

Lemma leadingSpace_shorter (s rest : string) :
  strings.leadingSpace s = Some rest -> (String.length rest < String.length s)%nat.
Proof.
  destruct s as [| c1 [| c2 [| c3 s3]]]; cbn [strings.leadingSpace]; try discriminate.
  - destruct (strings.is_space c1); [| discriminate].
    intros H. inversion H. simpl. lia.
  - destruct (strings.is_space c1); [intros H; inversion H; simpl; lia |].
    destruct (strings.is_space2 c1 c2); [| discriminate].
    intros H. inversion H. simpl. lia.
  - destruct (strings.is_space c1); [intros H; inversion H; simpl; lia |].
    destruct (strings.is_space2 c1 c2); [intros H; inversion H; simpl; lia |].
    destruct (strings.is_space3 c1 c2 c3); [| discriminate].
    intros H. inversion H. simpl. lia.
Qed.

(** A white-space rune in front of a string is in front of every string
    that starts with it. *)
Lemma leadingSpace_append (s rest tail : string) :
  strings.leadingSpace s = Some rest ->
  strings.leadingSpace (s ++ tail) = Some (rest ++ tail).
Proof.
  destruct s as [| c1 [| c2 [| c3 s3]]]; cbn [strings.leadingSpace]; try discriminate.
  - destruct (strings.is_space c1) eqn:E1; [| discriminate].
    intros H. inversion H; subst rest.
    change (String c1 "" ++ tail) with (String c1 tail).
    cbn [strings.leadingSpace]. rewrite E1. reflexivity.
  - change (String c1 (String c2 "") ++ tail) with (String c1 (String c2 tail)).
    cbn [strings.leadingSpace].
    destruct (strings.is_space c1); [intros H; inversion H; reflexivity |].
    destruct (strings.is_space2 c1 c2); [| discriminate].
    intros H. inversion H; reflexivity.
  - change (String c1 (String c2 (String c3 s3)) ++ tail)
      with (String c1 (String c2 (String c3 (s3 ++ tail)))).
    cbn [strings.leadingSpace].
    destruct (strings.is_space c1); [intros H; inversion H; reflexivity |].
    destruct (strings.is_space2 c1 c2); [intros H; inversion H; reflexivity |].
    destruct (strings.is_space3 c1 c2 c3); [| discriminate].
    intros H. inversion H; reflexivity.
Qed.

Lemma TrimLeft_no_leading_bounded (n : nat) (s : string) :
  (String.length s <= n)%nat -> strings.leadingSpace (strings.TrimLeft s) = None.
Proof.
  revert s. induction n as [| n IH]; intros s Hlen.
  - destruct s; [reflexivity | simpl in Hlen; lia].
  - rewrite TrimLeft_step. destruct (strings.leadingSpace s) as [rest |] eqn:E.
    + apply IH. apply leadingSpace_shorter in E. lia.
    + exact E.
Qed.

(** What [TrimLeft] leaves does not start with white space. *)
Lemma TrimLeft_no_leading (s : string) :
  strings.leadingSpace (strings.TrimLeft s) = None.
Proof. apply (TrimLeft_no_leading_bounded (String.length s)). lia. Qed.

Lemma TrimRight_idempotent (s : string) :
  strings.TrimRight (strings.TrimRight s) = strings.TrimRight s.
Proof.
  induction s as [| c s IH]; [reflexivity |].
  cbn [strings.TrimRight]. cbv zeta.
  destruct (strings.isSpaceRune (String c (strings.TrimRight s))) eqn:E;
    [reflexivity |].
  cbn [strings.TrimRight]. cbv zeta. rewrite IH, E. reflexivity.
Qed.

(** What [TrimRight] leaves is the beginning of the string. *)
Lemma TrimRight_prefix (s : string) :
  exists tail, s = strings.TrimRight s ++ tail.
Proof.
  induction s as [| c s [tail IH]]; [exists ""; reflexivity |].
  cbn [strings.TrimRight]. cbv zeta.
  destruct (strings.isSpaceRune (String c (strings.TrimRight s))).
  - exists (String c s). reflexivity.
  - exists tail. change (String c (strings.TrimRight s) ++ tail)
      with (String c (strings.TrimRight s ++ tail)).
    rewrite <- IH. reflexivity.
Qed.

Lemma TrimRight_no_leading (s : string) :
  strings.leadingSpace s = None ->
  strings.leadingSpace (strings.TrimRight s) = None.
Proof.
  intros H. destruct (TrimRight_prefix s) as [tail E].
  destruct (strings.leadingSpace (strings.TrimRight s)) as [rest |] eqn:El;
    [| reflexivity].
  apply (leadingSpace_append _ _ tail) in El. rewrite <- E, H in El. discriminate.
Qed.

Lemma TrimSpace_idempotent (s : string) :
  strings.TrimSpace (strings.TrimSpace s) = strings.TrimSpace s.
Proof.
  unfold strings.TrimSpace.
  rewrite (TrimLeft_step (strings.TrimRight (strings.TrimLeft s))).
  rewrite (TrimRight_no_leading _ (TrimLeft_no_leading s)).
  apply TrimRight_idempotent.
Qed.

(** White space outside ASCII is trimmed at both ends, white space inside
    stays, and a stray continuation byte is no white space. *)
Example TrimSpace_outside_ASCII :
  strings.TrimSpace (no_break_space ++ "/tmp/podman.sock" ++ LF) = "/tmp/podman.sock" /\
  strings.TrimSpace (" a b" ++ line_separator ++ no_break_space ++ " ") = "a b" /\
  strings.TrimSpace (line_separator ++ no_break_space) = "" /\
  strings.TrimSpace ("a" ++ no_break_space ++ "b") = "a" ++ no_break_space ++ "b" /\
  strings.TrimSpace (String "160" "a") = String "160" "a" /\
  strings.TrimSpace (String "a" (String "160" "")) = String "a" (String "160" "").
Proof. repeat split; vm_compute; reflexivity. Qed.

(** ** Podman's errors *)

Lemma isPodmanSpecificError_Some (text : string) :
  isPodmanSpecificError (Some text) =
  let errStr := strings.ToLower text in
  strings.Contains errStr "slirp4netns" || strings.Contains errStr "rootless"
  || strings.Contains errStr "user namespace" || strings.Contains errStr "podman".
Proof.
  unfold isPodmanSpecificError, podmanIndicators. cbn [anyIndicator]. cbv zeta.
  set (l := strings.ToLower text).
  destruct (strings.Contains l "slirp4netns"), (strings.Contains l "rootless"),
    (strings.Contains l "user namespace"), (strings.Contains l "podman"); reflexivity.
Qed.

(** X1: the two classifiers of [podman_run.go] agree.  Every error that gets
    one of the three specific hints is also classed as Podman's; the hint for
    "rootless" is chosen before the network hint, and that before the
    namespace hint; an error is never left without a hint; no error means
    no class and no hint; and letter case plays no part in either. *)
Theorem X1_podman_hint_consistent (text : string) :
  (getPodmanErrorHint (Some text) <> documentationHint ->
   isPodmanSpecificError (Some text) = true) /\
  (strings.Contains (strings.ToLower text) "rootless" = true ->
   getPodmanErrorHint (Some text) = rootlessHint) /\
  (strings.Contains (strings.ToLower text) "rootless" = false ->
   strings.Contains (strings.ToLower text) "slirp4netns" = true ->
   getPodmanErrorHint (Some text) = networkHint) /\
  getPodmanErrorHint (Some text) <> "" /\
  (isPodmanSpecificError None = false /\ getPodmanErrorHint None = "") /\
  (forall text', strings.ToLower text' = strings.ToLower text ->
     isPodmanSpecificError (Some text') = isPodmanSpecificError (Some text) /\
     getPodmanErrorHint (Some text') = getPodmanErrorHint (Some text)).
Proof.
  rewrite isPodmanSpecificError_Some. unfold getPodmanErrorHint. cbv zeta.
  repeat split.
  - destruct (strings.Contains _ "rootless"), (strings.Contains _ "slirp4netns"),
      (strings.Contains _ "user namespace"); simpl; try reflexivity.
    intros H. contradiction H. reflexivity.
  - intros H. rewrite H. reflexivity.
  - intros H1 H2. rewrite H1, H2. reflexivity.
  - destruct (strings.Contains _ "rootless"); [discriminate |].
    destruct (strings.Contains _ "slirp4netns"); [discriminate |].
    destruct (strings.Contains _ "user namespace"); discriminate.
  - rewrite isPodmanSpecificError_Some. cbv zeta. rewrite H. reflexivity.
  - rewrite H. reflexivity.
Qed.

Lemma X1_podman_hint_consistent_witness :
  isPodmanSpecificError (Some "Error: cannot set up namespace using newuidmap: User Namespace")
  = true.
Proof.
  apply (proj1 (X1_podman_hint_consistent
                  "Error: cannot set up namespace using newuidmap: User Namespace")).
  vm_compute. discriminate.
Defined.

(** A dotted capital I counts as the letter i: the text names slirp4netns. *)
Example podman_error_dotted_capital_I :
  isPodmanSpecificError (Some dottedNetworkError) = true /\
  getPodmanErrorHint (Some dottedNetworkError) = networkHint.
Proof. split; vm_compute; reflexivity. Qed.

(** X2: [createPodman] never hides the outcome of the generic creation.  It
    succeeds exactly when the generic creation does, and leaves the state
    where the generic creation left it; an error that is not Podman's comes
    back untouched; an error that is Podman's comes back wrapped in a message
    that still holds the original text and holds the hint, and that is
    itself classed as Podman's. *)
Theorem X2_createPodman_wraps
  (createGeneric : containerReference -> list string -> list string -> Executor)
  (cr : containerReference) (capAdd capDrop : list string) (w : World) (g : Globals) :
  let inner := createGeneric cr capAdd capDrop w g in
  let outer := createPodman createGeneric cr capAdd capDrop w g in
  snd outer = snd inner /\
  (fst outer = None <-> fst inner = None) /\
  (isPodmanSpecificError (fst inner) = false -> fst outer = fst inner) /\
  (forall text, fst inner = Some text -> isPodmanSpecificError (Some text) = true ->
     exists msg,
       fst outer = Some msg /\
       strings.Contains msg text = true /\
       strings.Contains msg (getPodmanErrorHint (Some text)) = true /\
       isPodmanSpecificError (Some msg) = true).
Proof.
  intros inner outer. subst inner outer. unfold createPodman, bind, ret.
  destruct (createGeneric cr capAdd capDrop w g) as [[text |] g'];
    cbv beta iota; cbn [fst snd].
  - destruct (isPodmanSpecificError (Some text)) eqn:E; cbn [fst snd].
    + split; [reflexivity |]. split; [split; discriminate |].
      split; [discriminate |].
      intros text' H _. inversion H; subst text'. eexists. split; [reflexivity |].
      split; [| split].
      * apply Contains_append_r, Contains_append_l, Contains_refl.
      * do 4 apply Contains_append_r. apply Contains_refl.
      * rewrite isPodmanSpecificError_Some. cbv zeta.
        apply orb_true_iff. right.
        generalize (text +:+ LF +:+ "Hint: " +:+ getPodmanErrorHint (Some text)).
        intros rest.
        change ("podman container creation failed: " +:+ rest)
          with (String "p" (String "o" (String "d" (String "m" (String "a"
                  (String "n" (" container creation failed: " +:+ rest))))))).
        rewrite !ToLower_ascii by reflexivity.
        apply Contains_prefix. vm_compute. reflexivity.
    + split; [reflexivity |]. split; [split; discriminate |].
      split; [reflexivity |]. intros text' H H'. inversion H; subst. congruence.
  - split; [reflexivity |]. split; [split; reflexivity |].
    split; [reflexivity |]. intros text H. discriminate H.
Qed.

Lemma X2_createPodman_wraps_witness :
  fst (createPodman (fun _ _ _ _ => ret (Some "image not found"))
         (mkReference (mkInput "test:latest" "test-container") RuntimePodman)
         [] [] bareWorld init)
  = Some "image not found".
Proof.
  apply (proj1 (proj2 (proj2 (X2_createPodman_wraps
           (fun _ _ _ _ => ret (Some "image not found"))
           (mkReference (mkInput "test:latest" "test-container") RuntimePodman)
           [] [] bareWorld init)))).
  vm_compute. reflexivity.
Defined.

(** ** Guessing the runtime of a socket *)

(** X3: [guessRuntimeFromSocket] never answers Unknown.  It answers Podman
    exactly when the path, lower-cased, holds "podman" (also when it holds
    "docker" as well) and Docker otherwise, and two paths that differ in
    letter case only get the same answer. *)
Theorem X3_guessRuntimeFromSocket_total (rd : RuntimeDetector) (socket : string) :
  guessRuntimeFromSocket rd socket <> RuntimeUnknown /\
  (guessRuntimeFromSocket rd socket = RuntimePodman <->
   strings.Contains (strings.ToLower socket) "podman" = true) /\
  (guessRuntimeFromSocket rd socket = RuntimeDocker <->
   strings.Contains (strings.ToLower socket) "podman" = false) /\
  guessRuntimeFromSocket rd (strings.ToLower socket) = guessRuntimeFromSocket rd socket /\
  (forall socket', strings.ToLower socket' = strings.ToLower socket ->
     guessRuntimeFromSocket rd socket' = guessRuntimeFromSocket rd socket).
Proof.
  unfold guessRuntimeFromSocket. cbv zeta. rewrite ToLower_idempotent.
  destruct (strings.Contains (strings.ToLower socket) "podman") eqn:Ep.
  - repeat split; try discriminate; try reflexivity.
    intros socket' H. rewrite H, Ep. reflexivity.
  - repeat split; try reflexivity;
      try (destruct (strings.Contains _ "docker"); discriminate).
    + destruct (strings.Contains _ "docker"); reflexivity.
    + intros socket' H. rewrite H, Ep. reflexivity.
Qed.

Lemma X3_guessRuntimeFromSocket_total_witness :
  guessRuntimeFromSocket NewRuntimeDetector "/RUN/Podman/docker-compat.sock"
  = RuntimePodman.
Proof.
  apply (proj2 (proj1 (proj2 (X3_guessRuntimeFromSocket_total NewRuntimeDetector
                                "/RUN/Podman/docker-compat.sock")))).
  vm_compute. reflexivity.
Defined.

(** ** More on auto-detection *)

Lemma candidates_known : forall c, In c candidates -> Runtime c <> RuntimeUnknown.
Proof.
  apply List.Forall_forall. unfold candidates.
  repeat (constructor; [discriminate |]). constructor.
Qed.

(** Every Podman entry of the table scores above every Docker entry. *)
Lemma candidates_podman_first :
  forall c, In c candidates -> (Runtime c = RuntimePodman <-> 85 <= Score c).
Proof.
  apply List.Forall_forall. unfold candidates.
  repeat (constructor; [simpl; split; intros; (reflexivity || lia || discriminate) |]).
  constructor.
Qed.

Lemma detectRuntimeSockets_In (rd : RuntimeDetector) (w : World) (s : RuntimeSocket) :
  In s (detectRuntimeSockets rd w) <-> In s (encountered rd w).
Proof. rewrite detectRuntimeSockets_stable. apply stableSort_In. Qed.

Lemma encountered_known (rd : RuntimeDetector) (w : World) (s : RuntimeSocket) :
  In s (encountered rd w) -> Runtime s <> RuntimeUnknown.
Proof.
  unfold encountered. destruct (negb (String.eqb (customSocket rd) "")).
  - intros [<- | []]. simpl. unfold guessRuntimeFromSocket. cbv zeta.
    destruct (strings.Contains _ "podman"); [discriminate |].
    destruct (strings.Contains _ "docker"); discriminate.
  - rewrite collectAvailable_In. intros (c & Hc & -> & _). simpl.
    apply candidates_known, Hc.
Qed.

Lemma isBest_In (P : RuntimeSocket -> bool) (l : list RuntimeSocket) (i : nat)
  (b : RuntimeSocket) : isBest P l i b -> In b l /\ P b = true.
Proof.
  intros (Hi & Pb & _). split; [| exact Pb].
  apply list_elem_of_In. eapply list_elem_of_lookup_2. exact Hi.
Qed.

Lemma isBest_highest (P : RuntimeSocket -> bool) (l : list RuntimeSocket) (i : nat)
  (b c : RuntimeSocket) :
  isBest P l i b -> In c l -> P c = true -> Score c <= Score b.
Proof.
  intros (_ & _ & Hmax) Hc Pc.
  apply list_elem_of_In, list_elem_of_lookup_1 in Hc. destruct Hc as [j Hj].
  destruct (Hmax j c Hj Pc) as [H | [H _]]; lia.
Qed.

Lemma autoDetectRuntime_backed (rd : RuntimeDetector) (w : World) :
  autoDetectRuntime rd w <> RuntimeUnknown ->
  exists s, In s (detectRuntimeSockets rd w) /\
            verifySocketConnection rd w s = true /\
            Runtime s = autoDetectRuntime rd w.
Proof.
  rewrite autoDetectRuntime_bestOf.
  destruct (bestOf (verifySocketConnection rd w) (encountered rd w)) as [b |] eqn:Hb.
  - intros _. destruct (bestOf_isBest _ _ _ Hb) as [i Hi].
    destruct (isBest_In _ _ _ _ Hi) as [Hin Hv].
    exists b. rewrite detectRuntimeSockets_In. auto.
  - intros H. contradiction H. reflexivity.
Qed.

(** X4: auto-detection answers Unknown exactly when none of the detected
    sockets passes the live check; any other answer is the runtime of a
    detected socket that passed it. *)
Theorem X4_autoDetectRuntime_Unknown_iff (rd : RuntimeDetector) (w : World) :
  (autoDetectRuntime rd w = RuntimeUnknown <->
   forall s, In s (detectRuntimeSockets rd w) -> verifySocketConnection rd w s = false) /\
  (autoDetectRuntime rd w <> RuntimeUnknown ->
   exists s, In s (detectRuntimeSockets rd w) /\
             verifySocketConnection rd w s = true /\
             Runtime s = autoDetectRuntime rd w).
Proof.
  rewrite autoDetectRuntime_bestOf.
  destruct (bestOf (verifySocketConnection rd w) (encountered rd w)) as [b |] eqn:Hb.
  - destruct (bestOf_isBest _ _ _ Hb) as [i Hi].
    destruct (isBest_In _ _ _ _ Hi) as [Hin Hv].
    split; [split |].
    + intros Hu. exfalso. exact (encountered_known rd w b Hin Hu).
    + intros Hall. rewrite Hall in Hv by (apply detectRuntimeSockets_In; exact Hin).
      discriminate.
    + intros _. exists b. rewrite detectRuntimeSockets_In. auto.
  - split; [split |].
    + intros _ s Hs. apply (proj1 (bestOf_None _ _) Hb).
      apply detectRuntimeSockets_In. exact Hs.
    + reflexivity.
    + intros H. contradiction H. reflexivity.
Qed.

Lemma X4_autoDetectRuntime_Unknown_iff_witness :
  autoDetectRuntime NewRuntimeDetector bareWorld = RuntimeUnknown.
Proof.
  apply (proj2 (proj1 (X4_autoDetectRuntime_Unknown_iff NewRuntimeDetector bareWorld))).
  intros s Hs. vm_compute in Hs. contradiction.
Defined.

(** X5: Podman goes first.  With no custom socket, as soon as one detected
    Podman socket passes the live check auto-detection answers Podman, also
    when Docker sockets pass it too; so it answers Docker only when no
    detected Podman socket passes. *)
Theorem X5_autoDetectRuntime_prefers_podman (rd : RuntimeDetector) (w : World) :
  customSocket rd = "" ->
  (exists s, In s (detectRuntimeSockets rd w) /\ Runtime s = RuntimePodman /\
             verifySocketConnection rd w s = true) ->
  autoDetectRuntime rd w = RuntimePodman.
Proof.
  intros Hc (s & Hs & Hr & Hv). apply detectRuntimeSockets_In in Hs.
  rewrite autoDetectRuntime_bestOf.
  destruct (bestOf (verifySocketConnection rd w) (encountered rd w)) as [b |] eqn:Hb.
  - destruct (bestOf_isBest _ _ _ Hb) as [i Hi].
    pose proof (isBest_highest _ _ _ _ s Hi Hs Hv) as Hle.
    destruct (isBest_In _ _ _ _ Hi) as [Hin _].
    rewrite (encountered_table rd w Hc), collectAvailable_In in Hs, Hin.
    destruct Hs as (c & Hc1 & -> & _). destruct Hin as (c' & Hc2 & -> & _).
    simpl in *. apply candidates_podman_first; [exact Hc2 |].
    apply (candidates_podman_first c Hc1) in Hr. lia.
  - rewrite (proj1 (bestOf_None _ _) Hb s Hs) in Hv. discriminate.
Qed.

Lemma X5_autoDetectRuntime_prefers_podman_witness :
  autoDetectRuntime NewRuntimeDetector bothSocketsWorld = RuntimePodman.
Proof.
  apply X5_autoDetectRuntime_prefers_podman; [reflexivity |].
  exists (mkSocket "/run/user/1000/podman/podman.sock" RuntimePodman 95).
  vm_compute. tauto.
Defined.

(** X6: whatever [DetectAvailableRuntime] answers other than Unknown is
    backed by a probe that succeeded on the host: the backend verified, or a
    detected socket of that backend passed the live check. *)
Theorem X6_DetectAvailableRuntime_sound (rd : RuntimeDetector) (w : World) :
  DetectAvailableRuntime rd w <> RuntimeUnknown ->
  verifyRuntime rd w (DetectAvailableRuntime rd w) = true \/
  exists s, In s (detectRuntimeSockets rd w) /\
            Runtime s = DetectAvailableRuntime rd w /\
            verifySocketConnection rd w s = true.
Proof.
  unfold DetectAvailableRuntime.
  destruct (negb (runtime_eqb (preferredRuntime rd) RuntimeUnknown)
            && verifyRuntime rd w (preferredRuntime rd)) eqn:E1.
  - apply andb_true_iff in E1. destruct E1 as [_ Hv]. left. exact Hv.
  - cbv zeta.
    destruct (negb (runtime_eqb (checkEnvironmentHints rd w) RuntimeUnknown)
              && verifyRuntime rd w (checkEnvironmentHints rd w)) eqn:E2.
    + apply andb_true_iff in E2. destruct E2 as [_ Hv]. left. exact Hv.
    + destruct (runtime_eqb (autoDetectRuntime rd w) RuntimeUnknown) eqn:E3; simpl.
      * intros H. contradiction H. reflexivity.
      * intros Hne. right.
        apply runtime_eqb_neq in E3.
        destruct (autoDetectRuntime_backed rd w E3) as (s & Hs & Hv & Hr).
        exists s. auto.
Qed.

Lemma X6_DetectAvailableRuntime_sound_witness :
  verifyRuntime (SetPreferredRuntime NewRuntimeDetector RuntimeDocker) dockerWorld
    (DetectAvailableRuntime (SetPreferredRuntime NewRuntimeDetector RuntimeDocker)
       dockerWorld) = true \/
  exists s,
    In s (detectRuntimeSockets (SetPreferredRuntime NewRuntimeDetector RuntimeDocker)
            dockerWorld) /\
    Runtime s = DetectAvailableRuntime (SetPreferredRuntime NewRuntimeDetector RuntimeDocker)
                  dockerWorld /\
    verifySocketConnection (SetPreferredRuntime NewRuntimeDetector RuntimeDocker)
      dockerWorld s = true.
Proof.
  apply X6_DetectAvailableRuntime_sound. vm_compute. discriminate.
Defined.

Lemma collectAvailable_any_detector (rd rd' : RuntimeDetector) (w : World)
  (cands : list RuntimeSocket) :
  collectAvailable rd w cands = collectAvailable rd' w cands.
Proof.
  induction cands as [| c cands IH]; simpl; [reflexivity |].
  rewrite IH. reflexivity.
Qed.

Lemma firstVerified_any_detector (rd rd' : RuntimeDetector) (w : World)
  (l : list RuntimeSocket) : firstVerified rd w l = firstVerified rd' w l.
Proof.
  induction l as [| s l IH]; simpl; [reflexivity |].
  rewrite IH. reflexivity.
Qed.

(** Auto-detection reads nothing of the detector but its custom socket. *)
Lemma autoDetectRuntime_same_socket (rd rd' : RuntimeDetector) (w : World) :
  customSocket rd = customSocket rd' ->
  autoDetectRuntime rd w = autoDetectRuntime rd' w.
Proof.
  intros H. unfold autoDetectRuntime, detectRuntimeSockets. rewrite H.
  rewrite (collectAvailable_any_detector rd rd').
  destruct (negb (String.eqb (customSocket rd') "")); cbv zeta;
    rewrite (firstVerified_any_detector rd rd'); reflexivity.
Qed.

(** X7: a preference that does not verify is as good as no preference: the
    answer of [DetectAvailableRuntime] is the one a detector without
    preference, with the same custom socket, gives on that host. *)
Theorem X7_failed_preference_is_ignored (rd : RuntimeDetector) (w : World)
  (preferred : ContainerRuntime) :
  verifyRuntime rd w preferred = false ->
  DetectAvailableRuntime (SetPreferredRuntime rd preferred) w =
  DetectAvailableRuntime (SetPreferredRuntime rd RuntimeUnknown) w.
Proof.
  intros Hv. unfold DetectAvailableRuntime. simpl preferredRuntime.
  rewrite (verifyRuntime_any_detector (SetPreferredRuntime rd preferred) rd), Hv.
  rewrite andb_false_r.
  change (runtime_eqb RuntimeUnknown RuntimeUnknown) with true. cbn [negb andb].
  change (checkEnvironmentHints (SetPreferredRuntime rd preferred) w)
    with (checkEnvironmentHints (SetPreferredRuntime rd RuntimeUnknown) w).
  rewrite (autoDetectRuntime_same_socket (SetPreferredRuntime rd preferred)
             (SetPreferredRuntime rd RuntimeUnknown)) by reflexivity.
  reflexivity.
Qed.

(** Podman is preferred but [podman info] fails; the live Podman socket is
    then found by auto-detection all the same. *)
Lemma X7_failed_preference_is_ignored_witness :
  DetectAvailableRuntime (SetPreferredRuntime NewRuntimeDetector RuntimePodman)
    bothSocketsWorld =
  DetectAvailableRuntime (SetPreferredRuntime NewRuntimeDetector RuntimeUnknown)
    bothSocketsWorld.
Proof.
  apply X7_failed_preference_is_ignored. vm_compute. reflexivity.
Defined.

(** ** Names of the runtimes *)

(** X8: the names [String] gives to Docker and Podman are the ones the
    environment is read with.  Distinct runtimes have distinct names; with
    ACT_CONTAINER_RUNTIME set to the name of Docker or Podman the hints phase
    answers that runtime, whatever the other variables, and
    [configureDetectorFromEnvironment] makes it the preference; the name of
    Unknown is read as no preference at all. *)
Theorem X8_runtime_name_round_trip (rd : RuntimeDetector) (w : World) (g : Globals)
  (r : ContainerRuntime) :
  Getenv w "ACT_CONTAINER_RUNTIME" = String_of r ->
  (forall r', String_of r' = String_of r -> r' = r) /\
  (r <> RuntimeUnknown ->
   checkEnvironmentHints rd w = r /\
   preferredRuntime (globalDetector (snd (configureDetectorFromEnvironment w g))) = r) /\
  (r = RuntimeUnknown ->
   preferredRuntime (globalDetector (snd (configureDetectorFromEnvironment w g)))
   = preferredRuntime (globalDetector g)).
Proof.
  intros He.
  destruct (configureDetectorFromEnvironment_preference w g) as (Hd & Hp & Ho & _).
  cbv zeta in Hd, Hp, Ho. rewrite He in Hd, Hp, Ho.
  split; [| split].
  - intros r' H. destruct r, r'; simpl in H; try reflexivity; discriminate.
  - intros Hr. unfold checkEnvironmentHints. rewrite He.
    destruct r; [contradiction | |]; simpl; split; auto.
  - intros ->. apply Ho; discriminate.
Qed.

Lemma X8_runtime_name_round_trip_witness :
  checkEnvironmentHints NewRuntimeDetector podmanNamedWorld = RuntimePodman /\
  preferredRuntime
    (globalDetector (snd (configureDetectorFromEnvironment podmanNamedWorld init)))
  = RuntimePodman.
Proof.
  assert (He : Getenv podmanNamedWorld "ACT_CONTAINER_RUNTIME" = String_of RuntimePodman)
    by (vm_compute; reflexivity).
  apply (proj1 (proj2 (X8_runtime_name_round_trip NewRuntimeDetector podmanNamedWorld
                         init RuntimePodman He))).
  discriminate.
Defined.

(** ** More on the socket handed to a client *)

(** X9: a socket path that [getPodmanMachineSocket] reports as found is
    never empty, never the "<no value>" marker, carries no white space at
    either end and names an entry [os.Stat] accepts; when nothing is found
    the path returned is empty. *)
Theorem X9_getPodmanMachineSocket_shape (rd : RuntimeDetector) (w : World) :
  let result := getPodmanMachineSocket rd w in
  (snd result = true ->
   fst result <> "" /\ fst result <> "<no value>" /\
   strings.TrimSpace (fst result) = fst result /\
   Stat w (fst result) = true) /\
  (snd result = false -> fst result = "").
Proof.
  unfold getPodmanMachineSocket.
  destruct (RunCommand w "podman" _) as [output |]; cbv zeta;
    [| split; [discriminate | reflexivity]].
  destruct (String.eqb_spec (strings.TrimSpace output) "") as [E | E]; simpl;
    [split; [discriminate | reflexivity] |].
  destruct (String.eqb_spec (strings.TrimSpace output) "<no value>") as [E' | E'];
    simpl; [split; [discriminate | reflexivity] |].
  destruct (Stat w (strings.TrimSpace output)) eqn:Hs; simpl;
    [| split; [discriminate | reflexivity]].
  split; [| discriminate].
  intros _. repeat split; try assumption. apply TrimSpace_idempotent.
Qed.

Lemma X9_getPodmanMachineSocket_shape_witness :
  fst (getPodmanMachineSocket NewRuntimeDetector machineWorld) <> "" /\
  fst (getPodmanMachineSocket NewRuntimeDetector machineWorld) <> "<no value>" /\
  strings.TrimSpace (fst (getPodmanMachineSocket NewRuntimeDetector machineWorld))
  = fst (getPodmanMachineSocket NewRuntimeDetector machineWorld) /\
  Stat machineWorld (fst (getPodmanMachineSocket NewRuntimeDetector machineWorld)) = true.
Proof.
  apply (proj1 (X9_getPodmanMachineSocket_shape NewRuntimeDetector machineWorld)).
  vm_compute. reflexivity.
Defined.

(** A no-break space in front of the printed path is trimmed like the line
    feed behind it. *)
Example getPodmanMachineSocket_no_break_space :
  getPodmanMachineSocket NewRuntimeDetector paddedMachineWorld
  = ("/tmp/podman.sock", true).
Proof. vm_compute. reflexivity. Qed.

Lemma firstSocketFor_not_found (rd : RuntimeDetector) (w : World) (r : ContainerRuntime)
  (l : list RuntimeSocket) :
  snd (firstSocketFor rd w r l) = false -> firstSocketFor rd w r l = ("", false).
Proof.
  induction l as [| s l IH]; simpl; [reflexivity |].
  destruct (runtime_eqb (Runtime s) r && verifySocketConnection rd w s);
    [discriminate | exact IH].
Qed.

Lemma firstSocketFor_none (rd : RuntimeDetector) (w : World) (r : ContainerRuntime)
  (l : list RuntimeSocket) :
  (forall s, In s l -> Runtime s <> r) -> firstSocketFor rd w r l = ("", false).
Proof.
  induction l as [| s l IH]; intros H; simpl; [reflexivity |].
  assert (E : runtime_eqb (Runtime s) r = false)
    by (apply runtime_eqb_neq, H; left; reflexivity).
  rewrite E. simpl. apply IH. intros s' Hs'. apply H. right. exact Hs'.
Qed.

(** X10: when [GetSocketForRuntime] reports that nothing was found, the
    socket it returns is the empty string; and with no custom socket it
    never finds a socket for Unknown, whatever is on the host. *)
Theorem X10_GetSocketForRuntime_not_found (rd : RuntimeDetector) (w : World)
  (r : ContainerRuntime) :
  (snd (GetSocketForRuntime rd w r) = false -> fst (GetSocketForRuntime rd w r) = "") /\
  (customSocket rd = "" -> GetSocketForRuntime rd w RuntimeUnknown = ("", false)).
Proof.
  split.
  - unfold GetSocketForRuntime.
    destruct (negb (String.eqb (customSocket rd) "")); [discriminate |].
    destruct (if runtime_eqb r RuntimePodman then getPodmanMachineSocket rd w
              else ("", false)) as [p [|]]; [discriminate |].
    intros H. rewrite (firstSocketFor_not_found _ _ _ _ H). reflexivity.
  - intros Hc. unfold GetSocketForRuntime. rewrite Hc.
    change (negb (String.eqb "" "")) with false.
    change (runtime_eqb RuntimeUnknown RuntimePodman) with false. cbv iota.
    apply firstSocketFor_none. intros s Hs.
    apply detectRuntimeSockets_In in Hs. exact (encountered_known rd w s Hs).
Qed.

Lemma X10_GetSocketForRuntime_not_found_witness :
  GetSocketForRuntime NewRuntimeDetector bothSocketsWorld RuntimeUnknown = ("", false).
Proof.
  apply (proj2 (X10_GetSocketForRuntime_not_found NewRuntimeDetector bothSocketsWorld
                  RuntimeUnknown)).
  reflexivity.
Defined.

Lemma firstVerified_first (rd : RuntimeDetector) (w : World) (l : list RuntimeSocket) :
  firstVerified rd w l <> RuntimeUnknown ->
  exists best, find (verifySocketConnection rd w) l = Some best /\
               Runtime best = firstVerified rd w l.
Proof.
  rewrite firstVerified_find.
  destruct (find (verifySocketConnection rd w) l) as [b |].
  - intros _. exists b. split; reflexivity.
  - intros H. contradiction H. reflexivity.
Qed.

Lemma firstSocketFor_first (rd : RuntimeDetector) (w : World) (l : list RuntimeSocket)
  (best : RuntimeSocket) :
  find (verifySocketConnection rd w) l = Some best ->
  firstSocketFor rd w (Runtime best) l = (socketHost w (Path best), true).
Proof.
  induction l as [| s l IH]; simpl; [discriminate |].
  destruct (verifySocketConnection rd w s) eqn:Hv.
  - intros H. inversion H; subst s.
    assert (E : runtime_eqb (Runtime best) (Runtime best) = true)
      by (apply runtime_eqb_eq; reflexivity).
    rewrite E. reflexivity.
  - rewrite andb_false_r. exact IH.
Qed.

(** X11: auto-detection and socket resolution agree.  Whenever
    auto-detection answers a runtime, [GetSocketForRuntime] finds a socket
    for that runtime; and when neither a custom socket nor the Podman machine
    socket steps in, the socket it returns is the host string of the very
    socket that decided auto-detection, a host on which the client could be
    made and the ping was answered. *)
Theorem X11_detected_runtime_has_socket (rd : RuntimeDetector) (w : World) :
  autoDetectRuntime rd w <> RuntimeUnknown ->
  snd (GetSocketForRuntime rd w (autoDetectRuntime rd w)) = true /\
  (customSocket rd = "" ->
   (autoDetectRuntime rd w = RuntimePodman -> snd (getPodmanMachineSocket rd w) = false) ->
   exists best,
     find (verifySocketConnection rd w) (detectRuntimeSockets rd w) = Some best /\
     Runtime best = autoDetectRuntime rd w /\
     GetSocketForRuntime rd w (autoDetectRuntime rd w)
       = (socketHost w (Path best), true) /\
     NewClientWithOpts w (socketHost w (Path best)) = true /\
     Ping w (socketHost w (Path best)) = true).
Proof.
  intros Hne.
  assert (Hbest : exists best,
            find (verifySocketConnection rd w) (detectRuntimeSockets rd w) = Some best /\
            Runtime best = autoDetectRuntime rd w).
  { unfold autoDetectRuntime in Hne |- *. cbv zeta in Hne |- *.
    destruct (length (detectRuntimeSockets rd w) =? 0)%nat;
      [contradiction Hne; reflexivity |].
    apply firstVerified_first, Hne. }
  destruct Hbest as (best & Hf & Hr).
  assert (Htable : customSocket rd = "" ->
            (autoDetectRuntime rd w = RuntimePodman ->
             snd (getPodmanMachineSocket rd w) = false) ->
            GetSocketForRuntime rd w (autoDetectRuntime rd w)
            = (socketHost w (Path best), true)).
  { intros Hc Hm. unfold GetSocketForRuntime. rewrite Hc.
    change (negb (String.eqb "" "")) with false. cbv iota.
    destruct (runtime_eqb (autoDetectRuntime rd w) RuntimePodman) eqn:Ep.
    - apply runtime_eqb_eq in Ep. specialize (Hm Ep).
      destruct (getPodmanMachineSocket rd w) as [p found]. simpl in Hm. subst found.
      rewrite <- Hr. apply firstSocketFor_first, Hf.
    - rewrite <- Hr. apply firstSocketFor_first, Hf. }
  split.
  - unfold GetSocketForRuntime.
    destruct (negb (String.eqb (customSocket rd) "")) eqn:Ec; [reflexivity |].
    destruct (if runtime_eqb (autoDetectRuntime rd w) RuntimePodman
              then getPodmanMachineSocket rd w else ("", false)) as [p [|]];
      [reflexivity |].
    rewrite <- Hr. rewrite (firstSocketFor_first _ _ _ _ Hf). reflexivity.
  - intros Hc Hm. exists best. split; [exact Hf |]. split; [exact Hr |].
    split; [apply Htable; assumption |].
    apply find_In_pass in Hf. destruct Hf as [_ Hv].
    unfold verifySocketConnection in Hv. cbv zeta in Hv.
    destruct (NewClientWithOpts w (socketHost w (Path best))); [| discriminate].
    destruct (Ping w (socketHost w (Path best))); [| discriminate].
    split; reflexivity.
Qed.

Lemma X11_detected_runtime_has_socket_witness :
  snd (GetSocketForRuntime NewRuntimeDetector bothSocketsWorld
         (autoDetectRuntime NewRuntimeDetector bothSocketsWorld)) = true.
Proof.
  apply (proj1 (X11_detected_runtime_has_socket NewRuntimeDetector bothSocketsWorld
                  ltac:(vm_compute; discriminate))).
Defined.

(** ** The report *)

Lemma prefix_append_same (d x y : string) :
  String.prefix (d ++ x) (d ++ y) = String.prefix x y.
Proof.
  induction d as [| c d IH]; [reflexivity |].
  change (String c d ++ x) with (String c (d ++ x)).
  change (String c d ++ y) with (String c (d ++ y)).
  simpl. destruct (ascii_dec c c); [exact IH | congruence].
Qed.

(** Looks for the wanted text in a concatenation, also when the text runs
    over a piece that is not known. *)
Ltac find_text :=
  first [ vm_compute; reflexivity
        | apply Contains_prefix; unfold check_mark, cross_mark; simpl;
          rewrite ?prefix_append_same; reflexivity
        | apply Contains_append_l; find_text
        | apply Contains_append_r; find_text ].

(** X12: what the report of [GetHelpfulErrorMessage] holds on every host.
    It opens with the line that no runtime was detected and names the two
    flags that override detection; the Docker line shows the socket location
    when one was found, with the check mark exactly when Docker verified and
    the cross otherwise, and says that the daemon is not running when none
    was found; the Podman line shows the check mark when Podman verified and
    the cross when it did not. *)
Theorem X12_report_contents (rd : RuntimeDetector) (w : World) :
  let report := GetHelpfulErrorMessage rd w in
  let mark (ok : bool) := if ok then check_mark else cross_mark in
  strings.HasPrefix report "No container runtime detected" = true /\
  strings.Contains report "act --container-runtime" = true /\
  strings.Contains report "act --container-socket" = true /\
  (snd (socketLocation w) = true ->
   strings.Contains report
     (mark (verifyDocker rd w) ++ " Docker (socket: " ++ fst (socketLocation w) ++ ")")
   = true) /\
  (snd (socketLocation w) = false ->
   strings.Contains report (cross_mark ++ " Docker daemon not running (no socket found)")
   = true) /\
  strings.Contains report (mark (verifyPodman rd w) ++ " Podman (binary check)") = true.
Proof.
  cbv zeta. unfold GetHelpfulErrorMessage.
  destruct (socketLocation w) as [dockerSocket found]. cbn [fst snd].
  destruct found, (verifyDocker rd w), (verifyPodman rd w);
    (split; [reflexivity |]);
    (split; [find_text |]); (split; [find_text |]);
    (split; [intros H; try discriminate H; find_text |]);
    (split; [intros H; try discriminate H; find_text |]);
    find_text.
Qed.

(** On a host with a Docker daemon the report shows its socket with the
    check mark. *)
Lemma X12_report_contents_witness :
  strings.Contains (GetHelpfulErrorMessage NewRuntimeDetector dockerWorld)
    (check_mark ++ " Docker (socket: unix:///var/run/docker.sock)") = true.
Proof.
  apply (proj1 (proj2 (proj2 (proj2 (X12_report_contents NewRuntimeDetector dockerWorld))))).
  reflexivity.
Defined.

(** ** The order of the detected sockets *)

Lemma insertByScore_Permutation (x : RuntimeSocket) (l : list RuntimeSocket) :
  Permutation (insertByScore x l) (x :: l).
Proof.
  induction l as [| y l IH]; simpl; [reflexivity |].
  destruct (Score x <? Score y); [| reflexivity].
  rewrite IH. apply perm_swap.
Qed.

Lemma stableSort_Permutation (l : list RuntimeSocket) : Permutation (stableSort l) l.
Proof.
  induction l as [| x l IH]; simpl; [reflexivity |].
  rewrite insertByScore_Permutation, IH. reflexivity.
Qed.

Lemma insertByScore_keeps_ties (k : Z) (x : RuntimeSocket) (l : list RuntimeSocket) :
  List.filter (fun s => Score s =? k) (insertByScore x l) =
  List.filter (fun s => Score s =? k) (x :: l).
Proof.
  induction l as [| y l IH]; [reflexivity |].
  cbn [insertByScore]. destruct (Z.ltb_spec (Score x) (Score y)) as [Hlt | Hge];
    [| reflexivity].
  cbn [List.filter] in IH |- *. rewrite IH.
  destruct (Z.eqb_spec (Score x) k), (Z.eqb_spec (Score y) k); try reflexivity. lia.
Qed.

Lemma stableSort_keeps_ties (k : Z) (l : list RuntimeSocket) :
  List.filter (fun s => Score s =? k) (stableSort l) =
  List.filter (fun s => Score s =? k) l.
Proof.
  induction l as [| x l IH]; [reflexivity |].
  cbn [stableSort]. rewrite insertByScore_keeps_ties. cbn [List.filter].
  rewrite IH. reflexivity.
Qed.

(** X13: the list [detectRuntimeSockets] returns holds the sockets found,
    each as often as it was found, in descending order of score, and the
    sockets of any one score stand in the order in which they were found. *)
Theorem X13_detectRuntimeSockets_sorted (rd : RuntimeDetector) (w : World) :
  Permutation (detectRuntimeSockets rd w) (encountered rd w) /\
  descending (detectRuntimeSockets rd w) /\
  (forall k,
     List.filter (fun s => Score s =? k) (detectRuntimeSockets rd w) =
     List.filter (fun s => Score s =? k) (encountered rd w)).
Proof.
  rewrite detectRuntimeSockets_stable. split; [| split].
  - apply stableSort_Permutation.
  - apply stableSort_descending.
  - intros k. apply stableSort_keeps_ties.
Qed.

(** ** The sorting loops on any list *)

Lemma swapIfLower_length (i j : nat) (a : list RuntimeSocket) :
  length (swapIfLower i j a) = length a.
Proof.
  unfold swapIfLower. destruct (a !! i), (a !! j); try reflexivity.
  destruct (_ <? _); rewrite ?length_insert; reflexivity.
Qed.

Lemma swapIfLower_Permutation (i j : nat) (a : list RuntimeSocket) :
  Permutation (swapIfLower i j a) a.
Proof.
  unfold swapIfLower.
  destruct (a !! i) as [x |] eqn:Hi, (a !! j) as [y |] eqn:Hj; try reflexivity.
  destruct (_ <? _); [| reflexivity].
  apply Permutation_insert_swap; assumption.
Qed.

Lemma swapIfLower_other (i j k : nat) (a : list RuntimeSocket) :
  k <> i -> k <> j -> swapIfLower i j a !! k = a !! k.
Proof.
  intros Hi Hj. unfold swapIfLower. destruct (a !! i), (a !! j); try reflexivity.
  destruct (_ <? _); [| reflexivity].
  rewrite !list_lookup_insert_ne by auto. reflexivity.
Qed.

(** After the exchange, position [i] holds a score that is no lower than
    before and no lower than the one at position [j]. *)
Lemma swapIfLower_at (i j : nat) (a : list RuntimeSocket) (top : RuntimeSocket) :
  i <> j ->
  swapIfLower i j a !! i = Some top ->
  (forall x, a !! i = Some x -> Score x <= Score top) /\
  (forall y, swapIfLower i j a !! j = Some y -> Score y <= Score top).
Proof.
  intros Hij. unfold swapIfLower.
  destruct (a !! i) as [x |] eqn:Hi, (a !! j) as [y |] eqn:Hj.
  - pose proof (lookup_lt_Some _ _ _ Hi) as Li.
    pose proof (lookup_lt_Some _ _ _ Hj) as Lj.
    destruct (Z.ltb_spec (Score x) (Score y)) as [Hlt | Hge].
    + rewrite list_lookup_insert_ne by auto.
      rewrite list_lookup_insert_eq by exact Li.
      intros H. inversion H; subst top. split.
      * intros x0 H0. inversion H0; subst. lia.
      * rewrite list_lookup_insert_eq by (rewrite length_insert; exact Lj).
        intros y0 H0. inversion H0; subst. lia.
    + rewrite Hi, Hj. intros H. inversion H; subst top. split.
      * intros x0 H0. inversion H0; subst. lia.
      * intros y0 H0. inversion H0; subst. lia.
  - rewrite Hi, Hj. intros H. inversion H; subst top. split.
    + intros x0 H0. inversion H0; subst. lia.
    + intros y0 H0. discriminate H0.
  - rewrite Hi. discriminate.
  - rewrite Hi. discriminate.
Qed.

(** An exchange above [lo] brings nothing from below [lo]. *)
Lemma swapIfLower_from (lo i j q : nat) (a : list RuntimeSocket) (y : RuntimeSocket) :
  (lo <= i)%nat -> (lo <= j)%nat -> (lo <= q)%nat ->
  swapIfLower i j a !! q = Some y ->
  exists q', (lo <= q')%nat /\ a !! q' = Some y.
Proof.
  intros Li Lj Lq. unfold swapIfLower.
  destruct (a !! i) as [xi |] eqn:Hi, (a !! j) as [xj |] eqn:Hj;
    try (intros H; exists q; split; assumption).
  destruct (_ <? _); [| intros H; exists q; split; assumption].
  intros H. apply list_lookup_insert_Some in H.
  destruct H as [(-> & -> & _) | (Hne & H)].
  - exists i. split; assumption.
  - apply list_lookup_insert_Some in H.
    destruct H as [(-> & -> & _) | (Hne' & H)].
    + exists j. split; assumption.
    + exists q. split; assumption.
Qed.

(** What the inner loop has done after [m] rounds. *)
Lemma sortInner_rounds (i m : nat) (a : list RuntimeSocket) :
  let a' := foldl (fun a j => swapIfLower i j a) a (seq (S i) m) in
  length a' = length a /\
  Permutation a' a /\
  (forall k, (k < i)%nat -> a' !! k = a !! k) /\
  (forall k x y, (i < k < S i + m)%nat -> a' !! i = Some x -> a' !! k = Some y ->
     Score y <= Score x) /\
  (forall q y, (i <= q)%nat -> a' !! q = Some y ->
     exists q', (i <= q')%nat /\ a !! q' = Some y).
Proof.
  induction m as [| m IH]; cbv zeta.
  - simpl. repeat split; try reflexivity.
    + intros k x y Hk. lia.
    + intros q y Hq H. exists q. split; assumption.
  - rewrite seq_S, foldl_snoc.
    set (a' := foldl (fun a j => swapIfLower i j a) a (seq (S i) m)) in *.
    destruct IH as (I1 & I2 & I3 & I4 & I5).
    split; [rewrite swapIfLower_length; exact I1 |].
    split; [rewrite swapIfLower_Permutation; exact I2 |].
    split; [| split].
    + intros k Hk. rewrite swapIfLower_other by lia. apply I3, Hk.
    + intros k x y Hk Hx Hy.
      destruct (swapIfLower_at i (S i + m) a' x ltac:(lia) Hx) as [Hup Hj].
      destruct (decide (k = (S i + m)%nat)) as [-> | Hne].
      * apply Hj, Hy.
      * rewrite swapIfLower_other in Hy by lia.
        destruct (a' !! i) as [x0 |] eqn:Hx0.
        -- specialize (Hup x0 eq_refl).
           specialize (I4 k x0 y ltac:(lia) eq_refl Hy). lia.
        -- unfold swapIfLower in Hx. rewrite Hx0 in Hx. rewrite Hx0 in Hx.
           discriminate Hx.
    + intros q y Hq Hy.
      destruct (swapIfLower_from i i (S i + m) q a' y ltac:(lia) ltac:(lia) Hq Hy)
        as (q1 & Hq1 & Hy1).
      apply (I5 q1 y Hq1 Hy1).
Qed.

Lemma sortInner_spec (i : nat) (a : list RuntimeSocket) :
  length (sortInner i a) = length a /\
  Permutation (sortInner i a) a /\
  (forall k, (k < i)%nat -> sortInner i a !! k = a !! k) /\
  (forall k x y, (i < k)%nat -> sortInner i a !! i = Some x ->
     sortInner i a !! k = Some y -> Score y <= Score x) /\
  (forall q y, (i <= q)%nat -> sortInner i a !! q = Some y ->
     exists q', (i <= q')%nat /\ a !! q' = Some y).
Proof.
  unfold sortInner.
  destruct (sortInner_rounds i (length a - S i) a) as (I1 & I2 & I3 & I4 & I5).
  cbv zeta in I1, I2, I3, I4, I5.
  repeat split; try assumption.
  intros k x y Hk Hx Hy. apply (I4 k x y); try assumption.
  apply lookup_lt_Some in Hy. rewrite I1 in Hy. lia.
Qed.

(** What the outer loop has done after [m] rounds. *)
Lemma sortByScore_rounds (m : nat) (a : list RuntimeSocket) :
  let b := foldl (fun a i => sortInner i a) a (seq 0 m) in
  length b = length a /\
  Permutation b a /\
  (forall p q x y, (p < m)%nat -> (p < q)%nat -> b !! p = Some x -> b !! q = Some y ->
     Score y <= Score x).
Proof.
  induction m as [| m IH]; cbv zeta.
  - simpl. repeat split; try reflexivity. intros p q x y Hp. lia.
  - rewrite seq_S, foldl_snoc. simpl Nat.add.
    set (b := foldl (fun a i => sortInner i a) a (seq 0 m)) in *.
    destruct IH as (O1 & O2 & O3).
    destruct (sortInner_spec m b) as (I1 & I2 & I3 & I4 & I5).
    split; [rewrite I1; exact O1 |].
    split; [rewrite I2; exact O2 |].
    intros p q x y Hp Hpq Hx Hy.
    destruct (decide (p = m)) as [-> | Hne].
    + apply (I4 q x y Hpq Hx Hy).
    + assert (Hpm : (p < m)%nat) by lia.
      rewrite I3 in Hx by exact Hpm.
      destruct (decide (q < m)%nat) as [Hq | Hq].
      * rewrite I3 in Hy by exact Hq. apply (O3 p q x y Hpm Hpq Hx Hy).
      * destruct (I5 q y ltac:(lia) Hy) as (q' & Hq' & Hy').
        apply (O3 p q' x y Hpm ltac:(lia) Hx Hy').
Qed.

(** X14: the two sorting loops of [detectRuntimeSockets] sort any list of
    sockets, not only selections of the table: the result has the same
    sockets, each as often as before, and a socket never stands before one
    with a higher score. *)
Theorem X14_sortByScore_sorts (l : list RuntimeSocket) :
  length (sortByScore l) = length l /\
  Permutation (sortByScore l) l /\
  descendingByPosition (sortByScore l).
Proof.
  unfold sortByScore.
  destruct (sortByScore_rounds (length l - 1) l) as (O1 & O2 & O3).
  cbv zeta in O1, O2, O3.
  split; [exact O1 |]. split; [exact O2 |].
  intros p q x y Hpq Hx Hy. apply (O3 p q x y); try assumption.
  apply lookup_lt_Some in Hy. rewrite O1 in Hy. lia.
Qed.

(** ** More on the factory *)

Lemma configureDetectorFromEnvironment_socket (w : World) (g : Globals) :
  customSocket (globalDetector (snd (configureDetectorFromEnvironment w g))) =
  if String.eqb (Getenv w "ACT_CONTAINER_SOCKET") ""
  then customSocket (globalDetector g)
  else Getenv w "ACT_CONTAINER_SOCKET".
Proof.
  unfold configureDetectorFromEnvironment, bind, withDetector, ret.
  destruct (String.eqb (Getenv w "ACT_CONTAINER_RUNTIME") ""); simpl;
    [| destruct (String.eqb (Getenv w "ACT_CONTAINER_RUNTIME") "docker");
       [| destruct (String.eqb (Getenv w "ACT_CONTAINER_RUNTIME") "podman")]];
    destruct (String.eqb (Getenv w "ACT_CONTAINER_SOCKET") ""); reflexivity.
Qed.

Lemma Globals_eq (g g' : Globals) :
  preferredRuntime (globalDetector g) = preferredRuntime (globalDetector g') ->
  customSocket (globalDetector g) = customSocket (globalDetector g') ->
  runtimeOverride g = runtimeOverride g' ->
  g = g'.
Proof.
  destruct g as [[p s] o], g' as [[p' s'] o']. simpl. intros -> -> ->. reflexivity.
Qed.

Lemma configureDetectorFromEnvironment_idempotent (w : World) (g : Globals) :
  snd (configureDetectorFromEnvironment w (snd (configureDetectorFromEnvironment w g)))
  = snd (configureDetectorFromEnvironment w g).
Proof.
  set (g1 := snd (configureDetectorFromEnvironment w g)).
  apply Globals_eq.
  - destruct (configureDetectorFromEnvironment_preference w g1) as (Hd & Hp & Ho & _).
    destruct (configureDetectorFromEnvironment_preference w g) as (Hd' & Hp' & _ & _).
    cbv zeta in *. fold g1 in Hd', Hp'.
    destruct (String.eqb_spec (Getenv w "ACT_CONTAINER_RUNTIME") "docker") as [E | E];
      [rewrite Hd, Hd' by exact E; reflexivity |].
    destruct (String.eqb_spec (Getenv w "ACT_CONTAINER_RUNTIME") "podman") as [E' | E'];
      [rewrite Hp, Hp' by exact E'; reflexivity |].
    apply Ho; assumption.
  - rewrite configureDetectorFromEnvironment_socket.
    destruct (String.eqb (Getenv w "ACT_CONTAINER_SOCKET") "") eqn:E; [reflexivity |].
    unfold g1. rewrite configureDetectorFromEnvironment_socket, E. reflexivity.
  - apply configureDetectorFromEnvironment_preference.
Qed.

(** X15: reading the environment into the detector can be repeated without
    harm and never takes a setting away.  A second
    [configureDetectorFromEnvironment] on the same host changes nothing; the
    override is not touched; the custom socket becomes the value of
    ACT_CONTAINER_SOCKET when that is not empty and stays as it was
    otherwise, so a custom socket or a preference that is set is never
    cleared by the environment. *)
Theorem X15_configure_is_idempotent (w : World) (g : Globals) :
  let g1 := snd (configureDetectorFromEnvironment w g) in
  snd (configureDetectorFromEnvironment w g1) = g1 /\
  runtimeOverride g1 = runtimeOverride g /\
  (Getenv w "ACT_CONTAINER_SOCKET" <> "" ->
   customSocket (globalDetector g1) = Getenv w "ACT_CONTAINER_SOCKET") /\
  (Getenv w "ACT_CONTAINER_SOCKET" = "" ->
   customSocket (globalDetector g1) = customSocket (globalDetector g)) /\
  (customSocket (globalDetector g) <> "" -> customSocket (globalDetector g1) <> "") /\
  (preferredRuntime (globalDetector g) <> RuntimeUnknown ->
   preferredRuntime (globalDetector g1) <> RuntimeUnknown).
Proof.
  intros g1. subst g1.
  split; [apply configureDetectorFromEnvironment_idempotent |].
  split; [apply configureDetectorFromEnvironment_preference |].
  rewrite configureDetectorFromEnvironment_socket.
  destruct (String.eqb_spec (Getenv w "ACT_CONTAINER_SOCKET") "") as [E | E].
  - split; [intros H; contradiction |]. split; [reflexivity |].
    split; [auto |].
    destruct (configureDetectorFromEnvironment_preference w g) as (Hd & Hp & Ho & _).
    cbv zeta in *.
    destruct (String.eqb_spec (Getenv w "ACT_CONTAINER_RUNTIME") "docker") as [E1 | E1];
      [rewrite Hd by exact E1; discriminate |].
    destruct (String.eqb_spec (Getenv w "ACT_CONTAINER_RUNTIME") "podman") as [E2 | E2];
      [rewrite Hp by exact E2; discriminate |].
    rewrite Ho by assumption. auto.
  - split; [reflexivity |]. split; [intros H; contradiction |].
    split; [auto |].
    destruct (configureDetectorFromEnvironment_preference w g) as (Hd & Hp & Ho & _).
    cbv zeta in *.
    destruct (String.eqb_spec (Getenv w "ACT_CONTAINER_RUNTIME") "docker") as [E1 | E1];
      [rewrite Hd by exact E1; discriminate |].
    destruct (String.eqb_spec (Getenv w "ACT_CONTAINER_RUNTIME") "podman") as [E2 | E2];
      [rewrite Hp by exact E2; discriminate |].
    rewrite Ho by assumption. auto.
Qed.

Lemma X15_configure_is_idempotent_witness :
  customSocket (globalDetector (snd (configureDetectorFromEnvironment bareWorld
    (snd (SetGlobalCustomSocket "/custom/socket" init))))) <> "".
Proof.
  apply (proj1 (proj2 (proj2 (proj2 (proj2 (X15_configure_is_idempotent bareWorld
           (snd (SetGlobalCustomSocket "/custom/socket" init)))))))).
  discriminate.
Defined.

Lemma getSelectedRuntime_no_override (w : World) (g : Globals) :
  runtimeOverride g = RuntimeUnknown ->
  getSelectedRuntime w g =
  (DetectAvailableRuntime
     (globalDetector (snd (configureDetectorFromEnvironment w g))) w,
   snd (configureDetectorFromEnvironment w g)).
Proof.
  intros H. unfold getSelectedRuntime, bind, gets, ret. cbv beta iota. rewrite H.
  change (negb (runtime_eqb RuntimeUnknown RuntimeUnknown)) with false.
  cbv beta iota.
  destruct (configureDetectorFromEnvironment w g) as [u g1]. reflexivity.
Qed.

Lemma getSelectedRuntime_stable (w : World) (g : Globals) :
  getSelectedRuntime w (snd (getSelectedRuntime w g))
  = (fst (getSelectedRuntime w g), snd (getSelectedRuntime w g)).
Proof.
  destruct (decide (runtimeOverride g = RuntimeUnknown)) as [Ho | Ho].
  - rewrite (getSelectedRuntime_no_override w g Ho). cbn [fst snd].
    rewrite getSelectedRuntime_no_override
      by (rewrite <- Ho; apply configureDetectorFromEnvironment_preference).
    rewrite configureDetectorFromEnvironment_idempotent. reflexivity.
  - rewrite (getSelectedRuntime_override w g Ho). cbn [fst snd].
    rewrite (getSelectedRuntime_override w g Ho). reflexivity.
Qed.

(** X16: a resolution repeated on the same host gives the same answer.  The
    first call may write the environment into the detector; after it the
    state is settled: a second [getSelectedRuntime] returns the same runtime
    and leaves the state as it is, and [NewContainer] then makes the adapter
    of that same runtime. *)
Theorem X16_resolution_is_stable (w : World) (i : NewContainerInput) (g : Globals) :
  let r := fst (getSelectedRuntime w g) in
  let g1 := snd (getSelectedRuntime w g) in
  getSelectedRuntime w g1 = (r, g1) /\
  GetCurrentRuntime w g1 = (r, g1) /\
  NewContainer w i g1 = (adapterFor r i, g1) /\
  NewContainer w i g = (adapterFor r i, g1).
Proof.
  cbv zeta. split; [apply getSelectedRuntime_stable |].
  split; [apply getSelectedRuntime_stable |].
  split.
  - rewrite NewContainer_adapterFor, getSelectedRuntime_stable. reflexivity.
  - apply NewContainer_adapterFor.
Qed.

(** X17: the environment overwrites what the program set, and what it wrote
    stays.  With no override, one resolution on a host whose
    ACT_CONTAINER_RUNTIME is the name of Docker or Podman replaces the
    preference set by [SetRuntimePreference] with that runtime, and a later
    resolution on a host where the variable is unset still finds it there. *)
Theorem X17_environment_overwrites_preference (w w' : World) (g : Globals)
  (set named : ContainerRuntime) :
  runtimeOverride g = RuntimeUnknown ->
  named <> RuntimeUnknown ->
  Getenv w "ACT_CONTAINER_RUNTIME" = String_of named ->
  Getenv w' "ACT_CONTAINER_RUNTIME" = "" ->
  let g1 := snd (SetRuntimePreference set g) in
  let g2 := snd (getSelectedRuntime w g1) in
  let g3 := snd (getSelectedRuntime w' g2) in
  preferredRuntime (globalDetector g1) = set /\
  preferredRuntime (globalDetector g2) = named /\
  preferredRuntime (globalDetector g3) = named.
Proof.
  intros Ho Hn He He' g1 g2 g3.
  assert (Ho1 : runtimeOverride g1 = RuntimeUnknown) by exact Ho.
  assert (H2 : g2 = snd (configureDetectorFromEnvironment w g1)).
  { unfold g2. rewrite (getSelectedRuntime_no_override w g1 Ho1). reflexivity. }
  assert (Ho2 : runtimeOverride g2 = RuntimeUnknown).
  { rewrite H2, <- Ho1. apply configureDetectorFromEnvironment_preference. }
  assert (H3 : g3 = snd (configureDetectorFromEnvironment w' g2)).
  { unfold g3. rewrite (getSelectedRuntime_no_override w' g2 Ho2). reflexivity. }
  assert (P2 : preferredRuntime (globalDetector g2) = named).
  { rewrite H2.
    destruct (configureDetectorFromEnvironment_preference w g1) as (Hd & Hp & _).
    cbv zeta in Hd, Hp. rewrite He in Hd, Hp.
    destruct named; [contradiction | apply Hd; reflexivity | apply Hp; reflexivity]. }
  split; [reflexivity |]. split; [exact P2 |].
  rewrite H3.
  destruct (configureDetectorFromEnvironment_preference w' g2) as (_ & _ & Hk & _).
  cbv zeta in Hk. rewrite He' in Hk. rewrite Hk by discriminate. exact P2.
Qed.

Lemma X17_environment_overwrites_preference_witness :
  preferredRuntime (globalDetector (snd (SetRuntimePreference RuntimeDocker init)))
  = RuntimeDocker /\
  preferredRuntime (globalDetector (snd (getSelectedRuntime podmanNamedWorld
    (snd (SetRuntimePreference RuntimeDocker init))))) = RuntimePodman /\
  preferredRuntime (globalDetector (snd (getSelectedRuntime bareWorld
    (snd (getSelectedRuntime podmanNamedWorld
       (snd (SetRuntimePreference RuntimeDocker init))))))) = RuntimePodman.
Proof.
  assert (He : Getenv podmanNamedWorld "ACT_CONTAINER_RUNTIME" = String_of RuntimePodman)
    by (vm_compute; reflexivity).
  apply (X17_environment_overwrites_preference podmanNamedWorld bareWorld init
           RuntimeDocker RuntimePodman eq_refl ltac:(discriminate) He eq_refl).
Defined.

(** X18: [GetAvailableRuntimes] lists each verified backend once, Docker
    before Podman, and nothing else; the slice it returns is nil exactly when
    it is empty; the package state is not changed. *)
Theorem X18_GetAvailableRuntimes_contents (w : World) (g : Globals) :
  let available := fst (GetAvailableRuntimes w g) in
  snd (GetAvailableRuntimes w g) = g /\
  elements_of available =
    List.filter (verifyRuntime (globalDetector g) w) [ RuntimeDocker; RuntimePodman ] /\
  List.NoDup (elements_of available) /\
  (forall r, In r (elements_of available) <->
     r <> RuntimeUnknown /\ verifyRuntime (globalDetector g) w r = true) /\
  (available = nil_slice <-> elements_of available = []).
Proof.
  cbv zeta. split; [reflexivity |].
  split; [| split; [| split; [apply GetAvailableRuntimes_verified |]]];
    unfold GetAvailableRuntimes, bind, gets, ret; cbn [fst snd];
    cbn [List.filter verifyRuntime];
    destruct (verifyDocker (globalDetector g) w), (verifyPodman (globalDetector g) w);
    cbn.
  all: try reflexivity.
  all: try (split; [discriminate | discriminate]).
  all: try (split; reflexivity).
  all: repeat constructor; simpl; intuition discriminate.
Qed.

(** X19: forced creation and the list of available runtimes agree: on one
    host, [NewContainerWithRuntime] hands out a real adapter for exactly the
    runtimes [GetAvailableRuntimes] lists, and the null container for every
    other. *)
Theorem X19_forced_creation_matches_available (w : World) (i : NewContainerInput)
  (r : ContainerRuntime) (g : Globals) :
  (isRealAdapter (fst (NewContainerWithRuntime w i r g)) <->
   In r (elements_of (fst (GetAvailableRuntimes w g)))) /\
  (~ In r (elements_of (fst (GetAvailableRuntimes w g))) ->
   fst (NewContainerWithRuntime w i r g) = newNullContainer i).
Proof.
  rewrite NewContainerWithRuntime_spec, GetAvailableRuntimes_verified. cbn [fst].
  destruct (verifyRuntime (globalDetector g) w r) eqn:Hv.
  - pose proof (verifyRuntime_known _ _ _ Hv) as Hk. split.
    + destruct r; simpl; [contradiction | tauto | tauto].
    + intros H. exfalso. apply H. split; [exact Hk | reflexivity].
  - split; [| reflexivity]. simpl. split; [contradiction |].
    intros [_ H]. discriminate H.
Qed.

Lemma X19_forced_creation_matches_available_witness :
  fst (NewContainerWithRuntime dockerWorld (mkInput "test:latest" "test-container")
         RuntimePodman init)
  = newNullContainer (mkInput "test:latest" "test-container").
Proof.
  apply (proj2 (X19_forced_creation_matches_available dockerWorld
                  (mkInput "test:latest" "test-container") RuntimePodman init)).
  vm_compute. intros [H | []]. discriminate H.
Defined.

(** X20: every operation of the null container that can fail does fail,
    whatever container it is called on and whatever its arguments, and all
    of them return one and the same error on a given host: [Create], [Copy],
    [CopyTarStream], [CopyDir], [Pull], [Start], [Exec], [UpdateFromEnv],
    [UpdateFromImageEnv], [Remove] and [Close] return it, and
    [GetContainerArchive] returns it with no reader.  The error is the fixed
    first line followed by the report; it depends on the host only, not on
    the preference, the custom socket or the override of the package, which
    the operations leave as they are; it starts with the fixed line and holds
    the install guidance. *)
Theorem X20_null_container_one_error (FileEntry Reader ReadCloser : Type)
  (n : nullContainer) (w : World) (g : Globals)
  (capAdd capDrop command : list string) (destPath srcPath user workdir : string)
  (files : list FileEntry) (tarStream : Reader)
  (useGitIgnore forcePull attach : bool) (env : gmap string string) :
  let text := "no container runtime available" ++ LF ++ LF
              ++ GetHelpfulErrorMessage (globalDetector g) w in
  Null.Create n capAdd capDrop w g = (Some text, g) /\
  Null.Copy n destPath files w g = (Some text, g) /\
  Null.CopyTarStream n w destPath tarStream g = (Some text, g) /\
  Null.CopyDir n destPath srcPath useGitIgnore w g = (Some text, g) /\
  Null.GetContainerArchive (ReadCloser := ReadCloser) n w srcPath g
  = ((None, Some text), g) /\
  Null.Pull n forcePull w g = (Some text, g) /\
  Null.Start n attach w g = (Some text, g) /\
  Null.Exec n command env user workdir w g = (Some text, g) /\
  Null.UpdateFromEnv n srcPath env w g = (Some text, g) /\
  Null.UpdateFromImageEnv n env w g = (Some text, g) /\
  Null.Remove n w g = (Some text, g) /\
  Null.Close n w g = (Some text, g) /\
  (forall g' : Globals, fst (Null.noRuntime w g') = Some text) /\
  strings.HasPrefix text "no container runtime available" = true /\
  hasInstallGuidance text.
Proof.
  intros text.
  assert (Hrun : Null.noRuntime w g = (Some text, g)).
  { unfold Null.noRuntime, GetRuntimeDetectionError, Errorf_no_runtime,
      bind, gets, ret. reflexivity. }
  assert (Harchive : Null.GetContainerArchive (ReadCloser := ReadCloser) n w srcPath g
                     = ((None, Some text), g)).
  { unfold Null.GetContainerArchive, bind, ret. rewrite Hrun. reflexivity. }
  destruct (GetHelpfulErrorMessage_guidance (globalDetector g) w)
    as [(_ & H1 & H2 & H3 & H4) _].
  split; [exact Hrun |]. split; [exact Hrun |]. split; [exact Hrun |].
  split; [exact Hrun |]. split; [exact Harchive |]. split; [exact Hrun |].
  split; [exact Hrun |]. split; [exact Hrun |]. split; [exact Hrun |].
  split; [exact Hrun |]. split; [exact Hrun |]. split; [exact Hrun |].
  split; [intros g'; reflexivity |].
  split; [reflexivity |].
  unfold hasInstallGuidance, text. split; [discriminate |].
  split; [do 3 apply Contains_append_r; exact H1 |].
  split; [do 3 apply Contains_append_r; exact H2 |].
  split; [do 3 apply Contains_append_r; exact H3 |].
  do 3 apply Contains_append_r; exact H4.
Qed.

(** ** Clients *)

Lemma GetSocketForRuntime_scheme (rd : RuntimeDetector) (w : World)
  (r : ContainerRuntime) (uri : string) :
  customSocket rd = "" ->
  GetSocketForRuntime rd w r = (uri, true) ->
  strings.HasPrefix uri "unix://" = true \/ strings.HasPrefix uri "npipe://" = true.
Proof.
  intros Hc. unfold GetSocketForRuntime. rewrite Hc.
  change (negb (String.eqb "" "")) with false. cbv iota.
  destruct (if runtime_eqb r RuntimePodman then getPodmanMachineSocket rd w
            else ("", false)) as [p [|]].
  - intros H. inversion H; subst uri. left. apply HasPrefix_append.
  - intros H. apply firstSocketFor_found in H. destruct H as (s & _ & _ & _ & ->).
    apply socketHost_scheme.
Qed.

Lemma GetSocketForRuntime_custom (rd : RuntimeDetector) (w : World)
  (r : ContainerRuntime) :
  customSocket rd <> "" -> GetSocketForRuntime rd w r = (customSocket rd, true).
Proof.
  intros Hc. apply String.eqb_neq in Hc. unfold GetSocketForRuntime.
  rewrite Hc. reflexivity.
Qed.

Lemma scheme_not_ssh (uri : string) :
  strings.HasPrefix uri "unix://" = true \/ strings.HasPrefix uri "npipe://" = true ->
  strings.HasPrefix uri "ssh://" = false.
Proof.
  unfold strings.HasPrefix. destruct uri as [| c uri]; [reflexivity |].
  cbn [String.prefix]. intros [H | H].
  - destruct (ascii_dec "u" c) as [<- | _]; [reflexivity | discriminate H].
  - destruct (ascii_dec "n" c) as [<- | _]; [reflexivity | discriminate H].
Qed.

Lemma createDockerClient_one (w : World) (lib : ClientLibrary) :
  fst (createDockerClient w lib) = None <-> snd (createDockerClient w lib) <> None.
Proof.
  unfold createDockerClient. cbv zeta.
  destruct (strings.HasPrefix _ "ssh://").
  - destruct (GetConnectionHelper lib _) as [h | text];
      [destruct (NewClientThroughHelper lib _) |]; simpl; split; congruence.
  - destruct (NewClientFromEnv lib); simpl; split; congruence.
Qed.

(** What [createPodmanClient] returns, case by case. *)
Lemma createPodmanClient_cases (w : World) (lib : ClientLibrary) (g : Globals) :
  snd (createPodmanClient w lib g) = g /\
  (snd (GetSocketForRuntime (globalDetector g) w RuntimePodman) = false ->
   fst (createPodmanClient w lib g)
   = (None, Some "podman socket not found or not accessible")) /\
  ((exists text, fst (createPodmanClient w lib g) = (None, Some text)) \/
   (exists uri,
      fst (createPodmanClient w lib g) = (Some (ClientAt uri), None) /\
      GetSocketForRuntime (globalDetector g) w RuntimePodman = (uri, true) /\
      strings.HasPrefix uri "ssh://" = false /\
      NewClientWithOpts w uri = true /\ Ping w uri = true) \/
   (exists url helperHost,
      fst (createPodmanClient w lib g) = (Some (ClientThroughHelper url helperHost), None) /\
      GetSocketForRuntime (globalDetector g) w RuntimePodman = (url, true) /\
      strings.HasPrefix url "ssh://" = true /\
      PingThroughHelper lib url = None)).
Proof.
  unfold createPodmanClient, bind, gets, ret. cbv beta iota.
  destruct (GetSocketForRuntime (globalDetector g) w RuntimePodman) as [socket found].
  destruct found; cbn [negb snd]; cbv iota;
    [| split; [reflexivity | split; [reflexivity | left; eauto]]].
  destruct (strings.HasPrefix socket "ssh://") eqn:Hssh.
  - destruct (GetConnectionHelper lib socket) as [h | text];
      [| split; [reflexivity | split; [discriminate | left; eauto]]].
    destruct (NewClientThroughHelper lib socket);
      [split; [reflexivity | split; [discriminate | left; eauto]] |].
    destruct (PingThroughHelper lib socket) eqn:Hp;
      [split; [reflexivity | split; [discriminate | left; eauto]] |].
    split; [reflexivity |]. split; [discriminate |].
    right. right. exists socket, h. auto.
  - destruct (NewClientWithOpts w socket) eqn:Hn; cbn [negb]; cbv iota;
      [| split; [reflexivity | split; [discriminate | left; eauto]]].
    destruct (Ping w socket) eqn:Hp; cbn [negb]; cbv iota;
      [| split; [reflexivity | split; [discriminate | left; eauto]]].
    split; [reflexivity |]. split; [discriminate |].
    right. left. exists socket. auto.
Qed.

(** X21: [createPodmanClient] hands out a client only after a ping on it was
    answered, and never together with an error.  The client is on the socket
    the detector resolved for Podman; it goes through the SSH helper only
    when that socket is a custom socket starting with [ssh://], so with no
    custom socket it is a direct client on a [unix://] or [npipe://]
    address; when no socket is resolved the error says so.  The package state
    is not changed. *)
Theorem X21_createPodmanClient_pinged (w : World) (lib : ClientLibrary) (g : Globals) :
  let out := fst (createPodmanClient w lib g) in
  snd (createPodmanClient w lib g) = g /\
  (fst out = None <-> snd out <> None) /\
  (forall uri, fst out = Some (ClientAt uri) ->
     GetSocketForRuntime (globalDetector g) w RuntimePodman = (uri, true) /\
     NewClientWithOpts w uri = true /\ Ping w uri = true) /\
  (forall url helperHost, fst out = Some (ClientThroughHelper url helperHost) ->
     customSocket (globalDetector g) = url /\
     strings.HasPrefix url "ssh://" = true /\
     PingThroughHelper lib url = None) /\
  fst out <> Some ClientFromEnv /\
  (customSocket (globalDetector g) = "" ->
   forall c, fst out = Some c ->
     exists uri, c = ClientAt uri /\
       (strings.HasPrefix uri "unix://" = true \/
        strings.HasPrefix uri "npipe://" = true)) /\
  (snd (GetSocketForRuntime (globalDetector g) w RuntimePodman) = false ->
   out = (None, Some "podman socket not found or not accessible")).
Proof.
  cbv zeta.
  destruct (createPodmanClient_cases w lib g) as (Hs & Hnone & Hcases).
  split; [exact Hs |].
  assert (Hssh : forall url,
            GetSocketForRuntime (globalDetector g) w RuntimePodman = (url, true) ->
            strings.HasPrefix url "ssh://" = true ->
            customSocket (globalDetector g) = url).
  { intros url Hr Hp.
    destruct (String.eqb_spec (customSocket (globalDetector g)) "") as [Hc | Hc].
    - pose proof (scheme_not_ssh url (GetSocketForRuntime_scheme _ _ _ _ Hc Hr)).
      congruence.
    - rewrite (GetSocketForRuntime_custom _ w RuntimePodman Hc) in Hr. congruence. }
  destruct Hcases as [(text & E) | [(uri & E & Hr & Hn & Hc & Hp)
                                  | (url & h & E & Hr & Hp & Hping)]].
  - rewrite E in *. cbn [fst snd].
    split; [split; [discriminate | reflexivity] |].
    split; [discriminate |]. split; [discriminate |]. split; [discriminate |].
    split; [discriminate |]. exact Hnone.
  - rewrite E in *. cbn [fst snd].
    split; [split; [discriminate | intros H; contradiction H; reflexivity] |].
    split; [intros u H; inversion H; subst u; auto |].
    split; [discriminate |]. split; [discriminate |].
    split; [| exact Hnone].
    intros Hcu c H. inversion H; subst c. exists uri. split; [reflexivity |].
    exact (GetSocketForRuntime_scheme _ _ _ _ Hcu Hr).
  - rewrite E in *. cbn [fst snd].
    split; [split; [discriminate | intros H; contradiction H; reflexivity] |].
    split; [discriminate |].
    split; [intros u h' H; inversion H; subst u h'; auto |].
    split; [discriminate |].
    split; [| exact Hnone].
    intros Hcu c H. exfalso.
    pose proof (scheme_not_ssh url (GetSocketForRuntime_scheme _ _ _ _ Hcu Hr)).
    congruence.
Qed.

Lemma X21_createPodmanClient_pinged_witness :
  GetSocketForRuntime (globalDetector init) bothSocketsWorld RuntimePodman
    = ("unix:///run/user/1000/podman/podman.sock", true) /\
  NewClientWithOpts bothSocketsWorld "unix:///run/user/1000/podman/podman.sock" = true /\
  Ping bothSocketsWorld "unix:///run/user/1000/podman/podman.sock" = true.
Proof.
  apply (proj1 (proj2 (proj2 (X21_createPodmanClient_pinged bothSocketsWorld
                                failingLibrary init)))).
  vm_compute. reflexivity.
Defined.

(** X22: [GetContainerClient] returns a client or an error, never both and
    never neither.  When the resolution yields Unknown it returns no client
    and the very error the operations of the null container return on that
    host, with the install guidance; when it yields Docker the outcome is
    that of [createDockerClient], and when it yields Podman that of
    [createPodmanClient]. *)
Theorem X22_GetContainerClient_outcome (w : World) (lib : ClientLibrary) (g : Globals) :
  let out := fst (GetContainerClient w lib g) in
  let r := fst (getSelectedRuntime w g) in
  let g1 := snd (getSelectedRuntime w g) in
  snd (GetContainerClient w lib g) = g1 /\
  (fst out = None <-> snd out <> None) /\
  (r = RuntimeUnknown ->
   forall n capAdd capDrop,
     out = (None, fst (Null.Create n capAdd capDrop w g1)) /\
     exists msg, snd out = Some msg /\ hasInstallGuidance msg) /\
  (r = RuntimeDocker -> out = createDockerClient w lib) /\
  (r = RuntimePodman -> out = fst (createPodmanClient w lib g1)).
Proof.
  cbv zeta. unfold GetContainerClient, bind.
  destruct (getSelectedRuntime w g) as [r g1]. cbn [fst snd].
  destruct r.
  - unfold GetRuntimeDetectionError, gets, ret. cbn [fst snd].
    split; [reflexivity |].
    split; [split; [discriminate | reflexivity] |].
    split; [| split; discriminate].
    intros _ n capAdd capDrop. split; [reflexivity |].
    destruct (noRuntime_fails w g1) as (msg & E & Hg).
    exists msg. split; [| exact Hg].
    unfold Null.noRuntime, GetRuntimeDetectionError, bind, gets, ret in E.
    inversion E. reflexivity.
  - unfold ret. cbn [fst snd]. split; [reflexivity |].
    split; [apply createDockerClient_one |].
    split; [discriminate |]. split; [reflexivity | discriminate].
  - destruct (createPodmanClient_cases w lib g1) as (Hs & _ & Hcases).
    split; [exact Hs |].
    split; [| split; [discriminate | split; [discriminate | reflexivity]]].
    destruct Hcases as [(text & E) | [(uri & E & _) | (url & h & E & _)]];
      rewrite E; cbn [fst snd]; split; try discriminate; try reflexivity;
      intros H; contradiction H; reflexivity.
Qed.

Lemma X22_GetContainerClient_outcome_witness :
  exists msg,
    snd (fst (GetContainerClient bareWorld failingLibrary init)) = Some msg /\
    hasInstallGuidance msg.
Proof.
  destruct (proj1 (proj2 (proj2 (X22_GetContainerClient_outcome bareWorld
                                   failingLibrary init)))
              eq_refl (mkNull (mkInput "test:latest" "test-container")) [] [])
    as [_ H].
  exact H.
Defined.

(** X23: [connectPodman] connects once.  With a client already in place it
    does nothing and reports no error; without one it ends with a client in
    place exactly when it reports no error, and that client is a direct
    client on the socket resolved for Podman, on which the ping was answered;
    after a success, calling it again on any host changes nothing.  The
    package state is not changed. *)
Theorem X23_connectPodman_once (cli : option APIClient) (w : World)
  (lib : ClientLibrary) (g : Globals) :
  let err := fst (fst (connectPodman cli w lib g)) in
  let cli' := snd (fst (connectPodman cli w lib g)) in
  snd (connectPodman cli w lib g) = g /\
  (cli <> None -> err = None /\ cli' = cli) /\
  (cli = None ->
   (err = None <-> cli' <> None) /\
   (forall c, cli' = Some c ->
      exists uri, c = ClientAt uri /\
        GetSocketForRuntime (globalDetector g) w RuntimePodman = (uri, true) /\
        NewClientWithOpts w uri = true /\ Ping w uri = true)) /\
  (err = None ->
   forall w' lib' g', connectPodman cli' w' lib' g' = ((None, cli'), g')).
Proof.
  cbv zeta. unfold connectPodman.
  destruct cli as [c |].
  - unfold ret. cbn [fst snd]. split; [reflexivity |].
    split; [intros _; split; reflexivity |].
    split; [discriminate |]. intros _ w' lib' g'. reflexivity.
  - unfold bind, gets, ret. cbv beta iota.
    destruct (GetSocketForRuntime (globalDetector g) w RuntimePodman)
      as [socket found] eqn:Hr.
    destruct found; cbn [negb]; cbv iota.
    + destruct (NewClientWithOpts w socket) eqn:Hn; cbn [negb]; cbv iota.
      * destruct (Ping w socket) eqn:Hp; cbn [negb fst snd]; cbv iota.
        -- split; [reflexivity |].
           split; [intros H; contradiction H; reflexivity |].
           split; [| intros _ w' lib' g'; reflexivity].
           intros _. split; [split; [discriminate | reflexivity] |].
           intros c H. inversion H; subst c. exists socket. auto.
        -- split; [reflexivity |].
           split; [intros H; contradiction H; reflexivity |].
           split; [| discriminate].
           intros _. split; [split; [discriminate | intros H; contradiction H;
                                                   reflexivity] | discriminate].
      * cbn [fst snd]. split; [reflexivity |].
        split; [intros H; contradiction H; reflexivity |].
        split; [| discriminate].
        intros _. split; [split; [discriminate | intros H; contradiction H;
                                                reflexivity] | discriminate].
    + cbn [fst snd]. split; [reflexivity |].
      split; [intros H; contradiction H; reflexivity |].
      split; [| discriminate].
      intros _. split; [split; [discriminate | intros H; contradiction H;
                                              reflexivity] | discriminate].
Qed.

(** A first call on the host with both sockets connects; a second call, on a
    host with nothing on it, leaves the client in place. *)
Lemma X23_connectPodman_once_witness :
  connectPodman (snd (fst (connectPodman None bothSocketsWorld failingLibrary init)))
    bareWorld failingLibrary init
  = ((None, snd (fst (connectPodman None bothSocketsWorld failingLibrary init))), init).
Proof.
  apply (proj2 (proj2 (proj2 (X23_connectPodman_once None bothSocketsWorld
                                failingLibrary init)))).
  vm_compute. reflexivity.
Defined.

(** ** What verification asks for *)

(** X24: a backend never verifies without its command-line binary, looked up
    under the very name [String] gives it.  Docker verifies exactly when the
    binary is found, a socket location is found, a client can be made on it
    and the ping is answered; Podman verifies exactly when the binary is
    found and [podman info] succeeds.  So forced creation for a backend whose
    binary is missing gives the null container, also when its daemon would
    answer. *)
Theorem X24_verification_needs_binary (rd : RuntimeDetector) (w : World)
  (i : NewContainerInput) (r : ContainerRuntime) (g : Globals) :
  (verifyRuntime rd w r = true -> r <> RuntimeUnknown /\ LookPath w (String_of r) = true) /\
  (verifyRuntime rd w RuntimeDocker = true <->
   LookPath w "docker" = true /\ snd (socketLocation w) = true /\
   NewClientWithOpts w (fst (socketLocation w)) = true /\
   Ping w (fst (socketLocation w)) = true) /\
  (verifyRuntime rd w RuntimePodman = true <->
   LookPath w "podman" = true /\
   RunCommand w "podman" ["info"; "--format"; "json"] <> None) /\
  (LookPath w (String_of r) = false ->
   fst (NewContainerWithRuntime w i r g) = newNullContainer i).
Proof.
  assert (Hd : verifyRuntime rd w RuntimeDocker = true <->
               LookPath w "docker" = true /\ snd (socketLocation w) = true /\
               NewClientWithOpts w (fst (socketLocation w)) = true /\
               Ping w (fst (socketLocation w)) = true).
  { simpl. unfold verifyDocker. destruct (socketLocation w) as [socket found].
    cbn [fst snd].
    destruct (LookPath w "docker"), found, (NewClientWithOpts w socket), (Ping w socket);
      simpl; intuition congruence. }
  assert (Hp : verifyRuntime rd w RuntimePodman = true <->
               LookPath w "podman" = true /\
               RunCommand w "podman" ["info"; "--format"; "json"] <> None).
  { simpl. unfold verifyPodman.
    destruct (LookPath w "podman"), (RunCommand w "podman" _);
      simpl; intuition congruence. }
  assert (Hb : forall rd', verifyRuntime rd' w r = true ->
               r <> RuntimeUnknown /\ LookPath w (String_of r) = true).
  { intros rd' H. destruct r; [discriminate H | |].
    - split; [discriminate |]. rewrite (verifyRuntime_any_detector rd' rd) in H.
      apply Hd in H. apply H.
    - split; [discriminate |]. rewrite (verifyRuntime_any_detector rd' rd) in H.
      apply Hp in H. apply H. }
  split; [apply Hb |]. split; [exact Hd |]. split; [exact Hp |].
  intros Hl. rewrite NewContainerWithRuntime_spec. cbn [fst].
  destruct (verifyRuntime (globalDetector g) w r) eqn:Hv; [| reflexivity].
  apply Hb in Hv. destruct Hv as [_ Hv]. congruence.
Qed.

(** On a host without the docker binary, forcing Docker gives the null
    container. *)
Lemma X24_verification_needs_binary_witness :
  fst (NewContainerWithRuntime machineWorld (mkInput "test:latest" "test-container")
         RuntimeDocker init)
  = newNullContainer (mkInput "test:latest" "test-container").
Proof.
  apply (proj2 (proj2 (proj2 (X24_verification_needs_binary NewRuntimeDetector
           machineWorld (mkInput "test:latest" "test-container") RuntimeDocker init)))).
  vm_compute. reflexivity.
Defined.

(** ** A custom socket *)

Lemma length_append_string (a b : string) :
  String.length (a ++ b) = (String.length a + String.length b)%nat.
Proof.
  induction a as [| c a IH]; [reflexivity |].
  change (String c a ++ b) with (String c (a ++ b)). simpl. rewrite IH. reflexivity.
Qed.

Lemma length_ReplaceByte (s : string) (old new : ascii) :
  String.length (strings.ReplaceByte s old new) = String.length s.
Proof. induction s as [| c s IH]; simpl; [reflexivity | rewrite IH; reflexivity]. Qed.

Lemma socketHost_longer (w : World) (path : string) : socketHost w path <> path.
Proof.
  intros H. apply (f_equal String.length) in H. unfold socketHost, ToSlash in H.
  destruct (strings.HasPrefix path pipe_prefix);
    [destruct (Ascii.eqb (Separator w) "/") |];
    rewrite length_append_string, ?length_ReplaceByte in H; simpl in H; lia.
Qed.

(** X25: with a custom socket configured, auto-detection makes one probe
    only, on the custom socket with a scheme put in front of it, and answers
    the runtime guessed from the socket's name exactly when a client can be
    made there and the ping is answered, Unknown otherwise;
    [GetSocketForRuntime] meanwhile returns the custom socket as it is
    written, for every runtime, which is never the address that
    auto-detection probed. *)
Theorem X25_custom_socket_probe (rd : RuntimeDetector) (w : World)
  (r : ContainerRuntime) :
  customSocket rd <> "" ->
  let probed := socketHost w (customSocket rd) in
  let answers := NewClientWithOpts w probed = true /\ Ping w probed = true in
  (autoDetectRuntime rd w = guessRuntimeFromSocket rd (customSocket rd) <-> answers) /\
  (autoDetectRuntime rd w = RuntimeUnknown <-> ~ answers) /\
  GetSocketForRuntime rd w r = (customSocket rd, true) /\
  fst (GetSocketForRuntime rd w r) <> probed.
Proof.
  intros Hc probed answers.
  assert (Hg : guessRuntimeFromSocket rd (customSocket rd) <> RuntimeUnknown).
  { unfold guessRuntimeFromSocket. cbv zeta.
    destruct (strings.Contains _ "podman"); [discriminate |].
    destruct (strings.Contains _ "docker"); discriminate. }
  assert (Ha : autoDetectRuntime rd w =
               if NewClientWithOpts w probed && Ping w probed
               then guessRuntimeFromSocket rd (customSocket rd) else RuntimeUnknown).
  { unfold autoDetectRuntime, detectRuntimeSockets.
    apply String.eqb_neq in Hc. rewrite Hc. cbn.
    unfold verifySocketConnection. cbn. fold probed.
    destruct (NewClientWithOpts w probed), (Ping w probed); reflexivity. }
  rewrite Ha, (GetSocketForRuntime_custom rd w r Hc). cbn [fst]. subst answers.
  split; [| split; [| split; [reflexivity |]]].
  - destruct (NewClientWithOpts w probed), (Ping w probed); simpl;
      intuition congruence.
  - destruct (NewClientWithOpts w probed), (Ping w probed); simpl;
      intuition congruence.
  - intros H. symmetry in H. exact (socketHost_longer w _ H).
Qed.

(** The custom socket of the package's documentation, written with its
    scheme: the address probed carries the scheme twice. *)
Lemma X25_custom_socket_probe_witness :
  GetSocketForRuntime
    (SetCustomSocket NewRuntimeDetector "unix:///run/user/1000/podman/podman.sock")
    bothSocketsWorld RuntimePodman
  = ("unix:///run/user/1000/podman/podman.sock", true) /\
  fst (GetSocketForRuntime
         (SetCustomSocket NewRuntimeDetector "unix:///run/user/1000/podman/podman.sock")
         bothSocketsWorld RuntimePodman)
  <> "unix://unix:///run/user/1000/podman/podman.sock".
Proof.
  apply (X25_custom_socket_probe
           (SetCustomSocket NewRuntimeDetector "unix:///run/user/1000/podman/podman.sock")
           bothSocketsWorld RuntimePodman).
  discriminate.
Defined.
